(** * openalex-content-api: the worker's request pipeline

    A shallow embedding of the two Cloudflare-worker sources of the
    repository:

    - [src/index.ts], serving [/works/{id}/best_oa_location/{pdf|parsed-pdf}]
      (module [Works] below);
    - the second worker source, serving [/work/{id}?format={pdf|parsed-pdf}]
      with the DOI bypass (module [Work] below).

    JavaScript strings are modelled by [string]: one character per code
    unit, code units restricted to 0..255.  External services (D1, the
    OpenAlex API, DynamoDB, R2, S3, the clock, the console) are calls of a
    small free monad; a world answers them and the run records the trace. *)

From Stdlib Require Import String Ascii List ZArith Bool Lia.
Import ListNotations.
Open Scope string_scope.
Open Scope Z_scope.

Set Implicit Arguments.
Set Warnings "-register-all".

(** ** JavaScript string primitives *)

(** [!!s] for a string. *)
Definition truthy (s : string) : bool :=
  match s with "" => false | _ => true end.

Definition code (c : ascii) : Z := Z.of_nat (nat_of_ascii c).

Definition chr (z : Z) : ascii := ascii_of_nat (Z.to_nat z).

Definition is_digit (c : ascii) : bool := (48 <=? code c) && (code c <=? 57).

Definition is_lower (c : ascii) : bool := (97 <=? code c) && (code c <=? 122).

Definition is_upper (c : ascii) : bool := (65 <=? code c) && (code c <=? 90).

(** WhiteSpace and LineTerminator code units below 256:
    TAB, LF, VT, FF, CR, SP, NBSP. *)
Definition is_space (c : ascii) : bool :=
  let n := code c in
  ((9 <=? n) && (n <=? 13)) || (n =? 32) || (n =? 160).

(** Simple case mapping of one code unit.  Only ASCII letters fold; the
    handlers upper-case strings matching [[Ww]\d+] only. *)
Definition upper_char (c : ascii) : ascii :=
  if is_lower c then chr (code c - 32) else c.

(** Lower-casing is exact on 0..255: A-Z and the Latin-1 capitals
    (192..222 but the multiplication sign 215) move up by 32. *)
Definition lower_char (c : ascii) : ascii :=
  let n := code c in
  if is_upper c || ((192 <=? n) && (n <=? 222) && negb (n =? 215))
  then chr (n + 32) else c.

Fixpoint map_string (f : ascii -> ascii) (s : string) : string :=
  match s with
  | "" => ""
  | String c r => String (f c) (map_string f r)
  end.

Definition toUpperCase : string -> string := map_string upper_char.
Definition toLowerCase : string -> string := map_string lower_char.

Fixpoint trimStart (s : string) : string :=
  match s with
  | String c r => if is_space c then trimStart r else s
  | "" => ""
  end.

Fixpoint trimEnd (s : string) : string :=
  match s with
  | "" => ""
  | String c r =>
      match trimEnd r with
      | "" => if is_space c then "" else String c ""
      | r' => String c r'
      end
  end.

Definition trim (s : string) : string := trimEnd (trimStart s).

Fixpoint startsWith (s p : string) : bool :=
  match p, s with
  | "", _ => true
  | String a p', String b s' => Ascii.eqb a b && startsWith s' p'
  | String _ _, "" => false
  end.

Definition strlen (s : string) : Z := Z.of_nat (String.length s).

(** [s.indexOf(":")]-style search for one character; -1 when absent. *)
Fixpoint indexOf (s : string) (c : ascii) : Z :=
  match s with
  | "" => -1
  | String a r =>
      if Ascii.eqb a c then 0
      else let i := indexOf r c in if i <? 0 then -1 else i + 1
  end.

(** [s.slice(a, b)] and [s.slice(a)] for [0 <= a <= b <= s.length], the only
    way the handlers call them. *)
Definition slice (s : string) (a b : Z) : string :=
  String.substring (Z.to_nat a) (Z.to_nat (b - a)) s.

Definition sliceFrom (s : string) (a : Z) : string :=
  String.substring (Z.to_nat a) (String.length s - Z.to_nat a) s.

(** [s.substring(7)] on the Authorization header. *)
Definition substringFrom (s : string) (a : Z) : string := sliceFrom s a.

(** [s.split("/")]: never empty, [""] splits into [[""]]. *)
Fixpoint split (sep : ascii) (s : string) : list string :=
  match s with
  | "" => [""]
  | String c r =>
      if Ascii.eqb c sep then "" :: split sep r
      else match split sep r with
           | hd :: tl => String c hd :: tl
           | [] => [String c ""]
           end
  end.

(** [s.replace(/^\/+/, "")]. *)
Fixpoint stripLeadingSlashes (s : string) : string :=
  match s with
  | String c r => if Ascii.eqb c "/" then stripLeadingSlashes r else s
  | "" => ""
  end.

(** ** The regular expressions of [normalizeWorkId] *)

Fixpoint all_digits (s : string) : bool :=
  match s with
  | "" => true
  | String c r => is_digit c && all_digits r
  end.

(** The pattern character [W] under the [i] flag. *)
Definition is_W (c : ascii) : bool := Ascii.eqb (upper_char c) "W".

(** [/^W\d+$/i.test(s)]. *)
Definition test_W_digits (s : string) : bool :=
  match s with
  | String w (String d r) => is_W w && is_digit d && all_digits r
  | _ => false
  end.

(** [s.match(/\/W\d+$/i)]: the leftmost position where a slash is followed
    by a work code that runs to the end of the string; the result is [m[0]]. *)
Fixpoint match_slash_W_digits_end (s : string) : option string :=
  match s with
  | "" => None
  | String c r =>
      if Ascii.eqb c "/" && test_W_digits r then Some s
      else match_slash_W_digits_end r
  end.

(** A literal of the pattern matched at the head of [s] under the [i] flag;
    the rest of [s] on success. *)
Fixpoint match_literal_i (lit s : string) : option string :=
  match lit, s with
  | "", _ => Some s
  | String a lit', String b s' =>
      if Ascii.eqb (upper_char a) (upper_char b) then match_literal_i lit' s'
      else None
  | String _ _, "" => None
  end.

(** The longest run of digits at the head of [s] (a greedy [\d*]). *)
Fixpoint take_digits (s : string) : string :=
  match s with
  | String c r => if is_digit c then String c (take_digits r) else ""
  | "" => ""
  end.

(** The capture group [(W\d+)] tried at the head of [s]. *)
Definition capture_W_digits (s : string) : option string :=
  match s with
  | String w (String d r) =>
      if is_W w && is_digit d then Some (String w (String d (take_digits r)))
      else None
  | _ => None
  end.

(** [s.match(/https:\/\/openalex\.org\/(W\d+)/i)]: leftmost match, the
    result is the capture [match[1]]. *)
Fixpoint match_openalex_url (s : string) : option string :=
  let here :=
    match match_literal_i "https://openalex.org/" s with
    | Some rest => capture_W_digits rest
    | None => None
    end in
  match here with
  | Some cap => Some cap
  | None =>
      match s with
      | "" => None
      | String _ r => match_openalex_url r
      end
  end.

(** The character class of the global replace that builds [safeName]:
    slash, backslash, colon, star, question mark, double quote, less-than,
    greater-than and vertical bar; each occurrence becomes an underscore. *)
Definition is_path_unsafe (c : ascii) : bool :=
  let n := code c in
  (n =? 47) || (n =? 92) || (n =? 58) || (n =? 42) || (n =? 63) ||
  (n =? 34) || (n =? 60) || (n =? 62) || (n =? 124).

Definition replace_path_unsafe (s : string) : string :=
  map_string (fun c => if is_path_unsafe c then "_"%char else c) s.

(** [encodeURIComponent] on code units below 256: the unreserved set
    (letters, digits and [-_.!~*'()]) is kept, every other code unit is
    written as the percent-escaped bytes of its UTF-8 encoding. *)
Definition hex_digit (n : Z) : ascii :=
  if n <? 10 then chr (48 + n) else chr (55 + n).

Definition percent_byte (b : Z) : string :=
  String "%" (String (hex_digit (b / 16)) (String (hex_digit (b mod 16)) "")).

Definition is_uri_unreserved (c : ascii) : bool :=
  let n := code c in
  is_digit c || is_lower c || is_upper c ||
  (n =? 45) || (n =? 95) || (n =? 46) || (n =? 33) || (n =? 126) ||
  (n =? 42) || (n =? 39) || (n =? 40) || (n =? 41).

Definition encode_char (c : ascii) : string :=
  let n := code c in
  if is_uri_unreserved c then String c ""
  else if n <? 128 then percent_byte n
  else percent_byte (192 + n / 64) ++ percent_byte (128 + n mod 64).

Fixpoint encodeURIComponent (s : string) : string :=
  match s with
  | "" => ""
  | String c r => encode_char c ++ encodeURIComponent r
  end.

(** ** Values that cross the worker's boundary *)

(** A nullable string: [null] and [undefined] are [None]. *)
Definition truthy_opt (o : option string) : bool :=
  match o with Some s => truthy s | None => false end.

(** The string behind a nullable one; [o || ""] and [o!]. *)
Definition unwrap (o : option string) : string :=
  match o with Some s => s | None => "" end.

(** The JSON values the worker builds. *)
Inductive Json : Type :=
| JNull
| JBool (b : bool)
| JStr (s : string)
| JObj (fields : list (string * Json)).

Definition JStr_or_null (o : option string) : Json :=
  match o with Some s => JStr s | None => JNull end.

Definition js_truthy (j : Json) : bool :=
  match j with
  | JNull => false
  | JBool b => b
  | JStr s => truthy s
  | JObj _ => true
  end.

(** [String(v)]. *)
Definition js_String (j : Json) : string :=
  match j with
  | JNull => "null"
  | JBool true => "true"
  | JBool false => "false"
  | JStr s => s
  | JObj _ => "[object Object]"
  end.

(** An object literal, in the order its properties are written. *)
Definition Obj := list (string * Json).

Fixpoint prop (o : Obj) (k : string) : option Json :=
  match o with
  | [] => None
  | (k', v) :: r => if String.eqb k' k then Some v else prop r k
  end.

(** A [Headers] object: names are kept lower-cased, one value per name. *)
Definition Headers := list (string * string).

Fixpoint headers_get_lc (h : Headers) (name : string) : option string :=
  match h with
  | [] => None
  | (n, v) :: r => if String.eqb n name then Some v else headers_get_lc r name
  end.

Definition headers_get (h : Headers) (name : string) : option string :=
  headers_get_lc h (toLowerCase name).

Fixpoint headers_remove_lc (h : Headers) (name : string) : Headers :=
  match h with
  | [] => []
  | (n, v) :: r =>
      if String.eqb n name then headers_remove_lc r name
      else (n, v) :: headers_remove_lc r name
  end.

Definition headers_set (h : Headers) (name value : string) : Headers :=
  let n := toLowerCase name in
  (headers_remove_lc h n ++ [(n, value)])%list.

(** A parsed [URL]: [req.url] after [new URL]. *)
Record Url : Type := mkUrl {
  origin : string;
  pathname : string;
  searchParams : list (string * string);
  hash : string
}.

Fixpoint params_get (ps : list (string * string)) (k : string)
  : option string :=
  match ps with
  | [] => None
  | (k', v) :: r => if String.eqb k' k then Some v else params_get r k
  end.

Definition searchParams_get (u : Url) (k : string) : option string :=
  params_get (searchParams u) k.

Definition searchParams_delete (u : Url) (k : string) : Url :=
  mkUrl (origin u) (pathname u)
        (filter (fun kv => negb (String.eqb (fst kv) k)) (searchParams u))
        (hash u).

Record Request : Type := mkRequest {
  method : string;
  url : Url;
  req_headers : Headers
}.

Inductive Body : Type :=
| BodyText (s : string)          (* a string given to [new Response] *)
| BodyJson (j : Json)            (* the text [JSON.stringify(j)] *)
| BodyStream (bytes : string).   (* a stream handed through *)

Record Response : Type := mkResponse {
  status : Z;
  headers : Headers;
  body : Body
}.

(** The part of the platform that is pure: URL parsing and printing and
    date parsing. *)
Class Platform : Type := {
  (** [new URL(s).pathname]; [None] when the constructor throws. *)
  URL_pathname : string -> option string;
  (** [url.toString()]. *)
  URL_toString : Url -> string;
  (** The time value of [new Date(s)]; [None] for an invalid date. *)
  Date_parse : string -> option Z
}.

(** ** External collaborators *)

Inductive Outcome (A : Type) : Type :=
| Returned (a : A)
| Raised.
Arguments Raised {A}.

(** A row of [api_keys] as the query selects it. *)
Record KeyRow : Type := mkKeyRow {
  credit_card_on_file : option Z;       (* BOOLEAN, nullable *)
  expires_at : option string            (* DATETIME, NULL means never *)
}.

(** [Boolean(v)] of a nullable integer column. *)
Definition Boolean_sql (v : option Z) : bool :=
  match v with Some n => negb (n =? 0) | None => false end.

Record OaLocation : Type := mkOaLocation {
  loc_id : option string
}.

(** The catalog's answer as far as the worker reads it; a falsy
    [best_oa_location] is [None]. *)
Record OaWork : Type := mkOaWork {
  best_oa_location : option OaLocation
}.

Record FetchResponse : Type := mkFetchResponse {
  fr_ok : bool;
  fr_json : Outcome (option OaWork)     (* [None]: a falsy JSON value *)
}.

Record HttpResponse : Type := mkHttpResponse {
  resp_status : Z;
  resp_headers : Headers;
  resp_body : string;
  resp_text : Outcome string
}.

Definition resp_ok (r : HttpResponse) : bool :=
  (200 <=? resp_status r) && (resp_status r <=? 299).

Record R2Object : Type := mkR2Object {
  httpMetadata : Headers;
  r2_body : string
}.

(** [obj.writeHttpMetadata(headers)]. *)
Definition writeHttpMetadata (o : R2Object) (h : Headers) : Headers :=
  fold_left (fun acc nv => headers_set acc (fst nv) (snd nv)) (httpMetadata o) h.

Inductive R2Bucket : Type := PDFS | GROBID_XML.

Record Env : Type := mkEnv {
  AWS_ACCESS_KEY_ID : string;
  AWS_SECRET_ACCESS_KEY : string;
  AWS_REGION : string
}.

Record Item : Type := mkItem {
  item_id : option string
}.

Record QueryCommand : Type := mkQueryCommand {
  TableName : string;
  IndexName : string;
  KeyConditionExpression : string;
  nid : string;
  Limit : Z
}.

Record QueryOutput : Type := mkQueryOutput {
  Items : option (list Item)
}.

Record AwsConfig : Type := mkAwsConfig {
  accessKeyId : string;
  secretAccessKey : string;
  region : string;
  service : string
}.

(** The calls a request can make, indexed by the type of their answer. *)
Inductive Call : Type -> Type :=
| D1_first (sql bound : string) : Call (Outcome (option KeyRow))
| Date_now : Call Z
| global_fetch (endpoint : string) (cacheTtl : Z) (cacheEverything : bool)
  : Call (Outcome FetchResponse)
| Dynamo_send (cfg : AwsConfig) (q : QueryCommand) : Call (Outcome QueryOutput)
| R2_head (b : R2Bucket) (key : string) : Call (Outcome (option R2Object))
| R2_get (b : R2Bucket) (key : string) : Call (Outcome (option R2Object))
| Aws_fetch (cfg : AwsConfig) (url : string) (method : string)
  : Call (Outcome HttpResponse)
| console_warn (msg : string) (status : Z) (text : string) : Call unit
| console_error (msg : string) : Call unit.

(** Programs: return, throw, or make a call and go on with its answer. *)
Inductive Prog (A : Type) : Type :=
| Ret (a : A)
| Throw
| Vis (X : Type) (c : Call X) (k : X -> Prog A).
Arguments Throw {A}.
Arguments Vis {A X} c k.

Fixpoint bind {A B : Type} (p : Prog A) (f : A -> Prog B) : Prog B :=
  match p with
  | Ret a => f a
  | Throw => Throw
  | Vis c k => Vis c (fun x => bind (k x) f)
  end.

(** [try { p } catch { h }]. *)
Fixpoint try_catch {A : Type} (p : Prog A) (h : Prog A) : Prog A :=
  match p with
  | Ret a => Ret a
  | Throw => h
  | Vis c k => Vis c (fun x => try_catch (k x) h)
  end.

(** [await] of a call that may reject. *)
Definition await {A : Type} (c : Call (Outcome A)) : Prog A :=
  Vis c (fun o => match o with Returned a => Ret a | Raised => Throw end).

(** A call that cannot fail. *)
Definition perform {A : Type} (c : Call A) : Prog A := Vis c (@Ret A).

Notation "x <- p ;; k" := (bind p (fun x => k))
  (at level 61, p at next level, right associativity).
Notation "p ;;; k" := (bind p (fun _ => k))
  (at level 61, right associativity).

(** One recorded call with its answer. *)
Inductive Event : Type :=
| Ev (X : Type) (c : Call X) (x : X).

(** A world answers every call.  A request makes each call at most once, so
    an answer that depends on the call alone covers every behaviour of the
    collaborators during one request. *)
Definition World : Type := forall X : Type, Call X -> X.

(** Running a program in a world: the calls made, in order, and the value
    returned ([None] for an exception nobody caught). *)
Fixpoint run {A : Type} (w : World) (p : Prog A) : list Event * option A :=
  match p with
  | Ret a => ([], Some a)
  | Throw => ([], None)
  | Vis c k =>
      let x := w _ c in
      let r := run w (k x) in
      (Ev c x :: fst r, snd r)
  end.

Definition trace {A : Type} (w : World) (p : Prog A) : list Event :=
  fst (run w p).

Definition result {A : Type} (w : World) (p : Prog A) : option A :=
  snd (run w p).

(** ** Helpers shared by the two worker sources *)

Definition PDF_S3_BACKUP_BUCKET : string := "openalex-harvested-pdfs".
Definition GROBID_S3_BACKUP_BUCKET : string := "openalex-harvested-grobid-xml".

(** [new Response(msg, { status })]; only the headers the code sets itself
    are recorded. *)
Definition text_response (msg : string) (st : Z) : Response :=
  mkResponse st [] (BodyText msg).

Definition json (st : Z) (data : Json) : Response :=
  mkResponse st
    [("content-type", "application/json"); ("cache-control", "no-store")]
    (BodyJson data).

Definition jsonOrText (wantJson : bool) (st : Z) (obj : Obj) : Response :=
  if wantJson then json st (JObj obj)
  else
    match prop obj "error" with
    | Some e =>
        if js_truthy e then mkResponse st [] (BodyText (js_String e))
        else mkResponse st [] (BodyJson (JObj obj))
    | None => mkResponse st [] (BodyJson (JObj obj))
    end.

Definition s3Host (bucket region : string) : string :=
  if String.eqb region "us-east-1" then bucket ++ ".s3.amazonaws.com"
  else bucket ++ ".s3." ++ region ++ ".amazonaws.com".

Definition s3Client (env : Env) : AwsConfig :=
  mkAwsConfig (AWS_ACCESS_KEY_ID env) (AWS_SECRET_ACCESS_KEY env)
              (AWS_REGION env) "s3".

Definition s3Url (env : Env) (bucket key : string) : string :=
  "https://" ++ s3Host bucket (AWS_REGION env) ++ "/" ++ encodeURIComponent key.

(** [await resp.text().catch(() => "")]. *)
Definition text_or_empty (resp : HttpResponse) : string :=
  match resp_text resp with Returned s => s | Raised => "" end.

Definition s3HeadObject (env : Env) (bucket key : string) : Prog bool :=
  resp <- await (Aws_fetch (s3Client env) (s3Url env bucket key) "HEAD") ;;
  if resp_status resp =? 200 then Ret true
  else if (resp_status resp =? 404) || (resp_status resp =? 403) then Ret false
  else
    perform (console_warn "S3 HEAD unexpected" (resp_status resp)
                          (text_or_empty resp)) ;;;
    Ret false.

Definition s3GetObject (env : Env) (bucket key : string)
  : Prog (option HttpResponse) :=
  resp <- await (Aws_fetch (s3Client env) (s3Url env bucket key) "GET") ;;
  if resp_status resp =? 200 then Ret (Some resp)
  else if (resp_status resp =? 404) || (resp_status resp =? 403) then Ret None
  else
    perform (console_warn "S3 GET unexpected" (resp_status resp)
                          (text_or_empty resp)) ;;;
    Ret None.

Definition fetchOpenAlexWork (workId : string) (cacheTtlSeconds : Z)
  : Prog (option OaWork) :=
  let endpoint :=
    "https://api.openalex.org/works/" ++ encodeURIComponent workId ++
    "?data-version=2&select=id,best_oa_location" in
  resp <- await (global_fetch endpoint cacheTtlSeconds true) ;;
  if negb (fr_ok resp) then Ret None
  else match fr_json resp with
       | Returned j => Ret j
       | Raised => Throw
       end.

Record AuthResult : Type := mkAuthResult {
  valid : bool;
  hasCreditCard : bool;
  error : option string
}.

Definition api_key_query : string :=
  "SELECT credit_card_on_file, expires_at FROM api_keys WHERE api_key = ?".

Section Authentication.
Context {platform : Platform}.

(** [expiresAt <= now] on two [Date]s: false when [expiresAt] is invalid. *)
Definition date_le (expiresAt : option Z) (now : Z) : bool :=
  match expiresAt with Some t => t <=? now | None => false end.

(** The credential a request presents: the [api_key] query parameter or,
    without one, the bearer token of the Authorization header. *)
Definition presentedKey (req : Request) : option string :=
  let apiKey := searchParams_get (url req) "api_key" in
  if negb (truthy_opt apiKey) then
    let authHeader := headers_get (req_headers req) "Authorization" in
    if truthy_opt authHeader && startsWith (unwrap authHeader) "Bearer "
    then Some (substringFrom (unwrap authHeader) 7)
    else apiKey
  else apiKey.

Definition checkApiKey (req : Request) (env : Env) : Prog AuthResult :=
  let apiKey := presentedKey req in
  if negb (truthy_opt apiKey) then Ret (mkAuthResult false false None)
  else
    try_catch
      (keyExists <- await (D1_first api_key_query (unwrap apiKey)) ;;
       match keyExists with
       | None => Ret (mkAuthResult false false (Some "API key not found"))
       | Some row =>
           let accept :=
             Ret (mkAuthResult true (Boolean_sql (credit_card_on_file row))
                               None) in
           if truthy_opt (expires_at row) then
             let expiresAt := Date_parse (unwrap (expires_at row)) in
             now <- perform Date_now ;;
             if date_le expiresAt now then
               Ret (mkAuthResult false false
                      (Some ("API key expired on " ++ unwrap (expires_at row))))
             else accept
           else accept
       end)
      (perform (console_error "Error checking API key:") ;;;
       Ret (mkAuthResult false false (Some "Database error"))).

End Authentication.

Definition auth_default_message : string :=
  "Provide a valid API key in 'api_key' query parameter or 'Authorization' header".

(** The 401 and 403 responses of both handlers. *)
Definition unauthorized (wantJson : bool) (authResult : AuthResult) : Response :=
  let message :=
    if truthy_opt (error authResult) then unwrap (error authResult)
    else auth_default_message in
  jsonOrText wantJson 401
    [("error", JStr "Invalid or missing API key"); ("message", JStr message)].

Definition payment_required (wantJson : bool) : Response :=
  jsonOrText wantJson 403
    [("error", JStr "Payment required");
     ("message", JStr "A credit card on file is required to download files")].

(** The headers of a stream-mode success. *)
Definition content_disposition (safeName : string) : string :=
  "attachment; filename=" ++ String (chr 34) safeName ++ String (chr 34) "" ++
  "; filename*=UTF-8''" ++ encodeURIComponent safeName.

Definition r2_success (obj : R2Object) (contentType safeName : string)
  : Response :=
  let headers := writeHttpMetadata obj [] in
  let headers := headers_set headers "Content-Type" contentType in
  let headers := headers_set headers "Content-Disposition"
                             (content_disposition safeName) in
  let headers := headers_set headers "Cache-Control" "private, no-store" in
  mkResponse 200 headers (BodyStream (r2_body obj)).

Definition s3_success (s3Resp : HttpResponse) (contentType safeName : string)
  : Response :=
  let ct := headers_get (resp_headers s3Resp) "content-type" in
  let headers :=
    headers_set [] "Content-Type"
                (if truthy_opt ct then unwrap ct else contentType) in
  let headers := headers_set headers "Content-Disposition"
                             (content_disposition safeName) in
  let headers := headers_set headers "Cache-Control" "private, no-store" in
  let len := headers_get (resp_headers s3Resp) "content-length" in
  let headers :=
    if truthy_opt len then headers_set headers "Content-Length" (unwrap len)
    else headers in
  mkResponse 200 headers (BodyStream (resp_body s3Resp)).

Definition dynamoClient (env : Env) : AwsConfig :=
  mkAwsConfig (AWS_ACCESS_KEY_ID env) (AWS_SECRET_ACCESS_KEY env)
              (AWS_REGION env) "dynamodb".

Definition by_native_id (tableName nativeId : string) : QueryCommand :=
  mkQueryCommand tableName "by_native_id" "native_id = :nid" nativeId 1.

(** The body of the [try] around the index query: the uuid of the first
    item, when there is one, and [mappingFound]. *)
Definition queryUuid (env : Env) (tableName nativeId : string)
  : Prog (option string * bool) :=
  result <- await (Dynamo_send (dynamoClient env)
                               (by_native_id tableName nativeId)) ;;
  match Items result with
  | Some (item :: _) => Ret (item_id item, truthy_opt (item_id item))
  | _ => Ret (None, false)
  end.

(** The two tier probes of metadata mode. *)
Definition probeTiers (env : Env) (isGrobid : bool) (r2Key : option string)
  : Prog (bool * bool) :=
  if truthy_opt r2Key then
    let r2Bucket := if isGrobid then GROBID_XML else PDFS in
    head <- await (R2_head r2Bucket (unwrap r2Key)) ;;
    in_r2 <- match head with
             | Some _ => Ret true
             | None =>
                 obj <- await (R2_get r2Bucket (unwrap r2Key)) ;;
                 Ret (match obj with Some _ => true | None => false end)
             end ;;
    let s3Bucket :=
      if isGrobid then GROBID_S3_BACKUP_BUCKET else PDF_S3_BACKUP_BUCKET in
    in_s3 <- s3HeadObject env s3Bucket (unwrap r2Key) ;;
    Ret (in_r2, in_s3)
  else Ret (false, false).

(** The mode flag of both handlers:
    [(url.searchParams.get("json") || "").toLowerCase() === "true"]. *)
Definition wantsJson (req : Request) : bool :=
  String.eqb (toLowerCase (unwrap (searchParams_get (url req) "json"))) "true".

(** [url.pathname.replace(/^\/+/, "").split("/")]. *)
Definition pathParts (req : Request) : list string :=
  split "/" (stripLeadingSlashes (pathname (url req))).

(** [v || null] for a nullable string. *)
Definition or_null (o : option string) : Json :=
  if truthy_opt o then JStr (unwrap o) else JNull.

(** Step 2 of both handlers: the composite [best_oa_location.id] is cut at
    its first colon; [None] is the 502 branch. *)
Definition splitLocationId (locId : string) : option (string * string) :=
  let colon := indexOf locId ":" in
  if (colon <=? 0) || (colon =? strlen locId - 1) then None
  else Some (slice locId 0 colon, sliceFrom locId (colon + 1)).

Definition fileTypeName (isGrobid : bool) : string :=
  if isGrobid then "Grobid XML" else "PDF".

(** ** [src/index.ts]: [/works/{id}/best_oa_location/{pdf|parsed-pdf}] *)
Module Works.
Section Handler.
Context {platform : Platform}.

Definition normalizeWorkId (input : string) : option string :=
  if negb (truthy input) then None
  else
    let trimmed := trim input in
    if test_W_digits trimmed then Some (toUpperCase trimmed)
    else
      match URL_pathname trimmed with
      | Some pathname =>
          match match_slash_W_digits_end pathname with
          | Some m0 => Some (toUpperCase (sliceFrom m0 1))
          | None => None
          end
      | None => None
      end.

(** Steps 3 to 5 of [fetch]: index query, then metadata or stream mode. *)
Definition serve (req : Request) (env : Env) (isGrobid wantJson : bool)
    (rawId workId locId scheme nativeId : string) : Prog Response :=
  let tableName := if isGrobid then "grobid-xml" else "harvested-pdf" in
  let fileExt := if isGrobid then ".xml.gz" else ".pdf" in
  looked <-
    try_catch
      (r <- queryUuid env tableName nativeId ;; Ret (inl r))
      (perform (console_error "DynamoDB error:") ;;;
       Ret (inr (jsonOrText wantJson 500
                   [("error", JStr "Internal server error (DynamoDB)");
                    ("work_id", JStr workId);
                    ("best_oa_location_id", JStr locId);
                    ("scheme", JStr scheme);
                    ("native_id", JStr nativeId);
                    ("table_name", JStr tableName)]))) ;;
  match looked with
  | inr resp => Ret resp
  | inl (uuid, mappingFound) =>
      let r2Key :=
        if truthy_opt uuid then Some (unwrap uuid ++ fileExt) else None in
      if wantJson then
        tiers <- probeTiers env isGrobid r2Key ;;
        let in_r2 := fst tiers in
        let in_s3 := snd tiers in
        let url' := searchParams_delete (url req) "json" in
        let downloadUrl :=
          if truthy_opt r2Key && (in_r2 || in_s3)
          then JStr (URL_toString url') else JNull in
        Ret (json 200 (JObj
               [("work_id", JStr rawId);
                ("work_api", JStr ("https://api.openalex.org/works/" ++
                                   workId ++ "?data-version=2"));
                ("best_oa_location_id", JStr locId);
                ("native_id", JStr nativeId);
                ("native_id_namespace", JStr scheme);
                ("mapping_found_in_dynamodb", JBool mappingFound);
                ("file_uuid", or_null uuid);
                ("file_key", or_null r2Key);
                ("in_r2", JBool in_r2);
                ("in_s3", JBool in_s3);
                ("download_url", downloadUrl)]))
      else if negb (truthy_opt uuid) then
        Ret (text_response (fileTypeName isGrobid ++
                            " mapping not found (native_id not in DB)") 404)
      else
        let contentType :=
          if isGrobid then "application/gzip" else "application/pdf" in
        let safeName := replace_path_unsafe workId ++ fileExt in
        let r2Bucket := if isGrobid then GROBID_XML else PDFS in
        let s3Bucket :=
          if isGrobid then GROBID_S3_BACKUP_BUCKET
          else PDF_S3_BACKUP_BUCKET in
        let notFound :=
          Ret (text_response (fileTypeName isGrobid ++
                              " not found in R2 or S3 (" ++ unwrap r2Key ++ ")")
                             404) in
        r2Obj <- await (R2_get r2Bucket (unwrap r2Key)) ;;
        match r2Obj with
        | Some obj => Ret (r2_success obj contentType safeName)
        | None =>
            s3Resp <- s3GetObject env s3Bucket (unwrap r2Key) ;;
            match s3Resp with
            | Some resp =>
                if resp_ok resp
                then Ret (s3_success resp contentType safeName)
                else notFound
            | None => notFound
            end
        end
  end.

Definition fetch (req : Request) (env : Env) : Prog Response :=
  if negb (String.eqb (method req) "GET")
  then Ret (text_response "Method Not Allowed" 405)
  else
    let parts := pathParts req in
    let part := fun i => nth i parts "" in
    if negb (Z.of_nat (length parts) =? 4) ||
       negb (String.eqb (part 0%nat) "works") ||
       negb (String.eqb (part 2%nat) "best_oa_location") ||
       (negb (String.eqb (part 3%nat) "pdf") &&
        negb (String.eqb (part 3%nat) "parsed-pdf"))
    then Ret (text_response "Not Found" 404)
    else
      let isGrobid := String.eqb (part 3%nat) "parsed-pdf" in
      let wantJson := wantsJson req in
      let rawId := part 1%nat in
      let workId := normalizeWorkId rawId in
      if negb (truthy_opt workId) then
        Ret (jsonOrText wantJson 400
               [("error", JStr "Invalid work id");
                ("work_id_input", JStr rawId)])
      else
        let workId := unwrap workId in
        authResult <- checkApiKey req env ;;
        if negb (valid authResult) then Ret (unauthorized wantJson authResult)
        else if negb (hasCreditCard authResult)
        then Ret (payment_required wantJson)
        else
          oa <- fetchOpenAlexWork workId 300 ;;
          match oa with
          | Some {| best_oa_location := Some loc |} =>
              match loc_id loc with
              | None => Throw     (* [locId.indexOf] on a missing id *)
              | Some locId =>
                  match splitLocationId locId with
                  | None =>
                      Ret (jsonOrText wantJson 502
                             [("error",
                               JStr "Unrecognized best_oa_location.id format");
                              ("work_id", JStr workId);
                              ("best_oa_location_id", JStr locId)])
                  | Some (scheme, nativeId) =>
                      serve req env isGrobid wantJson rawId workId locId
                            scheme nativeId
                  end
              end
          | _ =>
              Ret (jsonOrText wantJson 404
                     [("error", JStr "No best_oa_location for this work");
                      ("work_id", JStr workId)])
          end.

End Handler.
End Works.

(** ** The second worker source: [/work/{id}?format={pdf|parsed-pdf}] *)
Module Work.
Section Handler.
Context {platform : Platform}.

Definition normalizeWorkId (input : string) : option string :=
  if negb (truthy input) then None
  else
    let trimmed := trim input in
    if test_W_digits trimmed then Some (toUpperCase trimmed)
    else
      let viaPrefix :=
        if startsWith trimmed "https://openalex.org/W"
        then match match_openalex_url trimmed with
             | Some m1 => Some (toUpperCase m1)
             | None => None
             end
        else None in
      match viaPrefix with
      | Some w => Some w
      | None =>
          match URL_pathname trimmed with
          | Some pathname =>
              match match_slash_W_digits_end pathname with
              | Some m0 => Some (toUpperCase (sliceFrom m0 1))
              | None => None
              end
          | None => None
          end
      end.

(** [workId || rawId]. *)
Definition idOrRaw (workId : option string) (rawId : string) : string :=
  if truthy_opt workId then unwrap workId else rawId.

(** Steps 3 to 5 of [fetch]; [workId] and [locId] are null for a DOI. *)
Definition serve (req : Request) (env : Env) (isGrobid wantJson : bool)
    (rawId : string) (workId locId : option string)
    (scheme nativeId : string) : Prog Response :=
  let tableName := if isGrobid then "grobid-xml" else "harvested-pdf" in
  let fileExt := if isGrobid then ".xml.gz" else ".pdf" in
  looked <-
    try_catch
      (r <- queryUuid env tableName nativeId ;; Ret (inl r))
      (perform (console_error "DynamoDB error:") ;;;
       Ret (inr (jsonOrText wantJson 500
                   [("error", JStr "Internal server error (DynamoDB)");
                    ("work_id", JStr (idOrRaw workId rawId));
                    ("best_oa_location_id", JStr_or_null locId);
                    ("scheme", JStr scheme);
                    ("native_id", JStr nativeId);
                    ("table_name", JStr tableName)]))) ;;
  match looked with
  | inr resp => Ret resp
  | inl (uuid, mappingFound) =>
      let r2Key :=
        if truthy_opt uuid then Some (unwrap uuid ++ fileExt) else None in
      if wantJson then
        tiers <- probeTiers env isGrobid r2Key ;;
        let in_r2 := fst tiers in
        let in_s3 := snd tiers in
        let url' := searchParams_delete (url req) "json" in
        let downloadUrl :=
          if truthy_opt r2Key && (in_r2 || in_s3)
          then JStr (URL_toString url') else JNull in
        Ret (json 200 (JObj
               [("work_id", JStr rawId);
                ("work_api",
                 if truthy_opt workId
                 then JStr ("https://api.openalex.org/works/" ++
                            unwrap workId ++ "?data-version=2")
                 else JNull);
                ("best_oa_location_id", JStr_or_null locId);
                ("native_id", JStr nativeId);
                ("native_id_namespace", JStr scheme);
                ("mapping_found_in_dynamodb", JBool mappingFound);
                ("file_uuid", or_null uuid);
                ("file_key", or_null r2Key);
                ("in_r2", JBool in_r2);
                ("in_s3", JBool in_s3);
                ("download_url", downloadUrl)]))
      else if negb (truthy_opt uuid) then
        Ret (text_response (fileTypeName isGrobid ++
                            " mapping not found (native_id not in DB)") 404)
      else
        let contentType :=
          if isGrobid then "application/gzip" else "application/pdf" in
        let safeName :=
          replace_path_unsafe (idOrRaw workId rawId) ++ fileExt in
        let r2Bucket := if isGrobid then GROBID_XML else PDFS in
        let s3Bucket :=
          if isGrobid then GROBID_S3_BACKUP_BUCKET
          else PDF_S3_BACKUP_BUCKET in
        let notFound :=
          Ret (text_response (fileTypeName isGrobid ++
                              " not found in R2 or S3 (" ++ unwrap r2Key ++ ")")
                             404) in
        r2Obj <- await (R2_get r2Bucket (unwrap r2Key)) ;;
        match r2Obj with
        | Some obj => Ret (r2_success obj contentType safeName)
        | None =>
            s3Resp <- s3GetObject env s3Bucket (unwrap r2Key) ;;
            match s3Resp with
            | Some resp =>
                if resp_ok resp
                then Ret (s3_success resp contentType safeName)
                else notFound
            | None => notFound
            end
        end
  end.

(** Steps 1 and 2 of [fetch], run for a work id only: the catalog lookup
    and the split of [best_oa_location.id].  [inr] is an early response,
    [inl] carries [locId], [scheme] and [nativeId]. *)
Definition resolve (wantJson : bool) (workId : string)
  : Prog (option string * string * string + Response) :=
  oa <- fetchOpenAlexWork workId 300 ;;
  match oa with
  | Some {| best_oa_location := Some loc |} =>
      let locId := loc_id loc in
      if negb (truthy_opt locId) then
        Ret (inr (jsonOrText wantJson 502
                    [("error", JStr "Missing best_oa_location.id");
                     ("work_id", JStr workId)]))
      else
        match splitLocationId (unwrap locId) with
        | None =>
            Ret (inr (jsonOrText wantJson 502
                        [("error",
                          JStr "Unrecognized best_oa_location.id format");
                         ("work_id", JStr workId);
                         ("best_oa_location_id", JStr (unwrap locId))]))
        | Some (scheme, nativeId) => Ret (inl (locId, scheme, nativeId))
        end
  | _ =>
      Ret (inr (jsonOrText wantJson 404
                  [("error", JStr "No best_oa_location for this work");
                   ("work_id", JStr workId)]))
  end.

Definition fetch (req : Request) (env : Env) : Prog Response :=
  if negb (String.eqb (method req) "GET")
  then Ret (text_response "Method Not Allowed" 405)
  else
    let parts := pathParts req in
    let part := fun i => nth i parts "" in
    if negb (Z.of_nat (length parts) =? 2) ||
       negb (String.eqb (part 0%nat) "work")
    then Ret (text_response "Not Found" 404)
    else
      let format := searchParams_get (url req) "format" in
      if negb (truthy_opt format) ||
         (negb (String.eqb (unwrap format) "pdf") &&
          negb (String.eqb (unwrap format) "parsed-pdf"))
      then
        Ret (text_response
               "Bad Request: format query parameter must be 'pdf' or 'parsed-pdf'"
               400)
      else
        let isGrobid := String.eqb (unwrap format) "parsed-pdf" in
        let wantJson := wantsJson req in
        let rawId := part 1%nat in
        let isDoi := startsWith rawId "10." in
        let workId := if isDoi then None else normalizeWorkId rawId in
        if negb isDoi && negb (truthy_opt workId) then
          Ret (jsonOrText wantJson 400
                 [("error", JStr "Invalid work id");
                  ("work_id_input", JStr rawId)])
        else
          authResult <- checkApiKey req env ;;
          if negb (valid authResult)
          then Ret (unauthorized wantJson authResult)
          else if negb (hasCreditCard authResult)
          then Ret (payment_required wantJson)
          else
            resolved <-
              (if negb isDoi then resolve wantJson (unwrap workId)
               else Ret (inl (None, "doi", rawId))) ;;
            match resolved with
            | inr resp => Ret resp
            | inl (locId, scheme, nativeId) =>
                serve req env isGrobid wantJson rawId workId locId
                      scheme nativeId
            end.

End Handler.
End Work.

(** ** A concrete platform and constant worlds, for the examples *)

(** The example platform answers for the strings of the examples only: it
    knows the URLs under [https://openalex.org/] (written without query or
    fragment) and rejects any other string, as [new URL] rejects the strings
    without a scheme that the examples give it ("10.1:b" begins with a digit);
    it parses two timestamps. *)
Definition example_URL_pathname (s : string) : option string :=
  if startsWith s "https://openalex.org/" then Some (sliceFrom s 20) else None.

Fixpoint print_params (ps : list (string * string)) : string :=
  match ps with
  | [] => ""
  | [(k, v)] => k ++ "=" ++ v
  | (k, v) :: r => k ++ "=" ++ v ++ "&" ++ print_params r
  end.

Definition example_URL_toString (u : Url) : string :=
  origin u ++ pathname u ++
  match searchParams u with
  | [] => ""
  | ps => "?" ++ print_params ps
  end ++ hash u.

Definition example_Date_parse (s : string) : option Z :=
  if String.eqb s "2020-01-01T00:00:00Z" then Some 1577836800000
  else if String.eqb s "2030-01-01T00:00:00Z" then Some 1893456000000
  else None.

Definition example_platform : Platform :=
  {| URL_pathname := example_URL_pathname;
     URL_toString := example_URL_toString;
     Date_parse := example_Date_parse |}.

(** A world that gives each kind of call one answer. *)
Definition const_world
    (row : Outcome (option KeyRow)) (now : Z)
    (catalog : Outcome FetchResponse) (index : Outcome QueryOutput)
    (head get : Outcome (option R2Object))
    (backup : Outcome HttpResponse) : World :=
  fun X c =>
    match c in Call T return T with
    | D1_first _ _ => row
    | Date_now => now
    | global_fetch _ _ _ => catalog
    | Dynamo_send _ _ => index
    | R2_head _ _ => head
    | R2_get _ _ => get
    | Aws_fetch _ _ _ => backup
    | console_warn _ _ _ => tt
    | console_error _ => tt
    end.

Definition example_env : Env := mkEnv "AKIA" "secret" "us-east-1".

Definition paying_row : Outcome (option KeyRow) :=
  Returned (Some (mkKeyRow (Some 1) None)).

Definition catalog_with (locId : string) : Outcome FetchResponse :=
  Returned (mkFetchResponse true
    (Returned (Some (mkOaWork (Some (mkOaLocation (Some locId))))))).

Definition index_with (uuid : string) : Outcome QueryOutput :=
  Returned (mkQueryOutput (Some [mkItem (Some uuid)])).

Definition index_empty : Outcome QueryOutput :=
  Returned (mkQueryOutput (Some [])).

Definition http (st : Z) (content : string) : Outcome HttpResponse :=
  Returned (mkHttpResponse st [] content (Returned content)).

Definition get_request (path : string) (params : list (string * string))
  : Request :=
  mkRequest "GET" (mkUrl "https://content.openalex.org" path params "") [].

(** ** Reading a trace *)

Definition is_catalog (e : Event) : bool :=
  match e with
  | Ev c _ => match c with global_fetch _ _ _ => true | _ => false end
  end.

Definition is_primary_get (e : Event) : bool :=
  match e with
  | Ev c _ => match c with R2_get _ _ => true | _ => false end
  end.

Definition is_backup (e : Event) : bool :=
  match e with
  | Ev c _ => match c with Aws_fetch _ _ _ => true | _ => false end
  end.

Definition is_clock (e : Event) : bool :=
  match e with
  | Ev c _ => match c with Date_now => true | _ => false end
  end.

(** The native id a call asks the index for. *)
Definition index_query (e : Event) : option QueryCommand :=
  match e with
  | Ev c _ => match c with Dynamo_send _ q => Some q | _ => None end
  end.

Definition index_answer (e : Event) : option (Outcome QueryOutput) :=
  match e with
  | Ev c x =>
      match c in Call T return T -> option (Outcome QueryOutput) with
      | Dynamo_send _ _ => fun o => Some o
      | _ => fun _ => None
      end x
  end.

Definition catalog_answer (e : Event) : option (Outcome FetchResponse) :=
  match e with
  | Ev c x =>
      match c in Call T return T -> option (Outcome FetchResponse) with
      | global_fetch _ _ _ => fun o => Some o
      | _ => fun _ => None
      end x
  end.

Definition primary_get_answer (e : Event) : option (Outcome (option R2Object)) :=
  match e with
  | Ev c x =>
      match c in Call T return T -> option (Outcome (option R2Object)) with
      | R2_get _ _ => fun o => Some o
      | _ => fun _ => None
      end x
  end.

Definition key_answer (e : Event) : option (Outcome (option KeyRow)) :=
  match e with
  | Ev c x =>
      match c in Call T return T -> option (Outcome (option KeyRow)) with
      | D1_first _ _ => fun o => Some o
      | _ => fun _ => None
      end x
  end.

(** Every backup call of the trace comes after a primary fetch. *)
Fixpoint primary_first (seen : bool) (t : list Event) : bool :=
  match t with
  | [] => true
  | e :: r =>
      (negb (is_backup e) || seen) && primary_first (seen || is_primary_get e) r
  end.

(** The answers of one kind of call, in the order of the trace. *)
Fixpoint collect {A : Type} (f : Event -> option A) (t : list Event) : list A :=
  match t with
  | [] => []
  | e :: r =>
      match f e with
      | Some a => a :: collect f r
      | None => collect f r
      end
  end.

(** The calls made before the index is asked: the key lookup, the clock,
    the catalog, the console. *)
Definition is_front (e : Event) : bool :=
  match e with
  | Ev c _ =>
      match c with
      | D1_first _ _ | Date_now | global_fetch _ _ _ | console_error _ => true
      | _ => false
      end
  end.

(** The calls of the authorization gate alone. *)
Definition is_gate (e : Event) : bool :=
  match e with
  | Ev c _ =>
      match c with
      | D1_first _ _ | Date_now | console_error _ => true
      | _ => false
      end
  end.

(** [led_by p tail t]: the trace [t] is calls of kind [p] followed by
    [tail]. *)
Inductive led_by (p : Event -> bool) (tail : list Event)
  : list Event -> Prop :=
| led_done : led_by p tail tail
| led_call (e : Event) (t : list Event) :
    p e = true -> led_by p tail t -> led_by p tail (e :: t).

Definition fileExtOf (isGrobid : bool) : string :=
  if isGrobid then ".xml.gz" else ".pdf".

(** ** Vocabulary of the properties *)

(** A canonical work identifier: [W] and at least one digit. *)
Definition is_canonical (s : string) : bool :=
  match s with
  | String w (String d r) => Ascii.eqb w "W" && is_digit d && all_digits r
  | _ => false
  end.

(** A composite reference is malformed when it has no colon, a colon at
    position 0, or its first colon as its last character. *)
Definition colon_at (s : string) (i : nat) : Prop :=
  String.get i s = Some ":"%char.

Definition first_colon_at (s : string) (i : nat) : Prop :=
  colon_at s i /\ forall j, (j < i)%nat -> ~ colon_at s j.

Definition malformed (s : string) : Prop :=
  (forall i, ~ colon_at s i) \/
  colon_at s 0 \/
  (exists i, first_colon_at s i /\ S i = String.length s).

(** The set of the sanitizer, character by character. *)
Definition path_unsafe_chars : list ascii :=
  ["/"; "\"; ":"; "*"; "?"; chr 34; "<"; ">"; "|"]%char.

(** Removing, instead of replacing, the path-unsafe characters. *)
Fixpoint remove_path_unsafe (s : string) : string :=
  match s with
  | "" => ""
  | String c r =>
      if is_path_unsafe c then remove_path_unsafe r
      else String c (remove_path_unsafe r)
  end.

(** [needle] occurs in [hay]. *)
Fixpoint contains (hay needle : string) : bool :=
  startsWith hay needle ||
  match hay with
  | "" => false
  | String _ r => contains r needle
  end.

(** Some string of the JSON value contains [s]. *)
Fixpoint json_mentions (j : Json) (s : string) : bool :=
  match j with
  | JStr t => contains t s
  | JObj fields =>
      (fix any (l : list (string * Json)) : bool :=
         match l with
         | [] => false
         | (_, v) :: r => json_mentions v s || any r
         end) fields
  | _ => false
  end.

Definition response_mentions (r : Response) (s : string) : bool :=
  match body r with
  | BodyText t => contains t s
  | BodyJson j => json_mentions j s
  | BodyStream _ => false
  end.


(** The catalog names a composite without a colon; the credential is valid
    and has a card on file. *)
Definition malformed_world : World :=
  const_world paying_row 0 (catalog_with "no-colon") index_empty
              (Returned None) (Returned None) (http 404 "").

Definition pdf_request : Request :=
  get_request "/works/w12345/best_oa_location/pdf" [("api_key", "k")].

Definition json_request : Request :=
  get_request "/works/w12345/best_oa_location/pdf"
              [("api_key", "k"); ("json", "true")].

(** The stored key expired on 1 January 2020; the clock reads a day in
    September 2020. *)
Definition expired_row : KeyRow :=
  mkKeyRow (Some 1) (Some "2020-01-01T00:00:00Z").

Definition expired_world : World :=
  const_world (Returned (Some expired_row)) 1600000000000
              (catalog_with "doi:10.1/abc") index_empty
              (Returned None) (Returned None) (http 404 "").

(** No row is stored for the presented key. *)
Definition unknown_key_world : World :=
  const_world (Returned None) 0 (catalog_with "doi:10.1/abc") index_empty
              (Returned None) (Returned None) (http 404 "").

(** The backup tier answers 403. *)
Definition forbidden_world : World :=
  const_world paying_row 0 (catalog_with "doi:10.1/abc") index_empty
              (Returned None) (Returned None) (http 403 "").

(** The index maps the native id to [u1]; the artifact is in the primary
    tier. *)
Definition stored_object : R2Object :=
  mkR2Object [("content-type", "application/octet-stream")] "PRIMARY-BYTES".

Definition primary_world : World :=
  const_world paying_row 0 (catalog_with "doi:10.1/abc") (index_with "u1")
              (Returned (Some stored_object)) (Returned (Some stored_object))
              (http 200 "BACKUP-BYTES").

(** The artifact is in the backup tier only. *)
Definition backup_only_world : World :=
  const_world paying_row 0 (catalog_with "doi:10.1/abc") (index_with "u1")
              (Returned None) (Returned None) (http 200 "BACKUP-BYTES").

(** The index has no entry for the native id. *)
Definition unmapped_world : World :=
  const_world paying_row 0 (catalog_with "doi:10.1/abc") index_empty
              (Returned None) (Returned None) (http 404 "").

(** A DOI with a colon, on each endpoint. *)
Definition doi_request : Request :=
  get_request "/work/10.1:b" [("api_key", "k"); ("format", "pdf")].

Definition doi_path_request : Request :=
  get_request "/works/10.1:b/best_oa_location/pdf" [("api_key", "k")].

(** The stream-mode answer built from the backup tier for [doi_request]. *)
Definition backup_response : Response :=
  s3_success (mkHttpResponse 200 [] "BACKUP-BYTES" (Returned "BACKUP-BYTES"))
             "application/pdf" "10.1_b.pdf".

(** ** More ways to read a trace *)

(** Calls that reach the catalog, the index or a storage tier. *)
Definition is_data_call (e : Event) : bool :=
  match e with
  | Ev c _ =>
      match c with
      | global_fetch _ _ _ | Dynamo_send _ _ | R2_head _ _ | R2_get _ _
      | Aws_fetch _ _ _ => true
      | _ => false
      end
  end.

(** Calls to the index or to a storage tier. *)
Definition is_store_call (e : Event) : bool :=
  match e with
  | Ev c _ =>
      match c with
      | Dynamo_send _ _ | R2_head _ _ | R2_get _ _ | Aws_fetch _ _ _ => true
      | _ => false
      end
  end.

(** Calls to a storage tier. *)
Definition is_tier_call (e : Event) : bool :=
  match e with
  | Ev c _ =>
      match c with
      | R2_head _ _ | R2_get _ _ | Aws_fetch _ _ _ => true
      | _ => false
      end
  end.

(** The key a lookup is bound to. *)
Definition key_bound (e : Event) : option string :=
  match e with
  | Ev c _ => match c with D1_first _ k => Some k | _ => None end
  end.

Definition head_answer (e : Event) : option (Outcome (option R2Object)) :=
  match e with
  | Ev c x =>
      match c in Call T return T -> option (Outcome (option R2Object)) with
      | R2_head _ _ => fun o => Some o
      | _ => fun _ => None
      end x
  end.

Definition backup_answer (e : Event) : option (Outcome HttpResponse) :=
  match e with
  | Ev c x =>
      match c in Call T return T -> option (Outcome HttpResponse) with
      | Aws_fetch _ _ _ => fun o => Some o
      | _ => fun _ => None
      end x
  end.

(** The HTTP method of a signed request. *)
Definition backup_method (e : Event) : option string :=
  match e with
  | Ev c _ => match c with Aws_fetch _ _ m => Some m | _ => None end
  end.

(** The key a primary-tier call names. *)
Definition primary_key (e : Event) : option string :=
  match e with
  | Ev c _ =>
      match c with R2_head _ k | R2_get _ k => Some k | _ => None end
  end.

(** Some answer of the list is an object. *)
Definition any_object (l : list (Outcome (option R2Object))) : bool :=
  existsb (fun o => match o with Returned (Some _) => true | _ => false end) l.

(** Some answer of the list is a response with status 200. *)
Definition any_200 (l : list (Outcome HttpResponse)) : bool :=
  existsb (fun o => match o with
                    | Returned r => resp_status r =? 200
                    | Raised => false
                    end) l.

(** The kinds of call, one per collaborator operation. *)
Inductive Kind : Type :=
| KKey | KClock | KCatalog | KIndex | KHead | KGet | KBackup | KWarn | KError.

Definition kind_of (e : Event) : Kind :=
  match e with
  | Ev c _ =>
      match c with
      | D1_first _ _ => KKey
      | Date_now => KClock
      | global_fetch _ _ _ => KCatalog
      | Dynamo_send _ _ => KIndex
      | R2_head _ _ => KHead
      | R2_get _ _ => KGet
      | Aws_fetch _ _ _ => KBackup
      | console_warn _ _ _ => KWarn
      | console_error _ => KError
      end
  end.

Definition Kind_eqb (a b : Kind) : bool :=
  match a, b with
  | KKey, KKey | KClock, KClock | KCatalog, KCatalog | KIndex, KIndex
  | KHead, KHead | KGet, KGet | KBackup, KBackup | KWarn, KWarn
  | KError, KError => true
  | _, _ => false
  end.

(** No kind of call occurs twice in [t], nor is one of [seen]. *)
Fixpoint distinct_kinds (seen : list Kind) (t : list Event) : bool :=
  match t with
  | [] => true
  | e :: r =>
      negb (existsb (Kind_eqb (kind_of e)) seen) &&
      distinct_kinds (kind_of e :: seen) r
  end.

(** The kinds of call made from the index query on. *)
Definition serve_kinds : list Kind :=
  [KIndex; KHead; KGet; KBackup; KWarn; KError].

(** All characters of a string satisfy [p]. *)
Fixpoint all_chars (p : ascii -> bool) (s : string) : bool :=
  match s with
  | "" => true
  | String c r => p c && all_chars p r
  end.

(** What [encodeURIComponent] writes: unreserved characters and percent
    signs. *)
Definition is_encoded_char (c : ascii) : bool :=
  is_uri_unreserved c || Ascii.eqb c "%".

Definition contentTypeOf (isGrobid : bool) : string :=
  if isGrobid then "application/gzip" else "application/pdf".

Definition is_console_error (e : Event) : bool :=
  match e with
  | Ev c _ => match c with console_error _ => true | _ => false end
  end.

(** A request that presents its key in the Authorization header. *)
Definition bearer_request : Request :=
  mkRequest "GET"
    (mkUrl "https://content.openalex.org" "/works/W1/best_oa_location/pdf" [] "")
    [("authorization", "Bearer secret-token")].

(** The key store is down. *)
Definition key_store_down : World :=
  const_world Raised 0 (catalog_with "doi:10.1/abc") index_empty
              (Returned None) (Returned None) (http 404 "").

(** The stored expiry is not a date the platform can read. *)
Definition unreadable_expiry_world : World :=
  const_world (Returned (Some (mkKeyRow (Some 1) (Some "next year")))) 0
              (catalog_with "doi:10.1/abc") index_empty
              (Returned None) (Returned None) (http 404 "").

(** A valid key without a card on file. *)
Definition unpaid_world : World :=
  const_world (Returned (Some (mkKeyRow (Some 0) None))) 0
              (catalog_with "doi:10.1/abc") index_empty
              (Returned None) (Returned None) (http 404 "").

(** The uuid the index answer maps the native id to: the [id] of the first
    item, when it is a non-empty string. *)
Definition mapped_uuid (out : QueryOutput) : option string :=
  match Items out with
  | Some (item :: _) =>
      if truthy_opt (item_id item) then item_id item else None
  | _ => None
  end.

Section Handlers.
Context {platform : Platform}.

(** [fetch] is one of the two handlers and [isGrobid] is the artifact kind it
    reads from the request. *)
Definition handler_kind (fetch : Request -> Env -> Prog Response)
    (req : Request) (isGrobid : bool) : Prop :=
  (fetch = Works.fetch /\
   isGrobid = String.eqb (nth 3 (pathParts req) "") "parsed-pdf") \/
  (fetch = Work.fetch /\
   isGrobid =
   String.eqb (unwrap (searchParams_get (url req) "format")) "parsed-pdf").

(** [p] is steps 3 to 5 of one of the handlers, for some resolved
    identifiers. *)
Definition serve_of (req : Request) (env : Env) (isGrobid wantJson : bool)
    (p : Prog Response) : Prop :=
  (exists rawId workId locId scheme nativeId,
     p = Works.serve req env isGrobid wantJson rawId workId locId
                     scheme nativeId) \/
  (exists rawId workId locId scheme nativeId,
     p = Work.serve req env isGrobid wantJson rawId workId locId
                    scheme nativeId).

End Handlers.

(** The arguments of a catalog call. *)
Definition catalog_call (e : Event) : option (string * Z * bool) :=
  match e with
  | Ev c _ =>
      match c with
      | global_fetch endpoint ttl all => Some (endpoint, ttl, all)
      | _ => None
      end
  end.

(** A call to the catalog or to a storage tier that raised: nothing in the
    handlers catches it. *)
Definition is_uncaught_fault (e : Event) : bool :=
  match e with
  | Ev c x =>
      match c in Call T return T -> bool with
      | global_fetch _ _ _ | R2_head _ _ | R2_get _ _ | Aws_fetch _ _ _ =>
          fun o => match o with Raised => true | Returned _ => false end
      | _ => fun _ => false
      end x
  end.

Definition R2Bucket_eqb (a b : R2Bucket) : bool :=
  match a, b with
  | PDFS, PDFS | GROBID_XML, GROBID_XML => true
  | _, _ => false
  end.

(** The store a call touches is the one of the artifact kind: its index
    table, its R2 bucket, its backup bucket. *)
Definition kind_matches (env : Env) (isGrobid : bool) (e : Event) : bool :=
  match e with
  | Ev c _ =>
      match c with
      | Dynamo_send _ q =>
          String.eqb (TableName q)
                     (if isGrobid then "grobid-xml" else "harvested-pdf")
      | R2_head b _ | R2_get b _ =>
          R2Bucket_eqb b (if isGrobid then GROBID_XML else PDFS)
      | Aws_fetch _ u _ =>
          startsWith u
            ("https://" ++
             s3Host (if isGrobid then GROBID_S3_BACKUP_BUCKET
                     else PDF_S3_BACKUP_BUCKET) (AWS_REGION env) ++ "/")
      | _ => true
      end
  end.

(** The index is down. *)
Definition index_down_world : World :=
  const_world paying_row 0 (catalog_with "doi:10.1/abc") Raised
              (Returned None) (Returned None) (http 404 "").

(** The catalog does not know the work. *)
Definition catalog_miss : FetchResponse :=
  mkFetchResponse false (Returned None).

Definition catalog_miss_world : World :=
  const_world paying_row 0 (Returned catalog_miss) index_empty
              (Returned None) (Returned None) (http 404 "").

(** The catalog's location carries no id. *)
Definition location_no_id : FetchResponse :=
  mkFetchResponse true (Returned (Some (mkOaWork (Some (mkOaLocation None))))).

Definition no_id_world : World :=
  const_world paying_row 0 (Returned location_no_id) index_empty
              (Returned None) (Returned None) (http 404 "").

(** The primary tier is down. *)
Definition primary_down_world : World :=
  const_world paying_row 0 (catalog_with "doi:10.1/abc") (index_with "u1")
              Raised Raised (http 200 "BACKUP-BYTES").

(** The descriptor answered to [json_request] when the index maps the native
    id to [u1] and both tiers hold the artifact. *)
Definition primary_descriptor : Obj :=
  [("work_id", JStr "w12345");
   ("work_api", JStr "https://api.openalex.org/works/W12345?data-version=2");
   ("best_oa_location_id", JStr "doi:10.1/abc");
   ("native_id", JStr "10.1/abc");
   ("native_id_namespace", JStr "doi");
   ("mapping_found_in_dynamodb", JBool true);
   ("file_uuid", JStr "u1");
   ("file_key", JStr "u1.pdf");
   ("in_r2", JBool true);
   ("in_s3", JBool true);
   ("download_url",
    JStr "https://content.openalex.org/works/w12345/best_oa_location/pdf?api_key=k")].

(** * Properties *)

Unset Implicit Arguments.

(** ** Characters and strings *)

Ltac each_char c :=
  destruct c as [[] [] [] [] [] [] [] []]; try discriminate; try reflexivity.

Lemma digit_not_space c : is_digit c = true -> is_space c = false.
Proof. each_char c. Qed.

Lemma digit_upper c : is_digit c = true -> upper_char c = c.
Proof. each_char c. Qed.





Lemma substring_all s : String.substring 0 (String.length s) s = s.
Proof. induction s as [|c r IH]; simpl; [reflexivity | now rewrite IH]. Qed.

Lemma sliceFrom_1 c r : sliceFrom (String c r) 1 = r.
Proof.
  unfold sliceFrom. change (Z.to_nat 1) with 1%nat.
  simpl String.length. rewrite Nat.sub_succ, Nat.sub_0_r.
  simpl. apply substring_all.
Qed.

Lemma all_digits_upper s : all_digits s = true -> toUpperCase s = s.
Proof.
  induction s as [|c r IH]; simpl; [reflexivity|].
  intros H. apply andb_true_iff in H as [Hc Hr].
  unfold toUpperCase in *. simpl. now rewrite (digit_upper _ Hc), IH.
Qed.



Lemma all_digits_trimEnd s : all_digits s = true -> trimEnd s = s.
Proof.
  induction s as [|c r IH]; simpl; [reflexivity|].
  intros H. apply andb_true_iff in H as [Hc Hr].
  rewrite (IH Hr). destruct r; [now rewrite (digit_not_space _ Hc) | reflexivity].
Qed.

Lemma all_digits_take_digits s : all_digits (take_digits s) = true.
Proof.
  induction s as [|c r IH]; simpl; [reflexivity|].
  destruct (is_digit c) eqn:E; simpl; [now rewrite E | reflexivity].
Qed.

(** ** [normalizeWorkId] always answers a canonical identifier *)

Lemma canonical_of_test s :
  test_W_digits s = true -> is_canonical (toUpperCase s) = true.
Proof.
  destruct s as [|w [|d r]]; simpl; try discriminate.
  intros H. apply andb_true_iff in H as [H Hr].
  apply andb_true_iff in H as [Hw Hd].
  unfold is_W in Hw. rewrite Hw. rewrite (digit_upper _ Hd), Hd.
  change (map_string upper_char r) with (toUpperCase r).
  now rewrite (all_digits_upper _ Hr), Hr.
Qed.

Lemma canonical_test s : is_canonical s = true -> test_W_digits s = true.
Proof.
  destruct s as [|w [|d r]]; simpl; try discriminate.
  intros H. apply andb_true_iff in H as [H Hr].
  apply andb_true_iff in H as [Hw Hd].
  apply Ascii.eqb_eq in Hw. subst w. now rewrite Hd, Hr.
Qed.

Lemma canonical_upper s : is_canonical s = true -> toUpperCase s = s.
Proof.
  destruct s as [|w [|d r]]; simpl; try discriminate.
  intros H. apply andb_true_iff in H as [H Hr].
  apply andb_true_iff in H as [Hw Hd].
  apply Ascii.eqb_eq in Hw. subst w.
  unfold toUpperCase. simpl. rewrite (digit_upper _ Hd).
  change (map_string upper_char r) with (toUpperCase r).
  now rewrite (all_digits_upper _ Hr).
Qed.

Lemma canonical_trim s : is_canonical s = true -> trim s = s.
Proof.
  destruct s as [|w [|d r]]; simpl; try discriminate.
  intros H. apply andb_true_iff in H as [H Hr].
  apply andb_true_iff in H as [Hw Hd].
  apply Ascii.eqb_eq in Hw. subst w.
  unfold trim. simpl trimStart.
  assert (Hall : all_digits (String d r) = true) by (simpl; now rewrite Hd, Hr).
  simpl trimEnd. fold (trimEnd (String d r)).
  change (match trimEnd r with "" => if is_space d then "" else String d "" | String a s => String d (String a s) end) with (trimEnd (String d r)).
  now rewrite (all_digits_trimEnd _ Hall).
Qed.

Lemma canonical_truthy s : is_canonical s = true -> truthy s = true.
Proof. destruct s; simpl; [discriminate | reflexivity]. Qed.

Lemma match_slash_canonical p m0 :
  match_slash_W_digits_end p = Some m0 ->
  is_canonical (toUpperCase (sliceFrom m0 1)) = true.
Proof.
  induction p as [|c r IH]; simpl; [discriminate|].
  destruct (Ascii.eqb c "/" && test_W_digits r) eqn:E.
  - intros [= <-]. rewrite sliceFrom_1.
    apply andb_true_iff in E as [_ E]. now apply canonical_of_test.
  - exact IH.
Qed.

Lemma capture_canonical s m1 :
  capture_W_digits s = Some m1 -> is_canonical (toUpperCase m1) = true.
Proof.
  destruct s as [|w [|d r]]; simpl; try discriminate.
  destruct (is_W w && is_digit d) eqn:E; [|discriminate].
  intros [= <-]. apply canonical_of_test. simpl.
  now rewrite E, all_digits_take_digits.
Qed.

Lemma match_openalex_canonical s m1 :
  match_openalex_url s = Some m1 -> is_canonical (toUpperCase m1) = true.
Proof.
  induction s as [|c r IH].
  - simpl. discriminate.
  - cbn [match_openalex_url].
    destruct (match match_literal_i "https://openalex.org/" (String c r) with
              | Some rest => capture_W_digits rest | None => None end) eqn:E.
    + intros [= <-].
      destruct (match_literal_i "https://openalex.org/" (String c r)); [|discriminate].
      now apply capture_canonical in E.
    + exact IH.
Qed.

Section Normalize.
Context {platform : Platform}.

Lemma Works_normalize_canonical x y :
  Works.normalizeWorkId x = Some y -> is_canonical y = true.
Proof.
  unfold Works.normalizeWorkId.
  destruct (truthy x); simpl; [|discriminate].
  destruct (test_W_digits (trim x)) eqn:T.
  - intros [= <-]. now apply canonical_of_test.
  - destruct (URL_pathname (trim x)) as [p|]; [|discriminate].
    destruct (match_slash_W_digits_end p) as [m0|] eqn:M; [|discriminate].
    intros [= <-]. now apply match_slash_canonical in M.
Qed.

Lemma Works_normalize_fixes_canonical y :
  is_canonical y = true -> Works.normalizeWorkId y = Some y.
Proof.
  intros H. unfold Works.normalizeWorkId.
  rewrite (canonical_truthy _ H). simpl.
  rewrite (canonical_trim _ H), (canonical_test _ H).
  now rewrite (canonical_upper _ H).
Qed.

Lemma Work_normalize_canonical x y :
  Work.normalizeWorkId x = Some y -> is_canonical y = true.
Proof.
  unfold Work.normalizeWorkId.
  destruct (truthy x); simpl; [|discriminate].
  destruct (test_W_digits (trim x)) eqn:T.
  - intros [= <-]. now apply canonical_of_test.
  - destruct (startsWith (trim x) "https://openalex.org/W").
    + destruct (match_openalex_url (trim x)) as [m1|] eqn:M.
      * intros [= <-]. now apply match_openalex_canonical in M.
      * destruct (URL_pathname (trim x)) as [p|]; [|discriminate].
        destruct (match_slash_W_digits_end p) as [m0|] eqn:M0; [|discriminate].
        intros [= <-]. now apply match_slash_canonical in M0.
    + destruct (URL_pathname (trim x)) as [p|]; [|discriminate].
      destruct (match_slash_W_digits_end p) as [m0|] eqn:M0; [|discriminate].
      intros [= <-]. now apply match_slash_canonical in M0.
Qed.

Lemma Work_normalize_fixes_canonical y :
  is_canonical y = true -> Work.normalizeWorkId y = Some y.
Proof.
  intros H. unfold Work.normalizeWorkId.
  rewrite (canonical_truthy _ H). simpl.
  rewrite (canonical_trim _ H), (canonical_test _ H).
  now rewrite (canonical_upper _ H).
Qed.

End Normalize.


(** C8.  [normalizeWorkId] is idempotent: when it succeeds on [x] with the
    canonical identifier [y], normalizing [y] again gives the same answer
    as normalizing [x]; and every already-canonical identifier ([W] followed
    by digits) is returned unchanged. *)
Theorem normalizeWorkId_idempotent {platform : Platform} (x y : string) :
  Works.normalizeWorkId x = Some y ->
  Works.normalizeWorkId y = Works.normalizeWorkId x /\
  is_canonical y = true /\
  (forall c, is_canonical c = true -> Works.normalizeWorkId c = Some c).
Proof.
  intros H. pose proof (Works_normalize_canonical _ _ H) as C.
  rewrite H. repeat split; auto using Works_normalize_fixes_canonical.
Qed.

Lemma normalizeWorkId_idempotent_witness :
  @Works.normalizeWorkId example_platform "W12345" =
  @Works.normalizeWorkId example_platform " https://openalex.org/w12345 " /\
  is_canonical "W12345" = true /\
  (forall c, is_canonical c = true ->
             @Works.normalizeWorkId example_platform c = Some c).
Proof.
  exact (@normalizeWorkId_idempotent example_platform
           " https://openalex.org/w12345 " "W12345" eq_refl).
Defined.

(** The second source's [normalizeWorkId], with its extra prefix branch, is
    idempotent in the same way. *)
Lemma Work_normalizeWorkId_idempotent {platform : Platform} (x y : string) :
  Work.normalizeWorkId x = Some y ->
  Work.normalizeWorkId y = Work.normalizeWorkId x.
Proof.
  intros H. rewrite H.
  apply Work_normalize_fixes_canonical, (Work_normalize_canonical _ _ H).
Qed.


(** ** The split of a composite reference at its first colon *)

Lemma indexOf_range s c : -1 <= indexOf s c < strlen s.
Proof.
  unfold strlen. induction s as [|a r IH]; simpl String.length; simpl indexOf.
  - lia.
  - destruct (Ascii.eqb a c); [lia|].
    destruct (indexOf r c <? 0) eqn:E; [lia|].
    apply Z.ltb_ge in E. lia.
Qed.

(** A non-negative [indexOf] cuts the string at the first occurrence. *)
Lemma indexOf_cut s c i :
  indexOf s c = Z.of_nat i ->
  s = String.substring 0 i s ++
      String c (String.substring (S i) (String.length s - S i) s) /\
  String.get i s = Some c /\
  (forall j, (j < i)%nat -> String.get j s <> Some c).
Proof.
  revert i. induction s as [|a r IH]; intros i; simpl indexOf.
  - lia.
  - destruct (Ascii.eqb a c) eqn:E.
    + apply Ascii.eqb_eq in E. subst a. intros Hi.
      assert (i = 0%nat) by lia. subst i. simpl.
      rewrite Nat.sub_0_r, substring_all. repeat split; auto. intros j Hj. lia.
    + destruct (indexOf r c <? 0) eqn:L; [lia|].
      apply Z.ltb_ge in L. intros Hi.
      destruct i as [|i]; [lia|].
      destruct (IH i ltac:(lia)) as (Hcut & Hget & Hmin).
      simpl. repeat split.
      * f_equal. exact Hcut.
      * exact Hget.
      * intros [|j] Hj; simpl.
        -- intros [= ->]. now rewrite Ascii.eqb_refl in E.
        -- apply Hmin. lia.
Qed.

Lemma indexOf_absent s c :
  indexOf s c = -1 -> forall i, String.get i s <> Some c.
Proof.
  induction s as [|a r IH]; simpl indexOf; intros H i.
  - destruct i; simpl; discriminate.
  - destruct (Ascii.eqb a c) eqn:E; [lia|].
    destruct (indexOf r c <? 0) eqn:L.
    + apply Z.ltb_lt in L. pose proof (indexOf_range r c).
      destruct i; simpl.
      * intros [= ->]. now rewrite Ascii.eqb_refl in E.
      * apply IH. lia.
    + apply Z.ltb_ge in L. lia.
Qed.

Lemma indexOf_first s i :
  first_colon_at s i -> indexOf s ":" = Z.of_nat i.
Proof.
  intros [Hat Hmin].
  pose proof (indexOf_range s ":") as R.
  destruct (Z.eq_dec (indexOf s ":") (-1)) as [E|E].
  - exfalso. exact (indexOf_absent _ _ E i Hat).
  - destruct (indexOf_cut s ":" (Z.to_nat (indexOf s ":")) ltac:(lia))
      as (_ & Hget & Hmin').
    assert (~ (Z.to_nat (indexOf s ":") < i)%nat)
      by (intros L; exact (Hmin _ L Hget)).
    assert (~ (i < Z.to_nat (indexOf s ":"))%nat)
      by (intros L; exact (Hmin' _ L Hat)).
    lia.
Qed.



Lemma splitLocationId_None s : splitLocationId s = None <-> malformed s.
Proof.
  unfold splitLocationId, malformed, strlen.
  pose proof (indexOf_range s ":") as R. unfold strlen in R.
  split.
  - destruct ((indexOf s ":" <=? 0) || (indexOf s ":" =? Z.of_nat (String.length s) - 1)) eqn:E;
      [|discriminate].
    intros _. apply orb_true_iff in E as [E|E].
    + apply Z.leb_le in E.
      destruct (Z.eq_dec (indexOf s ":") (-1)) as [N|N].
      * left. intros i. exact (indexOf_absent _ _ N i).
      * right. left.
        destruct (indexOf_cut s ":" 0%nat ltac:(lia)) as (_ & H & _). exact H.
    + apply Z.eqb_eq in E.
      destruct (Z.eq_dec (indexOf s ":") (-1)) as [N|N].
      * left. intros i. exact (indexOf_absent _ _ N i).
      * right. right. exists (Z.to_nat (indexOf s ":")).
        destruct (indexOf_cut s ":" (Z.to_nat (indexOf s ":")) ltac:(lia))
          as (_ & Hget & Hmin).
        split; [split; assumption | lia].
  - intros [H | [H | (i & H & L)]].
    + destruct (Z.eq_dec (indexOf s ":") (-1)) as [N|N].
      * rewrite N. reflexivity.
      * exfalso.
        destruct (indexOf_cut s ":" (Z.to_nat (indexOf s ":")) ltac:(lia))
          as (_ & Hget & _).
        exact (H _ Hget).
    + assert (F : first_colon_at s 0) by (split; [exact H | intros j Hj; lia]).
      rewrite (indexOf_first _ _ F). reflexivity.
    + rewrite (indexOf_first _ _ H).
      replace (Z.of_nat i =? Z.of_nat (String.length s) - 1) with true
        by (symmetry; apply Z.eqb_eq; lia).
      now rewrite orb_true_r.
Qed.

Lemma length_append a b :
  String.length (a ++ b) = (String.length a + String.length b)%nat.
Proof. induction a as [|c r IH]; simpl; [reflexivity | now rewrite IH]. Qed.

Lemma length_prefix s n c :
  String.get n s = Some c -> String.length (String.substring 0 n s) = n.
Proof.
  revert n. induction s as [|a r IH]; intros [|n]; simpl; try discriminate; auto.
Qed.

Lemma substring_no_char s c i :
  (forall j, (j < i)%nat -> String.get j s <> Some c) ->
  forall j, String.get j (String.substring 0 i s) <> Some c.
Proof.
  revert i. induction s as [|a r IH]; intros i Hmin j.
  - destruct i; simpl; destruct j; discriminate.
  - destruct i as [|i]; simpl.
    + destruct j; discriminate.
    + destruct j as [|j]; simpl.
      * exact (Hmin 0%nat ltac:(lia)).
      * apply IH. intros k Hk. exact (Hmin (S k) ltac:(lia)).
Qed.

Lemma splitLocationId_Some s scheme nativeId :
  splitLocationId s = Some (scheme, nativeId) ->
  s = scheme ++ ":" ++ nativeId /\
  (forall i, ~ colon_at scheme i) /\
  scheme <> "" /\ nativeId <> "".
Proof.
  unfold splitLocationId, strlen.
  pose proof (indexOf_range s ":") as R. unfold strlen in R.
  destruct ((indexOf s ":" <=? 0) || (indexOf s ":" =? Z.of_nat (String.length s) - 1)) eqn:E;
    [discriminate|].
  apply orb_false_iff in E as [E1 E2].
  apply Z.leb_gt in E1. apply Z.eqb_neq in E2.
  intros [= <- <-].
  destruct (indexOf_cut s ":" (Z.to_nat (indexOf s ":")) ltac:(lia))
    as (Hcut & Hget & Hmin).
  unfold slice, sliceFrom.
  replace (Z.to_nat (indexOf s ":" - 0)) with (Z.to_nat (indexOf s ":")) by lia.
  replace (Z.to_nat 0) with 0%nat by reflexivity.
  replace (Z.to_nat (indexOf s ":" + 1)) with (S (Z.to_nat (indexOf s ":"))) by lia.
  repeat split.
  - exact Hcut.
  - intros i. apply substring_no_char. exact Hmin.
  - intros Hs.
    remember (Z.to_nat (indexOf s ":")) as n.
    destruct n as [|n]; [lia|].
    destruct s; simpl in Hs; [simpl in E1; lia | discriminate].
  - intros Hs.
    remember (Z.to_nat (indexOf s ":")) as n.
    remember (String.substring 0 n s) as a.
    remember (String.substring (S n) (String.length s - S n) s) as b.
    assert (L : String.length s = (String.length a + S (String.length b))%nat).
    { rewrite Hcut at 1. rewrite length_append. reflexivity. }
    assert (La : String.length a = n)
      by (subst a; exact (length_prefix _ _ _ Hget)).
    rewrite Hs in L. simpl in L. lia.
Qed.


(** ** Running the handlers by cases on the answers of the world *)

Ltac run_step :=
  unfold trace, result in *;
  cbn [run bind try_catch await perform fst snd collect app negb In
       valid hasCreditCard error
       catalog_answer index_answer primary_get_answer key_answer index_query]
    in *.

Ltac split_run :=
  match goal with
  | |- context [run _ (match ?x with _ => _ end)] => destruct x eqn:?
  | |- context [bind (match ?x with _ => _ end) _] => destruct x eqn:?
  | |- context [try_catch (match ?x with _ => _ end) _] => destruct x eqn:?
  end.

Ltac run_cases := run_step; repeat (split_run; run_step).

(** Equations between constructors: contradictions close the goal, the
    others are read off. *)
Ltac read_fields :=
  cbn [fr_ok fr_json best_oa_location loc_id Items item_id negb
       credit_card_on_file expires_at] in *.

Ltac read_equations :=
  read_fields;
  repeat (match goal with
          | H : Returned _ = Returned _ |- _ =>
              injection H; clear H; intros; subst
          | H : Some _ = Some _ |- _ => injection H; clear H; intros; subst
          | H : (_, _) = (_, _) |- _ => injection H; clear H; intros; subst
          | H : Returned _ = Raised |- _ => discriminate H
          | H : Raised = Returned _ |- _ => discriminate H
          | H : Some _ = None |- _ => discriminate H
          | H : None = Some _ |- _ => discriminate H
          | H : true = false |- _ => discriminate H
          | H : false = true |- _ => discriminate H
          end; read_fields).

Ltac unfold_serve :=
  unfold Works.serve, Work.serve, queryUuid, probeTiers,
         s3HeadObject, s3GetObject in *.

Section WorksServe.
Context {platform : Platform}.
Variables (w : World) (req : Request) (env : Env) (isGrobid wantJson : bool).
Variables (rawId workId locId scheme nativeId : string).

Let served := Works.serve req env isGrobid wantJson rawId workId locId scheme nativeId.

Lemma Works_serve_no_catalog :
  collect catalog_answer (fst (run w served)) = [].
Proof. subst served. unfold_serve. run_cases; reflexivity. Qed.

Lemma Works_serve_status resp :
  snd (run w served) = Some resp ->
  status resp = 200 \/ status resp = 404 \/ status resp = 500.
Proof.
  subst served. unfold_serve.
  run_cases; try discriminate; intros [= <-]; try destruct wantJson; cbn; auto.
Qed.
End WorksServe.

Section LocationReference.
Context {platform : Platform}.

(** C3.  The location-reference parser fails exactly on the malformed
    composites (no colon, a colon at position 0, or the first colon as last
    character), and the handler then answers 502; a well-formed composite is
    cut at its first colon into scheme and native id and is not rejected
    with 502. *)
Theorem malformed_reference_rejected (w : World) (req : Request) (env : Env)
    (locId : string) :
  In (catalog_with locId)
     (collect catalog_answer (trace w (Works.fetch req env))) ->
  (splitLocationId locId = None <-> malformed locId) /\
  (malformed locId <->
   exists resp, result w (Works.fetch req env) = Some resp /\
                status resp = 502) /\
  (~ malformed locId ->
   exists scheme nativeId,
     splitLocationId locId = Some (scheme, nativeId) /\
     locId = scheme ++ ":" ++ nativeId /\
     (forall i, ~ colon_at scheme i)).
Proof.
  intros H. split; [apply splitLocationId_None|]. split.
  - revert H. unfold Works.fetch, checkApiKey, fetchOpenAlexWork.
    run_cases; rewrite ?Works_serve_no_catalog; cbn [In];
      try (intros []; fail);
      (intros [H|[]]; unfold catalog_with in H; read_equations).
    all: match goal with
         | E : splitLocationId _ = Some _ |- _ =>
             split;
             [ intros M; apply splitLocationId_None in M; congruence
             | intros (resp & R & S); apply Works_serve_status in R; lia ]
         | E : splitLocationId _ = None |- _ =>
             split;
             [ intros _; eexists; split;
               [reflexivity | destruct (wantsJson req); reflexivity]
             | intros _; now apply splitLocationId_None ]
         | _ => idtac
         end.
  - intros NM. destruct (splitLocationId locId) as [[scheme nativeId]|] eqn:E.
    + exists scheme, nativeId. split; [reflexivity|].
      apply splitLocationId_Some in E. tauto.
    + exfalso. apply NM. now apply splitLocationId_None.
Qed.
End LocationReference.

Lemma malformed_reference_rejected_witness :
  (splitLocationId "no-colon" = None <-> malformed "no-colon") /\
  (malformed "no-colon" <->
   exists resp,
     result malformed_world (@Works.fetch example_platform pdf_request example_env)
     = Some resp /\ status resp = 502) /\
  (~ malformed "no-colon" ->
   exists scheme nativeId,
     splitLocationId "no-colon" = Some (scheme, nativeId) /\
     "no-colon" = scheme ++ ":" ++ nativeId /\
     (forall i, ~ colon_at scheme i)).
Proof.
  apply (@malformed_reference_rejected example_platform malformed_world
           pdf_request example_env "no-colon").
  vm_compute. left. reflexivity.
Defined.


(** The runs behind the witness, and a composite with two colons. *)
Example malformed_run :
  result malformed_world (@Works.fetch example_platform pdf_request example_env)
  = Some (text_response "Unrecognized best_oa_location.id format" 502).
Proof. reflexivity. Qed.

Example split_examples :
  splitLocationId "doi:10.1/abc" = Some ("doi", "10.1/abc") /\
  splitLocationId "pmh:oai:x" = Some ("pmh", "oai:x") /\
  splitLocationId ":x" = None /\
  splitLocationId "x:" = None /\
  splitLocationId "" = None.
Proof. repeat split. Qed.

(** ** The backup-tier helpers *)

(** C5.  The backup-tier helpers never throw on an HTTP status:
    [s3HeadObject] answers true exactly when the signed HEAD request answers
    200 and false for 403, 404 and every other status; [s3GetObject] answers
    the response exactly when the signed GET answers 200 and null for 403,
    404 and every other status. *)
Theorem s3_helpers_fold_status (w : World) (env : Env) (bucket key : string)
    (head get : HttpResponse) :
  w _ (Aws_fetch (s3Client env) (s3Url env bucket key) "HEAD") = Returned head ->
  w _ (Aws_fetch (s3Client env) (s3Url env bucket key) "GET") = Returned get ->
  result w (s3HeadObject env bucket key) = Some (resp_status head =? 200) /\
  result w (s3GetObject env bucket key) =
    Some (if resp_status get =? 200 then Some get else None).
Proof.
  intros Hh Hg. unfold s3HeadObject, s3GetObject.
  run_step. rewrite Hh, Hg. run_cases; split; reflexivity.
Qed.

Lemma s3_helpers_fold_status_witness :
  result forbidden_world (s3HeadObject example_env "bucket" "u1.pdf")
  = Some false /\
  result forbidden_world (s3GetObject example_env "bucket" "u1.pdf")
  = Some None.
Proof.
  exact (s3_helpers_fold_status forbidden_world example_env "bucket" "u1.pdf"
           (mkHttpResponse 403 [] "" (Returned ""))
           (mkHttpResponse 403 [] "" (Returned ""))
           eq_refl eq_refl).
Defined.

(** ** The authorization gate *)

Section Auth.
Context {platform : Platform}.

(** C10.  A key whose stored row has no [expires_at] never expires:
    [checkApiKey] makes no expiry comparison (the clock is not read) and
    answers valid, with [hasCreditCard] the stored [credit_card_on_file]
    flag. *)
Theorem key_without_expiry_never_expires (w : World) (req : Request)
    (env : Env) (row : KeyRow) :
  truthy_opt (presentedKey req) = true ->
  w _ (D1_first api_key_query (unwrap (presentedKey req))) = Returned (Some row) ->
  expires_at row = None ->
  result w (checkApiKey req env) =
    Some (mkAuthResult true (Boolean_sql (credit_card_on_file row)) None) /\
  existsb is_clock (trace w (checkApiKey req env)) = false.
Proof.
  intros Hk Hrow Hexp. unfold checkApiKey.
  rewrite Hk. run_step. rewrite Hrow. run_step. rewrite Hexp.
  cbn [truthy_opt]. run_step. split; reflexivity.
Qed.

Lemma checkApiKey_expired (w : World) (req : Request) (env : Env)
    (row : KeyRow) (ts : string) (t : Z) :
  truthy_opt (presentedKey req) = true ->
  w _ (D1_first api_key_query (unwrap (presentedKey req))) = Returned (Some row) ->
  expires_at row = Some ts -> truthy ts = true ->
  Date_parse ts = Some t -> t <= w _ Date_now ->
  result w (checkApiKey req env) =
    Some (mkAuthResult false false (Some ("API key expired on " ++ ts))).
Proof.
  intros Hk Hrow Hexp Hts Hp Hle. unfold checkApiKey.
  rewrite Hk. run_step. rewrite Hrow. run_step. rewrite Hexp.
  cbn [truthy_opt unwrap]. rewrite Hts, Hp. run_step.
  unfold date_le. apply Z.leb_le in Hle. rewrite Hle. reflexivity.
Qed.

Lemma Works_serve_no_key w req env g j rawId workId locId scheme nativeId :
  collect key_answer
    (fst (run w (Works.serve req env g j rawId workId locId scheme nativeId))) = [].
Proof. unfold_serve. run_cases; reflexivity. Qed.

(** C6, as the code has it.  When the stored row of the presented key
    carries an expiry timestamp that is not after the current time,
    [checkApiKey] answers invalid with the error "API key expired on
    <timestamp>" and the handler answers 401; the body carries that message in
    metadata mode and is the fixed text "Invalid or missing API key" in text
    mode. *)
Theorem expired_key_is_401 (w : World) (req : Request) (env : Env)
    (row : KeyRow) (ts : string) (t : Z) :
  In (Returned (Some row)) (collect key_answer (trace w (Works.fetch req env))) ->
  expires_at row = Some ts -> truthy ts = true ->
  Date_parse ts = Some t -> t <= w _ Date_now ->
  result w (checkApiKey req env) =
    Some (mkAuthResult false false (Some ("API key expired on " ++ ts))) /\
  exists resp,
    result w (Works.fetch req env) = Some resp /\ status resp = 401 /\
    (wantsJson req = true ->
     body resp = BodyJson (JObj [("error", JStr "Invalid or missing API key");
                                 ("message", JStr ("API key expired on " ++ ts))])) /\
    (wantsJson req = false ->
     body resp = BodyText "Invalid or missing API key").
Proof.
  intros Hin Hexp Hts Hp Hle. apply Z.leb_le in Hle.
  revert Hin. unfold Works.fetch, checkApiKey, fetchOpenAlexWork.
  run_cases; rewrite ?Works_serve_no_key; cbn [In]; try (intros []; fail);
    intros [H|[]]; read_equations;
    rewrite ?Hexp in *; cbn [truthy_opt unwrap] in *;
    rewrite ?Hp in *; unfold date_le in *; try congruence.
  all: split; [reflexivity|]; eexists; split; [reflexivity|];
    unfold unauthorized; cbn [error truthy_opt truthy unwrap append];
    split; [destruct (wantsJson req); reflexivity|];
    split; intros ->; reflexivity.
Qed.
End Auth.


(** ** Error bodies in text mode *)

Lemma jsonOrText_text (st : Z) (obj : Obj) (e : string) :
  prop obj "error" = Some (JStr e) -> truthy e = true ->
  jsonOrText false st obj = text_response e st.
Proof.
  intros Hp He. unfold jsonOrText. rewrite Hp. cbn [js_truthy js_String].
  now rewrite He.
Qed.

Section TextMode.
Context {platform : Platform}.

Lemma Works_serve_text_errors w req env g rawId workId locId scheme nativeId resp :
  snd (run w (Works.serve req env g false rawId workId locId scheme nativeId)) = Some resp ->
  status resp <> 200 ->
  (exists msg, resp = text_response msg (status resp)) /\
  status resp <> 401 /\ status resp <> 403.
Proof.
  unfold_serve.
  run_cases; try discriminate; intros [= <-]; cbn; intros Hs;
    try congruence; (split; [eexists; reflexivity | split; discriminate]).
Qed.

(** C9, as the code has it.  In text mode [jsonOrText] degrades an error
    object to its [error] field alone; every response of the handler other
    than a 200 is then a plain-text body, and the 401 and 403 bodies are the
    [error] strings, not the [message] fields of their objects. *)
Theorem text_mode_errors_show_error_field (w : World) (req : Request)
    (env : Env) (resp : Response) :
  wantsJson req = false ->
  result w (Works.fetch req env) = Some resp ->
  status resp <> 200 ->
  (forall st obj e,
     prop obj "error" = Some (JStr e) -> truthy e = true ->
     jsonOrText false st obj = text_response e st) /\
  (exists msg, resp = text_response msg (status resp)) /\
  (status resp = 401 -> body resp = BodyText "Invalid or missing API key") /\
  (status resp = 403 -> body resp = BodyText "Payment required").
Proof.
  intros Hj Hr Hs. split; [exact jsonOrText_text|].
  revert Hr Hs. unfold Works.fetch, checkApiKey, fetchOpenAlexWork.
  rewrite Hj.
  run_cases; try discriminate;
    try (intros R S; destruct (Works_serve_text_errors _ _ _ _ _ _ _ _ _ _ R S)
           as (M & N1 & N2); split; [exact M | split; intros; contradiction]);
    intros [= <-]; intros _; cbn;
    (split; [eexists; reflexivity | split; intros; (reflexivity || discriminate)]).
Qed.
End TextMode.

(** ** The gate and the text-mode bodies on concrete requests *)

Lemma key_without_expiry_never_expires_witness :
  result malformed_world (@checkApiKey example_platform pdf_request example_env)
  = Some (mkAuthResult true true None) /\
  existsb is_clock
    (trace malformed_world (@checkApiKey example_platform pdf_request example_env))
  = false.
Proof.
  exact (@key_without_expiry_never_expires example_platform malformed_world
           pdf_request example_env (mkKeyRow (Some 1) None)
           eq_refl eq_refl eq_refl).
Defined.

Lemma expired_key_is_401_witness :
  result expired_world (@checkApiKey example_platform json_request example_env)
  = Some (mkAuthResult false false
            (Some "API key expired on 2020-01-01T00:00:00Z")) /\
  exists resp,
    result expired_world (@Works.fetch example_platform json_request example_env)
    = Some resp /\ status resp = 401 /\
    (wantsJson json_request = true ->
     body resp =
     BodyJson (JObj [("error", JStr "Invalid or missing API key");
                     ("message",
                      JStr "API key expired on 2020-01-01T00:00:00Z")])) /\
    (wantsJson json_request = false ->
     body resp = BodyText "Invalid or missing API key").
Proof.
  apply (@expired_key_is_401 example_platform expired_world json_request
           example_env expired_row "2020-01-01T00:00:00Z" 1577836800000).
  - vm_compute. left. reflexivity.
  - reflexivity.
  - reflexivity.
  - reflexivity.
  - vm_compute. discriminate.
Defined.

(** C6 as stated fails in text mode: the gate's error names the expiry
    timestamp, the 401 body does not. *)
Lemma expired_key_text_body_omits_timestamp :
  result expired_world (@checkApiKey example_platform pdf_request example_env)
  = Some (mkAuthResult false false
            (Some "API key expired on 2020-01-01T00:00:00Z")) /\
  exists resp,
    result expired_world (@Works.fetch example_platform pdf_request example_env)
    = Some resp /\
    status resp = 401 /\
    body resp = BodyText "Invalid or missing API key" /\
    response_mentions resp "2020-01-01T00:00:00Z" = false.
Proof.
  split; [reflexivity|].
  eexists. split; [reflexivity|]. repeat split.
Qed.

Lemma text_mode_errors_show_error_field_witness :
  (forall st obj e,
     prop obj "error" = Some (JStr e) -> truthy e = true ->
     jsonOrText false st obj = text_response e st) /\
  (exists msg,
     text_response "Invalid or missing API key" 401 = text_response msg 401) /\
  (401 = 401 ->
   BodyText "Invalid or missing API key" = BodyText "Invalid or missing API key") /\
  (401 = 403 ->
   BodyText "Invalid or missing API key" = BodyText "Payment required").
Proof.
  apply (@text_mode_errors_show_error_field example_platform unknown_key_world
           pdf_request example_env
           (text_response "Invalid or missing API key" 401)).
  - reflexivity.
  - reflexivity.
  - discriminate.
Defined.

(** C9 as stated fails on the 401 of an unknown key: the error object has
    the message "API key not found", the text-mode body is the object's
    [error] field instead. *)
Lemma text_mode_401_is_not_the_message_field :
  exists obj resp,
    result unknown_key_world
           (@Works.fetch example_platform json_request example_env)
    = Some (json 401 (JObj obj)) /\
    prop obj "message" = Some (JStr "API key not found") /\
    wantsJson pdf_request = false /\
    result unknown_key_world
           (@Works.fetch example_platform pdf_request example_env)
    = Some resp /\
    body resp = BodyText "Invalid or missing API key" /\
    body resp <> BodyText "API key not found".
Proof.
  eexists. eexists. split; [reflexivity|]. split; [reflexivity|].
  split; [reflexivity|]. split; [reflexivity|]. split; [reflexivity|].
  discriminate.
Qed.


(** ** Headers *)

Lemma headers_get_lc_app_absent (h1 h2 : Headers) (n : string) :
  headers_get_lc h1 n = None ->
  headers_get_lc (h1 ++ h2)%list n = headers_get_lc h2 n.
Proof.
  induction h1 as [|[m v] r IH]; simpl; [reflexivity|].
  destruct (String.eqb m n); [discriminate | exact IH].
Qed.

Lemma headers_get_lc_removed (h : Headers) (n : string) :
  headers_get_lc (headers_remove_lc h n) n = None.
Proof.
  induction h as [|[m v] r IH]; simpl; [reflexivity|].
  destruct (String.eqb m n) eqn:E; [exact IH|]. simpl. now rewrite E.
Qed.

Lemma headers_get_lc_remove_other (h : Headers) (n m : string) :
  n <> m ->
  headers_get_lc (headers_remove_lc h n) m = headers_get_lc h m.
Proof.
  intros D. induction h as [|[k v] r IH]; simpl; [reflexivity|].
  destruct (String.eqb k n) eqn:E.
  - apply String.eqb_eq in E. subst k.
    destruct (String.eqb n m) eqn:F; [apply String.eqb_eq in F; contradiction|].
    exact IH.
  - simpl. now rewrite IH.
Qed.

Lemma headers_get_lc_app_present (h1 h2 : Headers) (n v : string) :
  headers_get_lc h1 n = Some v ->
  headers_get_lc (h1 ++ h2)%list n = Some v.
Proof.
  induction h1 as [|[m u] r IH]; simpl; [discriminate|].
  destruct (String.eqb m n); [auto | exact IH].
Qed.

Lemma headers_get_set_same (h : Headers) (n v : string) :
  headers_get_lc (headers_set h n v) (toLowerCase n) = Some v.
Proof.
  unfold headers_set.
  rewrite headers_get_lc_app_absent by apply headers_get_lc_removed.
  simpl. now rewrite String.eqb_refl.
Qed.

Lemma headers_get_set_other (h : Headers) (n v m : string) :
  toLowerCase n <> m ->
  headers_get_lc (headers_set h n v) m = headers_get_lc h m.
Proof.
  intros D. unfold headers_set.
  destruct (headers_get_lc h m) as [u|] eqn:E.
  - apply headers_get_lc_app_present.
    now rewrite headers_get_lc_remove_other.
  - rewrite headers_get_lc_app_absent
      by now rewrite headers_get_lc_remove_other.
    simpl. destruct (String.eqb (toLowerCase n) m) eqn:F; [|reflexivity].
    apply String.eqb_eq in F. contradiction.
Qed.

Lemma r2_success_disposition (obj : R2Object) (ct name : string) :
  headers_get (headers (r2_success obj ct name)) "Content-Disposition"
  = Some (content_disposition name).
Proof.
  unfold r2_success, headers_get. cbn [headers].
  rewrite headers_get_set_other by (vm_compute; discriminate).
  apply headers_get_set_same.
Qed.

Lemma s3_success_disposition (resp : HttpResponse) (ct name : string) :
  headers_get (headers (s3_success resp ct name)) "Content-Disposition"
  = Some (content_disposition name).
Proof.
  unfold s3_success, headers_get. cbn [headers].
  destruct (truthy_opt (headers_get_lc (resp_headers resp) (toLowerCase "content-length"))).
  - rewrite headers_get_set_other by (vm_compute; discriminate).
    rewrite headers_get_set_other by (vm_compute; discriminate).
    apply headers_get_set_same.
  - rewrite headers_get_set_other by (vm_compute; discriminate).
    apply headers_get_set_same.
Qed.

(** ** Traces led by front calls *)





Lemma collect_led {A} (f : Event -> option A) p tail t :
  (forall e, p e = true -> f e = None) ->
  led_by p tail t -> collect f t = collect f tail.
Proof.
  intros Hf. induction 1 as [|e t He _ IH]; [reflexivity|].
  simpl. now rewrite (Hf e He).
Qed.

Lemma existsb_led (q : Event -> bool) p tail t :
  (forall e, p e = true -> q e = false) ->
  led_by p tail t -> existsb q t = existsb q tail.
Proof.
  intros Hq. induction 1 as [|e t He _ IH]; [reflexivity|].
  simpl. now rewrite (Hq e He).
Qed.

Lemma primary_first_led p tail t :
  (forall e, p e = true -> is_backup e = false /\ is_primary_get e = false) ->
  led_by p tail t -> primary_first false t = primary_first false tail.
Proof.
  intros Hp. induction 1 as [|e t He _ IH]; [reflexivity|].
  simpl. destruct (Hp e He) as [-> ->]. exact IH.
Qed.

Ltac by_call e :=
  let c := fresh "c" in
  destruct e as [? c ?]; destruct c; cbn; intros; try discriminate;
  repeat split; reflexivity.

Lemma front_no_index e : is_front e = true -> index_answer e = None.
Proof. by_call e. Qed.

Lemma front_no_query e : is_front e = true -> index_query e = None.
Proof. by_call e. Qed.

Lemma front_no_primary e : is_front e = true -> primary_get_answer e = None.
Proof. by_call e. Qed.

Lemma front_no_tier e :
  is_front e = true -> is_backup e = false /\ is_primary_get e = false.
Proof. by_call e. Qed.

Lemma front_not_backup e : is_front e = true -> is_backup e = false.
Proof. by_call e. Qed.

Lemma front_not_primary e : is_front e = true -> is_primary_get e = false.
Proof. by_call e. Qed.

Lemma gate_is_front e : is_gate e = true -> is_front e = true.
Proof. by_call e. Qed.

Lemma gate_not_catalog e : is_gate e = true -> is_catalog e = false.
Proof. by_call e. Qed.

(** A trace that passes [primary_first] has a primary fetch before each
    backup call. *)
Lemma primary_first_spec (t : list Event) :
  forall seen, primary_first seen t = true ->
  forall pre e post, t = (pre ++ e :: post)%list -> is_backup e = true ->
  seen = true \/ exists p, In p pre /\ is_primary_get p = true.
Proof.
  induction t as [|a r IH]; intros seen H pre e post E B.
  - destruct pre; discriminate.
  - simpl in H. apply andb_true_iff in H as [Ha Hr].
    destruct pre as [|p pre]; simpl in E; injection E as -> ->.
    + rewrite B in Ha. simpl in Ha. now left.
    + destruct (IH _ Hr pre e post eq_refl B) as [S|(q & Hq & Pq)].
      * apply orb_true_iff in S as [S|S]; [now left|].
        right. exists p. split; [now left | exact S].
      * right. exists q. split; [now right | exact Pq].
Qed.


(** ** Steps 3 to 5, for both sources *)

Ltac led_calls := repeat (apply led_call; [reflexivity|]); apply led_done.

(** In stream mode every backup call follows a primary fetch. *)
Ltac serve_primary_first :=
  unfold_serve; run_cases; reflexivity.

(** In stream mode a primary hit is answered from the object, with no backup
    call. *)
Ltac serve_primary_hit :=
  unfold_serve; run_cases; try (intros []; fail);
  intros [H|[]]; read_equations;
  (split; [reflexivity | eexists; repeat split; reflexivity]).

(** In stream mode a mapped uuid leads to a primary fetch. *)
Ltac serve_reaches_primary :=
  unfold_serve; run_cases; try (intros []; fail);
  intros [H|[]] HI Hid Hu; read_equations;
  rewrite ?HI in *; read_equations; rewrite ?Hid in *;
  cbn [truthy_opt] in *; rewrite ?Hu in *; cbn [negb] in *;
  try congruence; reflexivity.

(** In metadata mode an index without a match gives the 200 descriptor. *)
Ltac serve_unmapped :=
  unfold_serve; unfold or_null; run_cases; try (intros []; fail);
  intros [H|[]] HI; read_equations;
  try (destruct HI as [HI|HI]; rewrite HI in *; discriminate);
  cbn [truthy_opt] in *; try discriminate;
  eexists; repeat split; reflexivity.

(** The Content-Disposition header of a stream-mode success. *)
Ltac serve_disposition :=
  unfold_serve; run_cases; try discriminate; intros [= <-];
  try (cbn; discriminate); intros _;
  (apply r2_success_disposition || apply s3_success_disposition).

Section WorksServeFacts.
Context {platform : Platform}.
Variables (w : World) (req : Request) (env : Env) (isGrobid : bool).
Variables (rawId workId locId scheme nativeId : string).

Let served (wantJson : bool) :=
  Works.serve req env isGrobid wantJson rawId workId locId scheme nativeId.

Lemma Works_serve_primary_first :
  primary_first false (trace w (served false)) = true.
Proof. subst served. serve_primary_first. Qed.

Lemma Works_serve_primary_hit (obj : R2Object) :
  In (Returned (Some obj)) (collect primary_get_answer (trace w (served false))) ->
  existsb is_backup (trace w (served false)) = false /\
  exists resp,
    result w (served false) = Some resp /\ status resp = 200 /\
    body resp = BodyStream (r2_body obj).
Proof. subst served. serve_primary_hit. Qed.

Lemma Works_serve_reaches_primary (out : QueryOutput) (item : Item)
    (rest : list Item) (u : string) :
  In (Returned out) (collect index_answer (trace w (served false))) ->
  Items out = Some (item :: rest) -> item_id item = Some u -> truthy u = true ->
  existsb is_primary_get (trace w (served false)) = true.
Proof. subst served. serve_reaches_primary. Qed.

Lemma Works_serve_unmapped (out : QueryOutput) :
  In (Returned out) (collect index_answer (trace w (served true))) ->
  Items out = None \/ Items out = Some [] ->
  exists o,
    result w (served true) = Some (json 200 (JObj o)) /\
    prop o "mapping_found_in_dynamodb" = Some (JBool false) /\
    prop o "file_uuid" = Some JNull /\
    prop o "download_url" = Some JNull.
Proof. subst served. serve_unmapped. Qed.

Lemma Works_serve_disposition (resp : Response) :
  result w (served false) = Some resp -> status resp = 200 ->
  headers_get (headers resp) "Content-Disposition" =
  Some (content_disposition (replace_path_unsafe workId ++ fileExtOf isGrobid)).
Proof. subst served. serve_disposition. Qed.

End WorksServeFacts.

Ltac serve_no_catalog := unfold_serve; run_cases; reflexivity.

Ltac serve_status :=
  unfold_serve; run_cases; try discriminate; intros [= <-];
  match goal with
  | |- context [jsonOrText ?j] => destruct j
  | _ => idtac
  end; cbn; auto.

Ltac serve_json_ids :=
  unfold_serve; run_cases; try discriminate; intros E;
  try (unfold jsonOrText, json, text_response, r2_success, s3_success in E;
       match type of E with
       | context [if ?j then _ else _] => destruct j
       | _ => idtac
       end; discriminate E);
  injection E as <-; split; reflexivity.

Section WorkServeFacts.
Context {platform : Platform}.
Variables (w : World) (req : Request) (env : Env) (isGrobid : bool).
Variables (rawId : string) (workId locId : option string).
Variables (scheme nativeId : string).

Let served (wantJson : bool) :=
  Work.serve req env isGrobid wantJson rawId workId locId scheme nativeId.

Lemma Work_serve_primary_first :
  primary_first false (trace w (served false)) = true.
Proof. subst served. serve_primary_first. Qed.

Lemma Work_serve_primary_hit (obj : R2Object) :
  In (Returned (Some obj)) (collect primary_get_answer (trace w (served false))) ->
  existsb is_backup (trace w (served false)) = false /\
  exists resp,
    result w (served false) = Some resp /\ status resp = 200 /\
    body resp = BodyStream (r2_body obj).
Proof. subst served. serve_primary_hit. Qed.

Lemma Work_serve_reaches_primary (out : QueryOutput) (item : Item)
    (rest : list Item) (u : string) :
  In (Returned out) (collect index_answer (trace w (served false))) ->
  Items out = Some (item :: rest) -> item_id item = Some u -> truthy u = true ->
  existsb is_primary_get (trace w (served false)) = true.
Proof. subst served. serve_reaches_primary. Qed.

Lemma Work_serve_unmapped (out : QueryOutput) :
  In (Returned out) (collect index_answer (trace w (served true))) ->
  Items out = None \/ Items out = Some [] ->
  exists o,
    result w (served true) = Some (json 200 (JObj o)) /\
    prop o "mapping_found_in_dynamodb" = Some (JBool false) /\
    prop o "file_uuid" = Some JNull /\
    prop o "download_url" = Some JNull.
Proof. subst served. serve_unmapped. Qed.

Lemma Work_serve_disposition (resp : Response) :
  result w (served false) = Some resp -> status resp = 200 ->
  headers_get (headers resp) "Content-Disposition" =
  Some (content_disposition
          (replace_path_unsafe (Work.idOrRaw workId rawId) ++
           fileExtOf isGrobid)).
Proof. subst served. serve_disposition. Qed.

Lemma Work_serve_no_catalog (wantJson : bool) :
  existsb is_catalog (trace w (served wantJson)) = false.
Proof. subst served. serve_no_catalog. Qed.

Lemma Work_serve_queries (wantJson : bool) :
  collect index_query (trace w (served wantJson)) =
  [by_native_id (if isGrobid then "grobid-xml" else "harvested-pdf") nativeId].
Proof. subst served. serve_no_catalog. Qed.

Lemma Work_serve_status (wantJson : bool) (resp : Response) :
  result w (served wantJson) = Some resp ->
  status resp = 200 \/ status resp = 404 \/ status resp = 500.
Proof. subst served. serve_status. Qed.

Lemma Work_serve_json_ids (wantJson : bool) (o : Obj) :
  result w (served wantJson) = Some (json 200 (JObj o)) ->
  prop o "native_id" = Some (JStr nativeId) /\
  prop o "native_id_namespace" = Some (JStr scheme).
Proof. subst served. serve_json_ids. Qed.

End WorkServeFacts.


(** ** Each handler is front calls followed by [serve] *)

Ltac early_status req :=
  let resp := fresh "resp" in
  let E := fresh "E" in
  intros resp E; try discriminate E; injection E as <-;
  unfold unauthorized, payment_required;
  destruct (wantsJson req); cbn; discriminate.

Section Decompose.
Context {platform : Platform}.

Lemma Works_fetch_decompose (w : World) (req : Request) (env : Env) :
  (led_by is_front [] (trace w (Works.fetch req env)) /\
   forall resp, result w (Works.fetch req env) = Some resp -> status resp <> 200)
  \/
  (exists locId scheme nativeId,
     let served :=
       Works.serve req env
         (String.eqb (nth 3 (pathParts req) "") "parsed-pdf") (wantsJson req)
         (nth 1 (pathParts req) "")
         (unwrap (Works.normalizeWorkId (nth 1 (pathParts req) "")))
         locId scheme nativeId in
     splitLocationId locId = Some (scheme, nativeId) /\
     led_by is_front (trace w served) (trace w (Works.fetch req env)) /\
     result w (Works.fetch req env) = result w served).
Proof.
  unfold Works.fetch, checkApiKey, fetchOpenAlexWork.
  run_cases.
  all: try (left; split; [led_calls | early_status req]).
  all: right; do 3 eexists; cbn zeta; split; [eassumption|];
    split; [led_calls | reflexivity].
Qed.

Lemma Work_fetch_decompose (w : World) (req : Request) (env : Env) :
  (led_by is_front [] (trace w (Work.fetch req env)) /\
   forall resp, result w (Work.fetch req env) = Some resp -> status resp <> 200)
  \/
  (exists locId scheme nativeId,
     let rawId := nth 1 (pathParts req) "" in
     let workId :=
       if startsWith rawId "10." then None else Work.normalizeWorkId rawId in
     let served :=
       Work.serve req env
         (String.eqb (unwrap (searchParams_get (url req) "format")) "parsed-pdf")
         (wantsJson req) rawId workId locId scheme nativeId in
     led_by is_front (trace w served) (trace w (Work.fetch req env)) /\
     result w (Work.fetch req env) = result w served).
Proof.
  unfold Work.fetch, Work.resolve, checkApiKey, fetchOpenAlexWork.
  run_cases.
  all: try (left; split; [led_calls | early_status req]).
  all: right; do 3 eexists; cbn zeta; split; [led_calls | reflexivity].
Qed.

End Decompose.


(** ** Tiered retrieval in stream mode *)

Section Tiers.
Context {platform : Platform}.

(** C2.  In stream mode the handler fetches from the primary tier (R2)
    before it asks the backup tier (S3): every backup call of a run comes
    after a primary fetch, a run whose index answer maps a uuid does fetch
    from the primary tier, and when that fetch returns an object the
    response is built from it and no backup call is made at all. *)
Theorem primary_before_backup (w : World) (req : Request) (env : Env) :
  wantsJson req = false ->
  let t := trace w (Works.fetch req env) in
  (forall pre e post,
     t = (pre ++ e :: post)%list -> is_backup e = true ->
     exists p, In p pre /\ is_primary_get p = true) /\
  (forall obj,
     In (Returned (Some obj)) (collect primary_get_answer t) ->
     existsb is_backup t = false /\
     exists resp,
       result w (Works.fetch req env) = Some resp /\ status resp = 200 /\
       body resp = BodyStream (r2_body obj)) /\
  (forall out item rest u,
     In (Returned out) (collect index_answer t) ->
     Items out = Some (item :: rest) -> item_id item = Some u ->
     truthy u = true ->
     existsb is_primary_get t = true).
Proof.
  intros Hj t. subst t.
  destruct (Works_fetch_decompose w req env)
    as [[L _] | (locId & scheme & nativeId & _ & L & R)]; cbn zeta in *.
  - split; [|split].
    + intros pre e post E B.
      assert (P : primary_first false (trace w (Works.fetch req env)) = true)
        by (rewrite (primary_first_led _ _ _ front_no_tier L); reflexivity).
      destruct (primary_first_spec _ _ P pre e post E B) as [F|F];
        [discriminate | exact F].
    + intros obj. rewrite (collect_led _ _ _ _ front_no_primary L).
      intros [].
    + intros out item rest u. rewrite (collect_led _ _ _ _ front_no_index L).
      intros [].
  - rewrite Hj in *. split; [|split].
    + intros pre e post E B.
      assert (P : primary_first false (trace w (Works.fetch req env)) = true)
        by (rewrite (primary_first_led _ _ _ front_no_tier L);
            apply Works_serve_primary_first).
      destruct (primary_first_spec _ _ P pre e post E B) as [F|F];
        [discriminate | exact F].
    + intros obj. rewrite (collect_led _ _ _ _ front_no_primary L).
      rewrite (existsb_led _ _ _ _ front_not_backup L), R.
      apply Works_serve_primary_hit.
    + intros out item rest u. rewrite (collect_led _ _ _ _ front_no_index L).
      rewrite (existsb_led _ _ _ _ front_not_primary L).
      apply Works_serve_reaches_primary.
Qed.

End Tiers.

Section Retrieval.
Context {platform : Platform}.

(** The second source keeps the same order of tiers. *)
Lemma Work_primary_before_backup (w : World) (req : Request) (env : Env) :
  wantsJson req = false ->
  primary_first false (trace w (Work.fetch req env)) = true /\
  (forall obj,
     In (Returned (Some obj))
        (collect primary_get_answer (trace w (Work.fetch req env))) ->
     existsb is_backup (trace w (Work.fetch req env)) = false /\
     exists resp,
       result w (Work.fetch req env) = Some resp /\ status resp = 200 /\
       body resp = BodyStream (r2_body obj)).
Proof.
  intros Hj.
  destruct (Work_fetch_decompose w req env)
    as [[L _] | (locId & scheme & nativeId & L & R)]; cbn zeta in *.
  - split.
    + rewrite (primary_first_led _ _ _ front_no_tier L). reflexivity.
    + intros obj. rewrite (collect_led _ _ _ _ front_no_primary L). intros [].
  - rewrite Hj in *. split.
    + rewrite (primary_first_led _ _ _ front_no_tier L).
      apply Work_serve_primary_first.
    + intros obj. rewrite (collect_led _ _ _ _ front_no_primary L).
      rewrite (existsb_led _ _ _ _ front_not_backup L), R.
      apply Work_serve_primary_hit.
Qed.

(** ** An index without a match, in metadata mode *)

(** C4.  An index answer without a matching entry is not an error: in
    metadata mode the handler answers 200 with
    [mapping_found_in_dynamodb = false], [file_uuid = null] and
    [download_url = null]. *)
Theorem unmapped_native_id_is_200 (w : World) (req : Request) (env : Env)
    (out : QueryOutput) :
  wantsJson req = true ->
  In (Returned out) (collect index_answer (trace w (Works.fetch req env))) ->
  Items out = None \/ Items out = Some [] ->
  exists o,
    result w (Works.fetch req env) = Some (json 200 (JObj o)) /\
    prop o "mapping_found_in_dynamodb" = Some (JBool false) /\
    prop o "file_uuid" = Some JNull /\
    prop o "download_url" = Some JNull.
Proof.
  intros Hj.
  destruct (Works_fetch_decompose w req env)
    as [[L _] | (locId & scheme & nativeId & _ & L & R)]; cbn zeta in *.
  - rewrite (collect_led _ _ _ _ front_no_index L). intros [].
  - rewrite Hj in *. rewrite (collect_led _ _ _ _ front_no_index L), R.
    apply Works_serve_unmapped.
Qed.

Lemma Work_unmapped_native_id_is_200 (w : World) (req : Request) (env : Env)
    (out : QueryOutput) :
  wantsJson req = true ->
  In (Returned out) (collect index_answer (trace w (Work.fetch req env))) ->
  Items out = None \/ Items out = Some [] ->
  exists o,
    result w (Work.fetch req env) = Some (json 200 (JObj o)) /\
    prop o "mapping_found_in_dynamodb" = Some (JBool false) /\
    prop o "file_uuid" = Some JNull /\
    prop o "download_url" = Some JNull.
Proof.
  intros Hj.
  destruct (Work_fetch_decompose w req env)
    as [[L _] | (locId & scheme & nativeId & L & R)]; cbn zeta in *.
  - rewrite (collect_led _ _ _ _ front_no_index L). intros [].
  - rewrite Hj in *. rewrite (collect_led _ _ _ _ front_no_index L), R.
    apply Work_serve_unmapped.
Qed.

(** ** The file name of a stream-mode success *)

Lemma replace_path_unsafe_length (s : string) :
  String.length (replace_path_unsafe s) = String.length s.
Proof.
  unfold replace_path_unsafe.
  induction s as [|c r IH]; simpl; [reflexivity | now rewrite IH].
Qed.

Lemma replace_path_unsafe_get (s : string) (i : nat) (c : ascii) :
  String.get i s = Some c ->
  String.get i (replace_path_unsafe s)
  = Some (if is_path_unsafe c then "_"%char else c).
Proof.
  unfold replace_path_unsafe. revert i.
  induction s as [|a r IH]; intros [|i]; simpl; try discriminate.
  - now intros [= ->].
  - apply IH.
Qed.

Lemma is_path_unsafe_chars (c : ascii) :
  is_path_unsafe c = true <-> In c path_unsafe_chars.
Proof.
  split.
  - destruct c as [[] [] [] [] [] [] [] []]; try discriminate; intros _;
      vm_compute; tauto.
  - intros H. vm_compute in H.
    repeat (destruct H as [<-|H]; [reflexivity|]). destruct H.
Qed.

(** C7, as the code has it.  The file name in the Content-Disposition
    header of a stream-mode success is the work identifier with every
    path-unsafe character replaced by an underscore, and no other character
    altered, followed by the extension of the artifact kind; for both
    sources. *)
Theorem safeName_replaces_unsafe_characters (w : World) (req : Request)
    (env : Env) (resp : Response) :
  wantsJson req = false -> status resp = 200 ->
  let rawId := nth 1 (pathParts req) "" in
  (result w (Works.fetch req env) = Some resp ->
   headers_get (headers resp) "Content-Disposition" =
   Some (content_disposition
           (replace_path_unsafe (unwrap (Works.normalizeWorkId rawId)) ++
            fileExtOf (String.eqb (nth 3 (pathParts req) "") "parsed-pdf"))))
  /\
  (result w (Work.fetch req env) = Some resp ->
   headers_get (headers resp) "Content-Disposition" =
   Some (content_disposition
           (replace_path_unsafe
              (Work.idOrRaw
                 (if startsWith rawId "10." then None
                  else Work.normalizeWorkId rawId) rawId) ++
            fileExtOf
              (String.eqb (unwrap (searchParams_get (url req) "format"))
                          "parsed-pdf"))))
  /\
  (forall s,
     String.length (replace_path_unsafe s) = String.length s /\
     forall i c, String.get i s = Some c ->
                 String.get i (replace_path_unsafe s)
                 = Some (if is_path_unsafe c then "_"%char else c))
  /\
  (forall c, is_path_unsafe c = true <-> In c path_unsafe_chars).
Proof.
  intros Hj Hs rawId. subst rawId. split; [|split; [|split]].
  - destruct (Works_fetch_decompose w req env)
      as [[_ N] | (locId & scheme & nativeId & _ & _ & R)]; cbn zeta in *.
    + intros E. now apply N in E.
    + rewrite R, Hj. intros E. eapply Works_serve_disposition; eassumption.
  - destruct (Work_fetch_decompose w req env)
      as [[_ N] | (locId & scheme & nativeId & _ & R)]; cbn zeta in *.
    + intros E. now apply N in E.
    + rewrite R, Hj. intros E. eapply Work_serve_disposition; eassumption.
  - intros s. split;
      [apply replace_path_unsafe_length | apply replace_path_unsafe_get].
  - exact is_path_unsafe_chars.
Qed.

End Retrieval.

(** ** The DOI bypass of the second source *)

Section Doi.
Context {platform : Platform}.

Lemma Work_fetch_doi (w : World) (req : Request) (env : Env)
    (rawId fmt : string) :
  method req = "GET" -> pathParts req = ["work"; rawId] ->
  searchParams_get (url req) "format" = Some fmt ->
  fmt = "pdf" \/ fmt = "parsed-pdf" ->
  startsWith rawId "10." = true ->
  let served :=
    Work.serve req env (String.eqb fmt "parsed-pdf") (wantsJson req)
               rawId None None "doi" rawId in
  (led_by is_gate [] (trace w (Work.fetch req env)) /\
   (forall resp, result w (Work.fetch req env) = Some resp ->
                 status resp = 401 \/ status resp = 403) /\
   (forall auth, result w (checkApiKey req env) = Some auth ->
                 valid auth && hasCreditCard auth = false))
  \/
  (led_by is_gate (trace w served) (trace w (Work.fetch req env)) /\
   result w (Work.fetch req env) = result w served).
Proof.
  intros Hm Hp Hf Hfmt Hd. unfold Work.fetch.
  rewrite Hm, Hp, Hf. cbn [nth length unwrap truthy_opt]. rewrite Hd.
  replace (truthy fmt) with true by (destruct Hfmt; subst; reflexivity).
  replace (negb (String.eqb fmt "pdf") && negb (String.eqb fmt "parsed-pdf"))
    with false by (destruct Hfmt; subst; reflexivity).
  change (String.eqb "GET" "GET") with true.
  change (String.eqb "work" "work") with true.
  change (Z.of_nat 2 =? 2) with true.
  cbn [negb orb andb].
  unfold checkApiKey. run_cases.
  all: try (left; split; [led_calls|]; split;
            [ intros resp E; try discriminate E; injection E as <-;
              unfold unauthorized, payment_required;
              destruct (wantsJson req); cbn; auto
            | intros auth E; try discriminate E; injection E as <-;
              cbn [valid hasCreditCard andb];
              try reflexivity;
              match goal with
              | N : negb ?b = true |- _ => destruct b; [discriminate N | reflexivity]
              end ]).
  all: right; split; [led_calls | reflexivity].
Qed.

(** The DOI branch of the query endpoint. *)
Lemma Work_doi_bypass (w : World) (req : Request) (env : Env)
    (rawId fmt : string) :
  method req = "GET" -> pathParts req = ["work"; rawId] ->
  searchParams_get (url req) "format" = Some fmt ->
  fmt = "pdf" \/ fmt = "parsed-pdf" ->
  startsWith rawId "10." = true ->
  let t := trace w (Work.fetch req env) in
  existsb is_catalog t = false /\
  (forall q, In q (collect index_query t) -> nid q = rawId) /\
  (forall resp, result w (Work.fetch req env) = Some resp ->
                status resp <> 400) /\
  (forall auth,
     result w (checkApiKey req env) = Some auth ->
     valid auth = true -> hasCreditCard auth = true ->
     collect index_query t =
     [by_native_id (if String.eqb fmt "parsed-pdf" then "grobid-xml"
                    else "harvested-pdf") rawId]) /\
  (forall o,
     result w (Work.fetch req env) = Some (json 200 (JObj o)) ->
     prop o "native_id" = Some (JStr rawId) /\
     prop o "native_id_namespace" = Some (JStr "doi")).
Proof.
  intros Hm Hp Hf Hfmt Hd t. subst t.
  destruct (Work_fetch_doi w req env rawId fmt Hm Hp Hf Hfmt Hd)
    as [(L & S & A) | (L & R)]; cbn zeta in *.
  - split; [|split; [|split; [|split]]].
    + now rewrite (existsb_led _ _ _ _ gate_not_catalog L).
    + intros q.
      rewrite (collect_led _ _ _ _
                 (fun e G => front_no_query e (gate_is_front e G)) L).
      intros [].
    + intros resp E. apply S in E. lia.
    + intros auth E V C. apply A in E. rewrite V, C in E. discriminate.
    + intros o E. apply S in E. cbn in E. lia.
  - split; [|split; [|split; [|split]]].
    + rewrite (existsb_led _ _ _ _ gate_not_catalog L).
      apply Work_serve_no_catalog.
    + intros q.
      rewrite (collect_led _ _ _ _
                 (fun e G => front_no_query e (gate_is_front e G)) L).
      rewrite Work_serve_queries. intros [<-|[]]. reflexivity.
    + intros resp. rewrite R. intros E. apply Work_serve_status in E. lia.
    + intros auth _ _ _.
      rewrite (collect_led _ _ _ _
                 (fun e G => front_no_query e (gate_is_front e G)) L).
      apply Work_serve_queries.
    + intros o. rewrite R. apply Work_serve_json_ids.
Qed.

(** The path endpoint has no DOI branch.  A string that starts with "10."
    is not [W] and digits, and trimming keeps its first character, so
    [normalizeWorkId] can only accept it through the URL parser. *)
Lemma trimEnd_keeps_head (c : ascii) (r : string) :
  is_space c = false -> exists r', trimEnd (String c r) = String c r'.
Proof.
  intros H. simpl. destruct (trimEnd r); [rewrite H|]; eauto.
Qed.

Lemma trim_doi_prefix (s : string) :
  startsWith s "10." = true -> exists r, trim s = String "1" r.
Proof.
  destruct s as [|a r]; [discriminate|]. cbn [startsWith].
  intros H. apply andb_true_iff in H as [H _].
  apply Ascii.eqb_eq in H. subst a.
  unfold trim. cbn [trimStart]. change (is_space "1") with false. cbn iota.
  now apply trimEnd_keeps_head.
Qed.

Lemma Works_normalize_doi (rawId : string) :
  startsWith rawId "10." = true ->
  URL_pathname (trim rawId) = None ->
  Works.normalizeWorkId rawId = None.
Proof.
  intros Hd Hu. unfold Works.normalizeWorkId.
  replace (truthy rawId) with true by (destruct rawId; [discriminate Hd | reflexivity]).
  cbn [negb]. cbv zeta. rewrite Hu.
  destruct (trim_doi_prefix rawId Hd) as [r ->].
  destruct r; reflexivity.
Qed.

Lemma Works_doi_rejected (w : World) (req : Request) (env : Env)
    (rawId kind : string) :
  method req = "GET" ->
  pathParts req = ["works"; rawId; "best_oa_location"; kind] ->
  kind = "pdf" \/ kind = "parsed-pdf" ->
  startsWith rawId "10." = true ->
  URL_pathname (trim rawId) = None ->
  run w (Works.fetch req env) =
  ([], Some (jsonOrText (wantsJson req) 400
               [("error", JStr "Invalid work id");
                ("work_id_input", JStr rawId)])).
Proof.
  intros Hm Hp Hk Hd Hu. unfold Works.fetch.
  rewrite Hm, Hp. cbn [nth length].
  rewrite (Works_normalize_doi rawId Hd Hu).
  destruct Hk; subst kind; reflexivity.
Qed.

(** C1, as the code has it.  For a raw identifier that starts with "10.":
    on the [/work/{id}?format=] endpoint it is taken as a DOI, the catalog is
    never called, the request is never rejected with 400, the index is asked
    for the raw value itself as native id, and the metadata answer reports it
    under the fixed scheme "doi"; on the
    [/works/{id}/best_oa_location/{pdf|parsed-pdf}] endpoint there is no such
    branch, and whenever the platform's URL parser does not accept the
    trimmed identifier (as [new URL] does not accept a string without a
    scheme) the request is answered 400 "Invalid work id" before any call is
    made. *)
Theorem doi_bypasses_catalog (w : World) (env : Env) (rawId : string) :
  startsWith rawId "10." = true ->
  (forall req fmt,
     method req = "GET" -> pathParts req = ["work"; rawId] ->
     searchParams_get (url req) "format" = Some fmt ->
     fmt = "pdf" \/ fmt = "parsed-pdf" ->
     let t := trace w (Work.fetch req env) in
     existsb is_catalog t = false /\
     (forall q, In q (collect index_query t) -> nid q = rawId) /\
     (forall resp, result w (Work.fetch req env) = Some resp ->
                   status resp <> 400) /\
     (forall auth,
        result w (checkApiKey req env) = Some auth ->
        valid auth = true -> hasCreditCard auth = true ->
        collect index_query t =
        [by_native_id (if String.eqb fmt "parsed-pdf" then "grobid-xml"
                       else "harvested-pdf") rawId]) /\
     (forall o,
        result w (Work.fetch req env) = Some (json 200 (JObj o)) ->
        prop o "native_id" = Some (JStr rawId) /\
        prop o "native_id_namespace" = Some (JStr "doi"))) /\
  (forall req kind,
     method req = "GET" ->
     pathParts req = ["works"; rawId; "best_oa_location"; kind] ->
     kind = "pdf" \/ kind = "parsed-pdf" ->
     URL_pathname (trim rawId) = None ->
     run w (Works.fetch req env) =
     ([], Some (jsonOrText (wantsJson req) 400
                  [("error", JStr "Invalid work id");
                   ("work_id_input", JStr rawId)]))).
Proof.
  intros Hd. split.
  - intros req fmt Hm Hp Hf Hfmt.
    exact (Work_doi_bypass w req env rawId fmt Hm Hp Hf Hfmt Hd).
  - intros req kind Hm Hp Hk Hu.
    exact (Works_doi_rejected w req env rawId kind Hm Hp Hk Hd Hu).
Qed.

End Doi.


(** ** The retrieval properties on concrete requests *)

Lemma primary_before_backup_witness :
  let t := trace primary_world
                 (@Works.fetch example_platform pdf_request example_env) in
  (forall pre e post,
     t = (pre ++ e :: post)%list -> is_backup e = true ->
     exists p, In p pre /\ is_primary_get p = true) /\
  (forall obj,
     In (Returned (Some obj)) (collect primary_get_answer t) ->
     existsb is_backup t = false /\
     exists resp,
       result primary_world
              (@Works.fetch example_platform pdf_request example_env)
       = Some resp /\ status resp = 200 /\
       body resp = BodyStream (r2_body obj)) /\
  (forall out item rest u,
     In (Returned out) (collect index_answer t) ->
     Items out = Some (item :: rest) -> item_id item = Some u ->
     truthy u = true ->
     existsb is_primary_get t = true).
Proof.
  exact (@primary_before_backup example_platform primary_world pdf_request
           example_env eq_refl).
Defined.

(** The run behind the witness: one primary fetch, answered from the
    object; and, with the artifact in the backup tier only, the primary
    fetch comes first and the body is the backup's. *)
Example primary_hit_run :
  collect primary_get_answer
    (trace primary_world (@Works.fetch example_platform pdf_request example_env))
  = [Returned (Some stored_object)] /\
  existsb is_backup
    (trace primary_world (@Works.fetch example_platform pdf_request example_env))
  = false /\
  option_map body
    (result primary_world (@Works.fetch example_platform pdf_request example_env))
  = Some (BodyStream "PRIMARY-BYTES").
Proof. repeat split. Qed.

Example backup_fallback_run :
  map is_primary_get
    (trace backup_only_world (@Work.fetch example_platform doi_request example_env))
  = [false; false; true; false] /\
  map is_backup
    (trace backup_only_world (@Work.fetch example_platform doi_request example_env))
  = [false; false; false; true] /\
  option_map (fun r => (status r, body r))
    (result backup_only_world (@Work.fetch example_platform doi_request example_env))
  = Some (200, BodyStream "BACKUP-BYTES").
Proof. repeat split. Qed.

Lemma unmapped_native_id_is_200_witness :
  exists o,
    result unmapped_world (@Works.fetch example_platform json_request example_env)
    = Some (json 200 (JObj o)) /\
    prop o "mapping_found_in_dynamodb" = Some (JBool false) /\
    prop o "file_uuid" = Some JNull /\
    prop o "download_url" = Some JNull.
Proof.
  apply (@unmapped_native_id_is_200 example_platform unmapped_world
           json_request example_env (mkQueryOutput (Some []))).
  - reflexivity.
  - vm_compute. left. reflexivity.
  - right. reflexivity.
Defined.

Lemma safeName_replaces_unsafe_characters_witness :
  (result backup_only_world (@Works.fetch example_platform doi_request example_env)
   = Some backup_response ->
   headers_get (headers backup_response) "Content-Disposition" =
   Some (content_disposition
           (replace_path_unsafe
              (unwrap (@Works.normalizeWorkId example_platform "10.1:b")) ++
            ".pdf")))
  /\
  (result backup_only_world (@Work.fetch example_platform doi_request example_env)
   = Some backup_response ->
   headers_get (headers backup_response) "Content-Disposition" =
   Some (content_disposition "10.1_b.pdf"))
  /\
  (forall s,
     String.length (replace_path_unsafe s) = String.length s /\
     forall i c, String.get i s = Some c ->
                 String.get i (replace_path_unsafe s)
                 = Some (if is_path_unsafe c then "_"%char else c))
  /\
  (forall c, is_path_unsafe c = true <-> In c path_unsafe_chars).
Proof.
  exact (@safeName_replaces_unsafe_characters example_platform
           backup_only_world doi_request example_env backup_response
           eq_refl eq_refl).
Defined.

(** C7 as stated fails on a DOI with a colon: the colon is not removed from
    the file name, it becomes an underscore. *)
Lemma doi_file_name_keeps_an_underscore :
  exists resp,
    result backup_only_world (@Work.fetch example_platform doi_request example_env)
    = Some resp /\
    status resp = 200 /\
    headers_get (headers resp) "Content-Disposition"
    = Some (content_disposition "10.1_b.pdf") /\
    remove_path_unsafe "10.1:b" ++ ".pdf" = "10.1b.pdf" /\
    headers_get (headers resp) "Content-Disposition"
    <> Some (content_disposition (remove_path_unsafe "10.1:b" ++ ".pdf")).
Proof.
  exists backup_response. split; [reflexivity|]. split; [reflexivity|].
  split; [reflexivity|]. split; [reflexivity|]. vm_compute. discriminate.
Qed.

Lemma doi_bypasses_catalog_witness :
  (let t := trace backup_only_world
                  (@Work.fetch example_platform doi_request example_env) in
   existsb is_catalog t = false /\
   (forall q, In q (collect index_query t) -> nid q = "10.1:b") /\
   (forall resp,
      result backup_only_world (@Work.fetch example_platform doi_request example_env)
      = Some resp -> status resp <> 400) /\
   (forall auth,
      result backup_only_world (@checkApiKey example_platform doi_request example_env)
      = Some auth ->
      valid auth = true -> hasCreditCard auth = true ->
      collect index_query t = [by_native_id "harvested-pdf" "10.1:b"]) /\
   (forall o,
      result backup_only_world (@Work.fetch example_platform doi_request example_env)
      = Some (json 200 (JObj o)) ->
      prop o "native_id" = Some (JStr "10.1:b") /\
      prop o "native_id_namespace" = Some (JStr "doi"))) /\
  run backup_only_world
      (@Works.fetch example_platform doi_path_request example_env)
  = ([], Some (jsonOrText (wantsJson doi_path_request) 400
                 [("error", JStr "Invalid work id");
                  ("work_id_input", JStr "10.1:b")])).
Proof.
  destruct (@doi_bypasses_catalog example_platform backup_only_world
              example_env "10.1:b" eq_refl) as [bypass rejected].
  split.
  - exact (bypass doi_request "pdf" eq_refl eq_refl eq_refl
                  (or_introl eq_refl)).
  - exact (rejected doi_path_request "pdf" eq_refl eq_refl
                    (or_introl eq_refl) eq_refl).
Defined.

(** C1 as stated fails on the path-keyed endpoint of [src/index.ts]: a raw
    identifier that starts with "10." is rejected as an invalid work id
    before any call is made. *)
Lemma doi_rejected_by_path_endpoint :
  nth 1 (pathParts doi_path_request) "" = "10.1:b" /\
  startsWith "10.1:b" "10." = true /\
  run backup_only_world
      (@Works.fetch example_platform doi_path_request example_env)
  = ([], Some (text_response "Invalid work id" 400)).
Proof. repeat split. Qed.

(** The identifier of the query endpoint is one path segment: a DOI written
    with its slash gives three segments and is not routed. *)
Example doi_with_slash_is_not_routed :
  pathParts (get_request "/work/10.1/abc" [("api_key", "k"); ("format", "pdf")])
  = ["work"; "10.1"; "abc"] /\
  run backup_only_world
      (@Work.fetch example_platform
         (get_request "/work/10.1/abc" [("api_key", "k"); ("format", "pdf")])
         example_env)
  = ([], Some (text_response "Not Found" 404)).
Proof. split; reflexivity. Qed.

(** * Further properties of the two sources *)

(** ** Joining and splitting a location reference *)

Lemma get_append_left (a b : string) (i : nat) :
  (i < String.length a)%nat -> String.get i (a ++ b) = String.get i a.
Proof.
  revert i. induction a as [|c r IH]; intros i L; simpl in *; [lia|].
  destruct i; [reflexivity | apply IH; lia].
Qed.

Lemma get_append_at (a b : string) :
  String.get (String.length a) (a ++ b) = String.get 0 b.
Proof. induction a as [|c r IH]; simpl; [reflexivity | exact IH]. Qed.

Lemma substring_append_left (a b : string) :
  String.substring 0 (String.length a) (a ++ b) = a.
Proof.
  induction a as [|c r IH]; simpl; [now destruct b | now rewrite IH].
Qed.

Lemma substring_append_right (a b : string) (c : ascii) :
  String.substring (S (String.length a)) (String.length b) (a ++ String c b) = b.
Proof.
  induction a as [|d r IH]; simpl; [apply substring_all | exact IH].
Qed.

(** X1.  Cutting a location id at its first colon inverts joining: for a
    non-empty scheme without a colon and a non-empty native id, the id
    [scheme:nativeId] is split back into exactly that scheme and that native
    id, whatever colons the native id itself contains. *)
Theorem split_after_join (scheme nativeId : string) :
  scheme <> "" -> nativeId <> "" -> (forall i, ~ colon_at scheme i) ->
  splitLocationId (scheme ++ ":" ++ nativeId) = Some (scheme, nativeId).
Proof.
  intros Hs Hn Hc.
  assert (F : first_colon_at (scheme ++ ":" ++ nativeId) (String.length scheme)).
  { split.
    - unfold colon_at. now rewrite get_append_at.
    - intros j Hj. unfold colon_at. rewrite get_append_left by exact Hj.
      apply Hc. }
  unfold splitLocationId. rewrite (indexOf_first _ _ F).
  unfold strlen. rewrite length_append. simpl String.length.
  destruct scheme as [|a r]; [contradiction|].
  destruct nativeId as [|b t]; [contradiction|].
  replace (Z.of_nat (String.length (String a r)) <=? 0) with false
    by (symmetry; apply Z.leb_gt; simpl String.length; lia).
  replace (Z.of_nat (String.length (String a r)) =?
           Z.of_nat (String.length (String a r) + S (String.length (String b t))) - 1)
    with false by (symmetry; apply Z.eqb_neq; simpl String.length; lia).
  cbn [orb]. unfold slice, sliceFrom.
  rewrite Z.sub_0_r, Nat2Z.id. change (Z.to_nat 0) with 0%nat.
  rewrite substring_append_left.
  replace (Z.to_nat (Z.of_nat (String.length (String a r)) + 1))
    with (S (String.length (String a r))) by lia.
  rewrite length_append.
  replace (String.length (String a r) + String.length (":" ++ String b t)
           - S (String.length (String a r)))%nat
    with (String.length (String b t)) by (simpl String.length; lia).
  change (":" ++ String b t) with (String ":" (String b t)).
  now rewrite substring_append_right.
Qed.

Lemma split_after_join_witness :
  splitLocationId ("pmh" ++ ":" ++ "oai:x") = Some ("pmh", "oai:x").
Proof.
  apply split_after_join.
  - discriminate.
  - discriminate.
  - intros [|[|[|i]]]; vm_compute; discriminate.
Defined.

(** ** [normalizeWorkId] on a URL *)

Lemma test_W_digits_no_slash (a b : string) :
  test_W_digits (a ++ String "/" b) = false.
Proof.
  assert (D : forall s t, all_digits (s ++ String "/" t) = false).
  { induction s as [|c r IH]; intros t; simpl; [reflexivity|].
    rewrite IH. apply andb_false_r. }
  destruct a as [|w [|d r]].
  - destruct b; reflexivity.
  - simpl. now destruct (is_W w).
  - simpl. rewrite D. apply andb_false_r.
Qed.

Lemma match_slash_suffix (pre code : string) :
  test_W_digits code = true ->
  match_slash_W_digits_end (pre ++ String "/" code) = Some (String "/" code).
Proof.
  intros T. induction pre as [|c r IH]; simpl.
  - now rewrite T.
  - rewrite test_W_digits_no_slash, andb_false_r. exact IH.
Qed.

Section NormalizeUrl.
Context {platform : Platform}.

(** X2.  The URL branch of [normalizeWorkId]: when the trimmed input is not
    itself an identifier but parses as a URL whose path ends in a segment
    made of [W] or [w] and digits, the result is that segment in upper case,
    the same as normalizing the bare segment. *)
Theorem normalizeWorkId_of_url (x pre code : string) :
  truthy x = true ->
  test_W_digits (trim x) = false ->
  URL_pathname (trim x) = Some (pre ++ String "/" code) ->
  test_W_digits code = true ->
  Works.normalizeWorkId x = Some (toUpperCase code) /\
  Works.normalizeWorkId x = Works.normalizeWorkId code.
Proof.
  intros Hx Ht Hu Hc. assert (E : Works.normalizeWorkId x = Some (toUpperCase code)).
  { unfold Works.normalizeWorkId. rewrite Hx, Ht, Hu. cbn [negb].
    rewrite (match_slash_suffix _ _ Hc). now rewrite sliceFrom_1. }
  split; [exact E|]. rewrite E. symmetry.
  unfold Works.normalizeWorkId.
  destruct code as [|w [|d r]]; try discriminate Hc.
  cbn [truthy negb].
  assert (Tr : trim (String w (String d r)) = String w (String d r)).
  { simpl in Hc. apply andb_true_iff in Hc as [Hc Hr].
    apply andb_true_iff in Hc as [Hw Hd].
    assert (Sw : is_space w = false)
      by (revert Hw; unfold is_W; clear; each_char w).
    unfold trim. simpl trimStart. rewrite Sw.
    assert (Hall : all_digits (String d r) = true) by (simpl; now rewrite Hd, Hr).
    pose proof (all_digits_trimEnd _ Hall) as TE.
    change (trimEnd (String w (String d r)))
      with (match trimEnd (String d r) with
            | "" => if is_space w then "" else String w ""
            | String a s => String w (String a s) end).
    now rewrite TE. }
  rewrite Tr, Hc. reflexivity.
Qed.

End NormalizeUrl.

Lemma normalizeWorkId_of_url_witness :
  @Works.normalizeWorkId example_platform " https://openalex.org/works/w12345 "
  = Some "W12345" /\
  @Works.normalizeWorkId example_platform " https://openalex.org/works/w12345 "
  = @Works.normalizeWorkId example_platform "w12345".
Proof.
  exact (@normalizeWorkId_of_url example_platform
           " https://openalex.org/works/w12345 " "/works" "w12345"
           eq_refl eq_refl eq_refl eq_refl).
Defined.

(** ** The URL of a backup object *)

Lemma all_chars_append (p : ascii -> bool) (a b : string) :
  all_chars p (a ++ b) = all_chars p a && all_chars p b.
Proof.
  induction a as [|c r IH]; simpl; [reflexivity|].
  now rewrite IH, andb_assoc.
Qed.

Lemma encode_char_safe (c : ascii) :
  all_chars is_encoded_char (encode_char c) = true.
Proof. destruct c as [[] [] [] [] [] [] [] []]; reflexivity. Qed.

Lemma encodeURIComponent_safe (s : string) :
  all_chars is_encoded_char (encodeURIComponent s) = true.
Proof.
  induction s as [|c r IH]; simpl; [reflexivity|].
  now rewrite all_chars_append, encode_char_safe, IH.
Qed.

Lemma encodeURIComponent_unreserved (s : string) :
  all_chars is_uri_unreserved s = true -> encodeURIComponent s = s.
Proof.
  induction s as [|c r IH]; simpl; [reflexivity|].
  intros H. apply andb_true_iff in H as [Hc Hr].
  unfold encode_char. rewrite Hc. simpl. now rewrite IH.
Qed.

Lemma encoded_char_not_separator (c : ascii) :
  is_encoded_char c = true -> c <> "/"%char /\ c <> "?"%char /\ c <> "#"%char.
Proof.
  intros H. repeat split; intros ->; discriminate H.
Qed.

Lemma all_chars_get (p : ascii -> bool) (s : string) (i : nat) (c : ascii) :
  all_chars p s = true -> String.get i s = Some c -> p c = true.
Proof.
  revert i. induction s as [|a r IH]; intros i H G.
  - destruct i; discriminate G.
  - simpl in H. apply andb_true_iff in H as [Ha Hr].
    destruct i; simpl in G; [now injection G as <- | eauto].
Qed.

(** X3.  The URL signed for the backup tier is the bucket's host followed by
    the object key as one path segment: the encoded key contains no slash,
    question mark or hash, and a key of unreserved characters is left as it
    is. *)
Theorem s3Url_one_segment (env : Env) (bucket key : string) :
  exists segment,
    s3Url env bucket key
    = "https://" ++ s3Host bucket (AWS_REGION env) ++ "/" ++ segment /\
    (forall i c, String.get i segment = Some c ->
                 c <> "/"%char /\ c <> "?"%char /\ c <> "#"%char) /\
    (all_chars is_uri_unreserved key = true -> segment = key).
Proof.
  exists (encodeURIComponent key). split; [reflexivity|]. split.
  - intros i c G. apply encoded_char_not_separator.
    exact (all_chars_get _ _ _ _ (encodeURIComponent_safe key) G).
  - apply encodeURIComponent_unreserved.
Qed.

(** ** The credential a request presents *)

Lemma bearer_prefix (tok : string) :
  startsWith ("Bearer " ++ tok) "Bearer " = true /\
  substringFrom ("Bearer " ++ tok) 7 = tok.
Proof.
  split; [destruct tok; reflexivity|].
  unfold substringFrom, sliceFrom. change (Z.to_nat 7) with 7%nat.
  simpl. rewrite Nat.sub_0_r. apply substring_all.
Qed.

Section Presented.
Context {platform : Platform}.

(** X4.  The key looked up in the key store is the presented one: the
    [api_key] query parameter when it is non-empty, otherwise the token after
    [Bearer ] in the Authorization header; [checkApiKey] makes exactly one
    lookup, bound to that key. *)
Theorem lookup_is_bound_to_presented_key (w : World) (req : Request)
    (env : Env) (k : string) :
  truthy k = true ->
  searchParams_get (url req) "api_key" = Some k \/
  (truthy_opt (searchParams_get (url req) "api_key") = false /\
   headers_get (req_headers req) "Authorization" = Some ("Bearer " ++ k)) ->
  presentedKey req = Some k /\
  collect key_bound (trace w (checkApiKey req env)) = [k].
Proof.
  intros Hk H.
  assert (P : presentedKey req = Some k).
  { unfold presentedKey. destruct H as [H | [Hp Hh]].
    - rewrite H. cbn [truthy_opt]. now rewrite Hk.
    - rewrite Hp, Hh. cbn [negb truthy_opt unwrap].
      destruct (bearer_prefix k) as [E1 E2]. rewrite E1, E2. reflexivity. }
  split; [exact P|].
  unfold checkApiKey. rewrite P. cbn [truthy_opt unwrap]. rewrite Hk.
  run_cases; reflexivity.
Qed.

End Presented.

Lemma lookup_is_bound_to_presented_key_witness :
  @presentedKey bearer_request = Some "secret-token" /\
  collect key_bound
    (trace unknown_key_world (@checkApiKey example_platform bearer_request example_env))
  = ["secret-token"].
Proof.
  exact (@lookup_is_bound_to_presented_key example_platform unknown_key_world
           bearer_request example_env "secret-token" eq_refl
           (or_intror (conj eq_refl eq_refl))).
Defined.

(** ** Why the gate rejects, and when it accepts *)

Section Gate.
Context {platform : Platform}.

(** X5.  Every rejection of [checkApiKey] is one of four: no key was
    presented (no call is made and no error is set); the store has no row
    ("API key not found"); the lookup raised ("Database error", logged to the
    console); or the row's expiry is a readable timestamp not after the
    clock ("API key expired on ...").  A rejection never reports a card on
    file. *)
Theorem gate_rejections (w : World) (req : Request) (env : Env)
    (a : AuthResult) :
  result w (checkApiKey req env) = Some a -> valid a = false ->
  hasCreditCard a = false /\
  ((error a = None /\ trace w (checkApiKey req env) = []) \/
   (error a = Some "API key not found" /\
    collect key_answer (trace w (checkApiKey req env)) = [Returned None]) \/
   (error a = Some "Database error" /\
    collect key_answer (trace w (checkApiKey req env)) = [Raised] /\
    existsb is_console_error (trace w (checkApiKey req env)) = true) \/
   (exists row ts t,
      error a = Some ("API key expired on " ++ ts) /\
      collect key_answer (trace w (checkApiKey req env)) = [Returned (Some row)] /\
      expires_at row = Some ts /\ Date_parse ts = Some t /\ t <= w _ Date_now)).
Proof.
  unfold checkApiKey. run_cases; intros E; try discriminate E;
    injection E as <-; cbn [valid hasCreditCard error]; intros V;
    try discriminate V; (split; [reflexivity|]).
  all: first
    [ solve [left; split; reflexivity]
    | solve [right; left; split; reflexivity]
    | solve [right; right; left; repeat split]
    | right; right; right;
      match goal with
      | D : date_le (Date_parse (unwrap (expires_at ?k))) _ = true |- _ =>
          destruct (expires_at k) as [ts|] eqn:X; [|discriminate];
          cbn [unwrap] in *;
          destruct (Date_parse ts) as [t|] eqn:P; [|discriminate];
          exists k, ts, t; cbn [date_le] in D;
          repeat split; auto; now apply Z.leb_le
      end ].
Qed.

Lemma checkApiKey_returns (w : World) (req : Request) (env : Env) :
  exists a, result w (checkApiKey req env) = Some a.
Proof. unfold checkApiKey. run_cases; eexists; reflexivity. Qed.

(** X6.  A stored key whose expiry cannot be read as a date, or lies
    strictly after the current time, is accepted, with [hasCreditCard] the
    stored flag. *)
Theorem unexpired_key_is_accepted (w : World) (req : Request) (env : Env)
    (row : KeyRow) (ts : string) :
  truthy_opt (presentedKey req) = true ->
  w _ (D1_first api_key_query (unwrap (presentedKey req))) = Returned (Some row) ->
  expires_at row = Some ts ->
  Date_parse ts = None \/ (exists t, Date_parse ts = Some t /\ w _ Date_now < t) ->
  result w (checkApiKey req env) =
    Some (mkAuthResult true (Boolean_sql (credit_card_on_file row)) None).
Proof.
  intros Hk Hrow Hexp Hd. unfold checkApiKey.
  rewrite Hk. run_step. rewrite Hrow. run_step. rewrite Hexp.
  cbn [truthy_opt unwrap].
  destruct (truthy ts); run_step; [|reflexivity].
  destruct Hd as [-> | (t & -> & Hlt)]; cbn [date_le]; [reflexivity|].
  apply Z.leb_gt in Hlt. now rewrite Hlt.
Qed.

End Gate.

Lemma gate_rejections_witness :
  false = false /\
  ((Some "Database error" = None /\
    trace key_store_down (@checkApiKey example_platform pdf_request example_env) = []) \/
   (Some "Database error" = Some "API key not found" /\
    collect key_answer
      (trace key_store_down (@checkApiKey example_platform pdf_request example_env))
    = [Returned None]) \/
   (Some "Database error" = Some "Database error" /\
    collect key_answer
      (trace key_store_down (@checkApiKey example_platform pdf_request example_env))
    = [Raised] /\
    existsb is_console_error
      (trace key_store_down (@checkApiKey example_platform pdf_request example_env))
    = true) \/
   (exists row ts t,
      Some "Database error" = Some ("API key expired on " ++ ts) /\
      collect key_answer
        (trace key_store_down (@checkApiKey example_platform pdf_request example_env))
      = [Returned (Some row)] /\
      expires_at row = Some ts /\ example_Date_parse ts = Some t /\
      t <= @key_store_down Z Date_now)).
Proof.
  exact (@gate_rejections example_platform key_store_down pdf_request
           example_env (mkAuthResult false false (Some "Database error"))
           eq_refl eq_refl).
Defined.

Lemma unexpired_key_is_accepted_witness :
  result unreadable_expiry_world
         (@checkApiKey example_platform pdf_request example_env)
  = Some (mkAuthResult true true None).
Proof.
  exact (@unexpired_key_is_accepted example_platform unreadable_expiry_world
           pdf_request example_env (mkKeyRow (Some 1) (Some "next year"))
           "next year" eq_refl eq_refl eq_refl (or_introl eq_refl)).
Defined.

(** ** Sequencing *)

Lemma run_bind {A B : Type} (w : World) (p : Prog A) (f : A -> Prog B) :
  run w (bind p f) =
  match snd (run w p) with
  | Some a => ((fst (run w p) ++ fst (run w (f a)))%list, snd (run w (f a)))
  | None => (fst (run w p), None)
  end.
Proof.
  induction p as [a| |X c k IH]; simpl.
  - now destruct (run w (f a)).
  - reflexivity.
  - rewrite IH. destruct (snd (run w (k (w X c)))); reflexivity.
Qed.

(** ** Which requests reach a collaborator *)

Lemma Works_route (req : Request) :
  negb (Z.of_nat (length (pathParts req)) =? 4) ||
  negb (String.eqb (nth 0 (pathParts req) "") "works") ||
  negb (String.eqb (nth 2 (pathParts req) "") "best_oa_location") ||
  (negb (String.eqb (nth 3 (pathParts req) "") "pdf") &&
   negb (String.eqb (nth 3 (pathParts req) "") "parsed-pdf")) = false <->
  exists rawId kind,
    pathParts req = ["works"; rawId; "best_oa_location"; kind] /\
    (kind = "pdf" \/ kind = "parsed-pdf").
Proof.
  split.
  - intros H. apply orb_false_iff in H as [H K].
    apply orb_false_iff in H as [H B]. apply orb_false_iff in H as [L W].
    apply negb_false_iff in L, W, B.
    apply Z.eqb_eq in L. apply String.eqb_eq in W, B.
    destruct (pathParts req) as [|p0 [|p1 [|p2 [|p3 [|p4 l]]]]];
      simpl in L; try lia.
    simpl in W, B, K. subst p0 p2. exists p1, p3. split; [reflexivity|].
    apply andb_false_iff in K as [K|K]; apply negb_false_iff in K;
      apply String.eqb_eq in K; auto.
  - intros (rawId & kind & -> & [-> | ->]); reflexivity.
Qed.

Lemma Work_route (req : Request) :
  negb (Z.of_nat (length (pathParts req)) =? 2) ||
  negb (String.eqb (nth 0 (pathParts req) "") "work") = false <->
  exists rawId, pathParts req = ["work"; rawId].
Proof.
  split.
  - intros H. apply orb_false_iff in H as [L W].
    apply negb_false_iff in L, W.
    apply Z.eqb_eq in L. apply String.eqb_eq in W.
    destruct (pathParts req) as [|p0 [|p1 [|p2 l]]]; simpl in L; try lia.
    simpl in W. subst p0. now exists p1.
  - intros (rawId & ->). reflexivity.
Qed.

Lemma Work_format (req : Request) :
  negb (truthy_opt (searchParams_get (url req) "format")) ||
  (negb (String.eqb (unwrap (searchParams_get (url req) "format")) "pdf") &&
   negb (String.eqb (unwrap (searchParams_get (url req) "format")) "parsed-pdf"))
  = false <->
  (searchParams_get (url req) "format" = Some "pdf" \/
   searchParams_get (url req) "format" = Some "parsed-pdf").
Proof.
  split.
  - destruct (searchParams_get (url req) "format") as [f|]; [|discriminate].
    cbn [truthy_opt unwrap]. intros H. apply orb_false_iff in H as [_ K].
    apply andb_false_iff in K as [K|K]; apply negb_false_iff in K;
      apply String.eqb_eq in K; subst; auto.
  - intros [-> | ->]; reflexivity.
Qed.

Section Reach.
Context {platform : Platform}.

Lemma checkApiKey_no_key (w : World) (req : Request) (env : Env) :
  truthy_opt (presentedKey req) = false ->
  run w (checkApiKey req env) = ([], Some (mkAuthResult false false None)).
Proof. intros H. unfold checkApiKey. now rewrite H. Qed.

Lemma checkApiKey_with_key (w : World) (req : Request) (env : Env) :
  truthy_opt (presentedKey req) = true ->
  exists x t, trace w (checkApiKey req env)
              = Ev (D1_first api_key_query (unwrap (presentedKey req))) x :: t.
Proof.
  intros H. unfold checkApiKey. rewrite H. run_cases; do 2 eexists; reflexivity.
Qed.

(** X7.  The path endpoint calls a collaborator exactly when the request is
    a GET on [/works/{id}/best_oa_location/{pdf|parsed-pdf}] with an id that
    normalizes and a key is presented; every other request is answered
    without any call. *)
Theorem Works_calls_iff_routed (w : World) (req : Request) (env : Env) :
  trace w (Works.fetch req env) <> [] <->
  (method req = "GET" /\
   (exists rawId kind workId,
      pathParts req = ["works"; rawId; "best_oa_location"; kind] /\
      (kind = "pdf" \/ kind = "parsed-pdf") /\
      Works.normalizeWorkId rawId = Some workId) /\
   truthy_opt (presentedKey req) = true).
Proof.
  unfold Works.fetch. split.
  - destruct (String.eqb (method req) "GET") eqn:M; cbn [negb];
      [|intros H; now contradiction H].
    apply String.eqb_eq in M.
    match goal with
    | |- context [if ?c then Ret (text_response "Not Found" 404) else _] =>
        destruct c eqn:R
    end; [intros H; now contradiction H|].
    apply Works_route in R. destruct R as (rawId & kind & P & K).
    rewrite P. cbn [nth].
    destruct (Works.normalizeWorkId rawId) as [workId|] eqn:N;
      [|intros H; now contradiction H].
    pose proof (canonical_truthy _ (Works_normalize_canonical _ _ N)) as T.
    cbn [truthy_opt]. rewrite T. cbn [negb].
    destruct (truthy_opt (presentedKey req)) eqn:Key.
    + intros _. split; [exact M|]. split; [|reflexivity].
      exists rawId, kind, workId. auto.
    + unfold trace. rewrite run_bind, (checkApiKey_no_key _ _ _ Key).
      cbn. intros H. now contradiction H.
  - intros (M & (rawId & kind & workId & P & K & N) & Key).
    rewrite M. change (String.eqb "GET" "GET") with true. cbn [negb].
    replace (negb (Z.of_nat (length (pathParts req)) =? 4) ||
             negb (String.eqb (nth 0 (pathParts req) "") "works") ||
             negb (String.eqb (nth 2 (pathParts req) "") "best_oa_location") ||
             (negb (String.eqb (nth 3 (pathParts req) "") "pdf") &&
              negb (String.eqb (nth 3 (pathParts req) "") "parsed-pdf")))
      with false by (symmetry; apply Works_route; eauto).
    rewrite P. cbn [nth]. rewrite N.
    pose proof (canonical_truthy _ (Works_normalize_canonical _ _ N)) as T.
    cbn [truthy_opt]. rewrite T. cbn [negb].
    destruct (checkApiKey_with_key w req env Key) as (x & t & E).
    unfold trace in *. rewrite run_bind.
    destruct (snd (run w (checkApiKey req env))); cbn [fst]; rewrite E;
      discriminate.
Qed.

End Reach.

Section ReachWork.
Context {platform : Platform}.

(** X8.  The query endpoint calls a collaborator exactly when the request
    is a GET on [/work/{id}] whose id is a DOI or normalizes, whose [format]
    is [pdf] or [parsed-pdf], and a key is presented. *)
Theorem Work_calls_iff_routed (w : World) (req : Request) (env : Env) :
  trace w (Work.fetch req env) <> [] <->
  (method req = "GET" /\
   (exists rawId,
      pathParts req = ["work"; rawId] /\
      (startsWith rawId "10." = true \/
       exists workId, Work.normalizeWorkId rawId = Some workId)) /\
   (searchParams_get (url req) "format" = Some "pdf" \/
    searchParams_get (url req) "format" = Some "parsed-pdf") /\
   truthy_opt (presentedKey req) = true).
Proof.
  unfold Work.fetch. split.
  - destruct (String.eqb (method req) "GET") eqn:M; cbn [negb];
      [|intros H; now contradiction H].
    apply String.eqb_eq in M.
    match goal with
    | |- context [if ?c then Ret (text_response "Not Found" 404) else _] =>
        destruct c eqn:R
    end; [intros H; now contradiction H|].
    apply Work_route in R. destruct R as (rawId & P).
    match goal with
    | |- context [if ?c then Ret (text_response _ 400) else _] =>
        destruct c eqn:F
    end; [intros H; now contradiction H|].
    apply Work_format in F.
    rewrite P. cbn [nth].
    destruct (startsWith rawId "10.") eqn:D; cbn [negb andb].
    + destruct (truthy_opt (presentedKey req)) eqn:Key.
      * intros _. repeat split; auto. exists rawId. auto.
      * unfold trace. rewrite run_bind, (checkApiKey_no_key _ _ _ Key).
        cbn. intros H. now contradiction H.
    + destruct (Work.normalizeWorkId rawId) as [workId|] eqn:N;
        [|intros H; now contradiction H].
      pose proof (canonical_truthy _ (Work_normalize_canonical _ _ N)) as T.
      cbn [truthy_opt]. rewrite T. cbn [negb].
      destruct (truthy_opt (presentedKey req)) eqn:Key.
      * intros _. repeat split; auto. exists rawId. eauto.
      * unfold trace. rewrite run_bind, (checkApiKey_no_key _ _ _ Key).
        cbn. intros H. now contradiction H.
  - intros (M & (rawId & P & I) & F & Key).
    rewrite M. change (String.eqb "GET" "GET") with true. cbn [negb].
    replace (negb (Z.of_nat (length (pathParts req)) =? 2) ||
             negb (String.eqb (nth 0 (pathParts req) "") "work"))
      with false by (symmetry; apply Work_route; eauto).
    replace (negb (truthy_opt (searchParams_get (url req) "format")) ||
             (negb (String.eqb (unwrap (searchParams_get (url req) "format")) "pdf") &&
              negb (String.eqb (unwrap (searchParams_get (url req) "format"))
                               "parsed-pdf")))
      with false by (symmetry; now apply Work_format).
    rewrite P. cbn [nth].
    assert (G : negb (startsWith rawId "10.") &&
                negb (truthy_opt (if startsWith rawId "10." then None
                                  else Work.normalizeWorkId rawId)) = false).
    { destruct I as [-> | (workId & N)]; [reflexivity|].
      rewrite N. destruct (startsWith rawId "10."); [reflexivity|].
      cbn [truthy_opt].
      now rewrite (canonical_truthy _ (Work_normalize_canonical _ _ N)). }
    rewrite G.
    destruct (checkApiKey_with_key w req env Key) as (x & t & E).
    unfold trace in *. rewrite run_bind.
    destruct (snd (run w (checkApiKey req env))); cbn [fst]; rewrite E;
      discriminate.
Qed.

End ReachWork.

(** ** What the gate lets through *)

Section GateOrder.
Context {platform : Platform}.

(** X9.  Neither handler reaches the catalog, the index or a storage tier
    unless [checkApiKey] accepted the key with a card on file, and the key
    lookup is then the first call of the request. *)
Theorem data_calls_need_a_paid_key (w : World) (req : Request) (env : Env)
    (fetch : Request -> Env -> Prog Response) :
  fetch = Works.fetch \/ fetch = Work.fetch ->
  existsb is_data_call (trace w (fetch req env)) = true ->
  result w (checkApiKey req env) = Some (mkAuthResult true true None) /\
  exists x t, trace w (fetch req env)
              = Ev (D1_first api_key_query (unwrap (presentedKey req))) x :: t.
Proof.
  intros [-> | ->].
  - unfold Works.fetch, checkApiKey, fetchOpenAlexWork.
    run_cases; cbn [existsb is_data_call orb]; try discriminate; intros _;
      match goal with
      | N : negb ?b = false |- context [mkAuthResult true ?b None] =>
          destruct b; [|discriminate N]
      end; (split; [reflexivity | do 2 eexists; reflexivity]).
  - unfold Work.fetch, Work.resolve, checkApiKey, fetchOpenAlexWork.
    run_cases; cbn [existsb is_data_call orb]; try discriminate; intros _;
      match goal with
      | N : negb ?b = false |- context [mkAuthResult true ?b None] =>
          destruct b; [|discriminate N]
      end; (split; [reflexivity | do 2 eexists; reflexivity]).
Qed.

Ltac gate_response req :=
  try (unfold jsonOrText, text_response;
       destruct (wantsJson req); cbn;
       let S := fresh "S" in intros [S|S]; discriminate S);
  intros _; eexists; (split; [reflexivity|]);
  (split; [reflexivity|]); (split; [reflexivity|]);
  unfold unauthorized, payment_required;
  split; (let S := fresh "S" in intros S);
  try (destruct (wantsJson req); discriminate);
  cbn [valid hasCreditCard]; repeat split;
  match goal with
  | N : negb ?b = true |- ?b = false => now destruct b
  | _ => idtac
  end.

(** X10.  A 401 or a 403 is the gate's answer and nothing else: the only
    calls of the request are those of [checkApiKey], no data call is made, a
    401 is the rejection built from the gate's result, and a 403 is the fixed
    payment answer for a valid key without a card. *)
Theorem rejections_come_from_the_gate (w : World) (req : Request) (env : Env)
    (fetch : Request -> Env -> Prog Response) (resp : Response) :
  fetch = Works.fetch \/ fetch = Work.fetch ->
  result w (fetch req env) = Some resp ->
  status resp = 401 \/ status resp = 403 ->
  exists a,
    result w (checkApiKey req env) = Some a /\
    trace w (fetch req env) = trace w (checkApiKey req env) /\
    existsb is_data_call (trace w (fetch req env)) = false /\
    (status resp = 401 ->
     valid a = false /\ resp = unauthorized (wantsJson req) a) /\
    (status resp = 403 ->
     valid a = true /\ hasCreditCard a = false /\
     resp = payment_required (wantsJson req)).
Proof.
  intros [-> | ->].
  - unfold Works.fetch, checkApiKey, fetchOpenAlexWork.
    run_cases; try discriminate;
      try (intros E S; apply Works_serve_status in E; lia);
      intros [= <-]; gate_response req.
  - unfold Work.fetch, Work.resolve, checkApiKey, fetchOpenAlexWork.
    run_cases; try discriminate;
      try (intros E S; apply Work_serve_status in E; lia);
      intros [= <-]; gate_response req.
Qed.

End GateOrder.

(** ** Tactics for the served part *)

Ltac see :=
  cbn [collect existsb head_answer backup_answer backup_method primary_key
       index_answer primary_get_answer is_tier_call is_console_error
       is_store_call is_data_call any_object any_200 orb andb app In map
       status body headers] in *.

Ltac for_serve :=
  let H := fresh in
  intros H; destruct H as [(? & ? & ? & ? & ? & ->) | (? & ? & ? & ? & ? & ->)].

Ltac use_tests :=
  repeat match goal with
         | E : (?a =? ?b) = _ |- context [?a =? ?b] => rewrite E
         | E : resp_ok ?r = _ |- context [resp_ok ?r] => rewrite E
         end.

Ltac split_on_run :=
  match goal with
  | |- run _ _ = _ -> _ => idtac
  end;
  run_step; repeat (split_run; run_step).

(** The index answer of a run, read as the mapped uuid. *)
Ltac read_mapping M u :=
  read_equations; cbn [truthy_opt negb] in *; try congruence;
  unfold mapped_uuid in M;
  repeat match goal with
         | E : Items _ = _ |- _ => rewrite E in M
         end;
  try discriminate M;
  match type of M with
  | (if ?b then _ else _) = _ => destruct b eqn:?; [|discriminate M]
  | _ => idtac
  end;
  try (rewrite M in *; cbn [truthy_opt unwrap negb] in *; try congruence;
       destruct u; cbn [truthy] in *; try congruence;
       try match goal with
           | E : truthy_opt (Some (String _ _ ++ _)) = false |- _ =>
               cbn in E; discriminate E
           | E : truthy (String _ _ ++ _) = false |- _ =>
               cbn in E; discriminate E
           end).

(** ** Both handlers, from the index query on *)

Section Served.
Context {platform : Platform}.

Lemma fetch_decompose (w : World) (req : Request) (env : Env)
    (fetch : Request -> Env -> Prog Response) (isGrobid : bool) :
  handler_kind fetch req isGrobid ->
  (led_by is_front [] (trace w (fetch req env)) /\
   forall resp, result w (fetch req env) = Some resp -> status resp <> 200)
  \/
  (exists served,
     serve_of req env isGrobid (wantsJson req) served /\
     led_by is_front (trace w served) (trace w (fetch req env)) /\
     result w (fetch req env) = result w served).
Proof.
  intros [[-> ->] | [-> ->]].
  - destruct (Works_fetch_decompose w req env)
      as [E | (locId & scheme & nativeId & _ & L & R)]; [now left|].
    right. eexists. split; [|split; [exact L | exact R]].
    left. do 5 eexists. reflexivity.
  - destruct (Work_fetch_decompose w req env)
      as [E | (locId & scheme & nativeId & L & R)]; [now left|].
    right. eexists. split; [|split; [exact L | exact R]].
    right. do 5 eexists. reflexivity.
Qed.

Lemma serve_index_fault (w : World) (req : Request) (env : Env)
    (g j : bool) (served : Prog Response) :
  serve_of req env g j served ->
  In Raised (collect index_answer (trace w served)) ->
  exists resp,
    result w served = Some resp /\ status resp = 500 /\
    existsb is_tier_call (trace w served) = false /\
    existsb is_console_error (trace w served) = true /\
    (j = false -> body resp = BodyText "Internal server error (DynamoDB)").
Proof.
  for_serve; unfold_serve; run_cases; see; try (intros []; fail);
    intros [H|[]]; try discriminate H;
    (eexists; split; [reflexivity|]); destruct j; cbn;
    repeat split; try reflexivity; discriminate.
Qed.

Lemma serve_stream_unmapped (w : World) (req : Request) (env : Env)
    (g : bool) (served : Prog Response) (out : QueryOutput) :
  serve_of req env g false served ->
  In (Returned out) (collect index_answer (trace w served)) ->
  mapped_uuid out = None ->
  result w served =
    Some (text_response
            (fileTypeName g ++ " mapping not found (native_id not in DB)") 404) /\
  existsb is_tier_call (trace w served) = false.
Proof.
  for_serve; unfold_serve; run_cases; see; try (intros []; fail);
    intros [H|[]] M; read_equations; cbn [truthy_opt negb] in *;
    try congruence; unfold mapped_uuid in M;
    repeat match goal with
           | E : Items _ = _ |- _ => rewrite E in M
           | E : truthy_opt _ = _ |- _ => rewrite E in M
           | E : negb (truthy_opt ?x) = _ |- _ =>
               destruct (truthy_opt x) eqn:?; cbn [negb] in E; try discriminate E
           end;
    try discriminate M; try (split; reflexivity);
    rewrite M in *; cbn [truthy_opt] in *; congruence.
Qed.

End Served.

Section ServedTiers.
Context {platform : Platform}.

Lemma serve_metadata (w : World) (req : Request) (env : Env)
    (g : bool) (served : Prog Response) (out : QueryOutput) (u : string)
    (t : list Event) (resp : Response) :
  serve_of req env g true served ->
  run w served = (t, Some resp) ->
  In (Returned out) (collect index_answer t) ->
  mapped_uuid out = Some u ->
  let in_r2 :=
    any_object (collect head_answer t) ||
    any_object (collect primary_get_answer t) in
  let in_s3 := any_200 (collect backup_answer t) in
  exists o,
    resp = json 200 (JObj o) /\
    prop o "mapping_found_in_dynamodb" = Some (JBool true) /\
    prop o "file_uuid" = Some (JStr u) /\
    prop o "file_key" = Some (JStr (u ++ fileExtOf g)) /\
    prop o "in_r2" = Some (JBool in_r2) /\
    prop o "in_s3" = Some (JBool in_s3) /\
    prop o "download_url" =
      Some (if in_r2 || in_s3
            then JStr (URL_toString (searchParams_delete (url req) "json"))
            else JNull) /\
    collect backup_method t = ["HEAD"] /\
    (forall k, In k (collect primary_key t) -> k = u ++ fileExtOf g).
Proof.
  for_serve; unfold_serve; unfold or_null, fileExtOf; split_on_run;
    intros E; try discriminate E; injection E as <- <-; see;
    try (intros []; fail);
    intros [H|[]] M; read_mapping M u; cbn zeta; see;
    (eexists; split; [reflexivity|]);
    cbn [prop String.eqb Ascii.eqb Bool.eqb truthy_opt truthy fst snd andb orb];
    use_tests; cbn [orb andb];
    repeat split; try reflexivity;
    try (match goal with
         | |- context [match ?o with Some _ => _ | None => _ end] => destruct o
         end; reflexivity);
    intros k K; cbn [In] in K; intuition congruence.
Qed.

End ServedTiers.

(** ** Headers of a stream-mode success *)

Lemma r2_success_cache_control (obj : R2Object) (ct name : string) :
  headers_get (headers (r2_success obj ct name)) "Cache-Control"
  = Some "private, no-store".
Proof.
  unfold r2_success, headers_get. cbn [headers]. apply headers_get_set_same.
Qed.

Lemma r2_success_content_type (obj : R2Object) (ct name : string) :
  headers_get (headers (r2_success obj ct name)) "Content-Type" = Some ct.
Proof.
  unfold r2_success, headers_get. cbn [headers].
  rewrite headers_get_set_other by (vm_compute; discriminate).
  rewrite headers_get_set_other by (vm_compute; discriminate).
  apply headers_get_set_same.
Qed.

Lemma s3_success_cache_control (resp : HttpResponse) (ct name : string) :
  headers_get (headers (s3_success resp ct name)) "Cache-Control"
  = Some "private, no-store".
Proof.
  unfold s3_success, headers_get. cbn [headers].
  destruct (truthy_opt (headers_get_lc (resp_headers resp)
                                       (toLowerCase "content-length"))).
  - rewrite headers_get_set_other by (vm_compute; discriminate).
    apply headers_get_set_same.
  - apply headers_get_set_same.
Qed.

Lemma s3_success_content_type (resp : HttpResponse) (ct name : string) :
  headers_get (headers (s3_success resp ct name)) "Content-Type"
  = Some (if truthy_opt (headers_get (resp_headers resp) "content-type")
          then unwrap (headers_get (resp_headers resp) "content-type")
          else ct).
Proof.
  unfold s3_success, headers_get. cbn [headers].
  destruct (truthy_opt (headers_get_lc (resp_headers resp)
                                       (toLowerCase "content-length")));
    repeat (rewrite headers_get_set_other by (vm_compute; discriminate));
    apply headers_get_set_same.
Qed.

Lemma s3_success_content_length (resp : HttpResponse) (ct name : string) :
  headers_get (headers (s3_success resp ct name)) "Content-Length"
  = if truthy_opt (headers_get (resp_headers resp) "content-length")
    then headers_get (resp_headers resp) "content-length"
    else None.
Proof.
  unfold s3_success, headers_get. cbn [headers].
  destruct (headers_get_lc (resp_headers resp) (toLowerCase "content-length"))
    as [len|] eqn:L; cbn [truthy_opt].
  - destruct (truthy len).
    + apply headers_get_set_same.
    + repeat (rewrite headers_get_set_other by (vm_compute; discriminate)).
      reflexivity.
  - repeat (rewrite headers_get_set_other by (vm_compute; discriminate)).
    reflexivity.
Qed.

Section ServedStream.
Context {platform : Platform}.

Lemma serve_stream_outcome (w : World) (req : Request) (env : Env)
    (g : bool) (served : Prog Response) (out : QueryOutput) (u : string)
    (t : list Event) (resp : Response) :
  serve_of req env g false served ->
  run w served = (t, Some resp) ->
  In (Returned out) (collect index_answer t) ->
  mapped_uuid out = Some u ->
  (status resp =? 200) =
    any_object (collect primary_get_answer t) ||
    any_200 (collect backup_answer t) /\
  (status resp = 200 \/
   resp = text_response
            (fileTypeName g ++ " not found in R2 or S3 (" ++
             (u ++ fileExtOf g) ++ ")") 404) /\
  collect primary_key t = [u ++ fileExtOf g] /\
  collect head_answer t = [] /\
  (forall m, In m (collect backup_method t) -> m = "GET") /\
  (any_object (collect primary_get_answer t) = false -> status resp = 200 ->
   exists r, In (Returned r) (collect backup_answer t) /\
             body resp = BodyStream (resp_body r)).
Proof.
  for_serve; unfold_serve; unfold fileExtOf; split_on_run;
    intros E; try discriminate E; injection E as <- <-; see;
    try (intros []; fail);
    intros [H|[]] M; read_mapping M u; see;
    try match goal with
        | E : (resp_status ?r =? 200) = true, F : resp_ok ?r = false |- _ =>
            apply Z.eqb_eq in E; unfold resp_ok in F; rewrite E in F;
            discriminate F
        end;
    use_tests; cbn [orb andb];
    (split; [reflexivity|]);
    (split; [first [left; reflexivity | right; reflexivity]|]);
    (split; [reflexivity|]); (split; [reflexivity|]);
    (split; [intros m K; cbn [In] in K; intuition congruence|]);
    first [ intros; discriminate
          | intros _ _; eexists; split; [left; reflexivity | reflexivity] ].
Qed.

Lemma serve_stream_headers (w : World) (req : Request) (env : Env)
    (g : bool) (served : Prog Response) (t : list Event) (resp : Response) :
  serve_of req env g false served ->
  run w served = (t, Some resp) ->
  status resp = 200 ->
  headers_get (headers resp) "Cache-Control" = Some "private, no-store" /\
  (any_object (collect primary_get_answer t) = true ->
   headers_get (headers resp) "Content-Type" = Some (contentTypeOf g)) /\
  (any_object (collect primary_get_answer t) = false ->
   exists r,
     In (Returned r) (collect backup_answer t) /\
     headers_get (headers resp) "Content-Type" =
       Some (if truthy_opt (headers_get (resp_headers r) "content-type")
             then unwrap (headers_get (resp_headers r) "content-type")
             else contentTypeOf g) /\
     headers_get (headers resp) "Content-Length" =
       (if truthy_opt (headers_get (resp_headers r) "content-length")
        then headers_get (resp_headers r) "content-length"
        else None)).
Proof.
  for_serve; unfold_serve; unfold contentTypeOf; split_on_run;
    intros E; try discriminate E; injection E as <- <-;
    cbn [collect primary_get_answer backup_answer any_object existsb orb];
    intros S;
    first
      [ split; [apply r2_success_cache_control|];
        split; [intros _; apply r2_success_content_type | intros; discriminate]
      | split; [apply s3_success_cache_control|];
        split; [intros; discriminate|];
        intros _; eexists; split; [left; reflexivity|];
        split; [apply s3_success_content_type | apply s3_success_content_length]
      | cbn in S; discriminate S ].
Qed.

End ServedStream.

(** ** From [serve] to the handlers *)

Lemma run_pair {A : Type} (w : World) (p : Prog A) :
  run w p = (trace w p, result w p).
Proof. unfold trace, result. now destruct (run w p). Qed.

Lemma existsb_led_true (q p : Event -> bool) tail t :
  led_by p tail t -> existsb q tail = true -> existsb q t = true.
Proof.
  induction 1 as [|e t He _ IH]; [auto|].
  intros H. simpl. rewrite (IH H). apply orb_true_r.
Qed.

Lemma front_no_head e : is_front e = true -> head_answer e = None.
Proof. by_call e. Qed.

Lemma front_no_backup_answer e : is_front e = true -> backup_answer e = None.
Proof. by_call e. Qed.

Lemma front_no_method e : is_front e = true -> backup_method e = None.
Proof. by_call e. Qed.

Lemma front_no_primary_key e : is_front e = true -> primary_key e = None.
Proof. by_call e. Qed.

Lemma front_not_tier e : is_front e = true -> is_tier_call e = false.
Proof. by_call e. Qed.

Section Lifted.
Context {platform : Platform}.
Variables (w : World) (req : Request) (env : Env).
Variables (fetch : Request -> Env -> Prog Response) (isGrobid : bool).
Hypothesis kind : handler_kind fetch req isGrobid.

(** X11.  When the index query raises, the handler answers 500, logs the
    error to the console and contacts no storage tier; in text mode the body
    is "Internal server error (DynamoDB)". *)
Theorem index_fault_is_500 :
  In Raised (collect index_answer (trace w (fetch req env))) ->
  exists resp,
    result w (fetch req env) = Some resp /\ status resp = 500 /\
    existsb is_tier_call (trace w (fetch req env)) = false /\
    existsb is_console_error (trace w (fetch req env)) = true /\
    (wantsJson req = false ->
     body resp = BodyText "Internal server error (DynamoDB)").
Proof.
  destruct (fetch_decompose w req env fetch isGrobid kind)
    as [[L _] | (served & S & L & R)].
  - rewrite (collect_led _ _ _ _ front_no_index L). intros [].
  - rewrite (collect_led _ _ _ _ front_no_index L). intros H.
    destruct (serve_index_fault w req env _ _ served S H)
      as (resp & Hr & Hs & Ht & Hc & Hb).
    exists resp. rewrite R, (existsb_led _ _ _ _ front_not_tier L).
    rewrite (existsb_led_true _ _ _ _ L Hc). auto.
Qed.

(** X12.  In stream mode, an index answer without a usable uuid (no items,
    or a first item without a non-empty [id]) gives 404 with the body
    "<file type> mapping not found (native_id not in DB)" and no storage tier
    is contacted. *)
Theorem stream_unmapped_is_404 (out : QueryOutput) :
  wantsJson req = false ->
  In (Returned out) (collect index_answer (trace w (fetch req env))) ->
  mapped_uuid out = None ->
  result w (fetch req env) =
    Some (text_response
            (fileTypeName isGrobid ++ " mapping not found (native_id not in DB)")
            404) /\
  existsb is_tier_call (trace w (fetch req env)) = false.
Proof.
  intros J.
  destruct (fetch_decompose w req env fetch isGrobid kind)
    as [[L _] | (served & S & L & R)].
  - rewrite (collect_led _ _ _ _ front_no_index L). intros [].
  - rewrite (collect_led _ _ _ _ front_no_index L). rewrite J in S.
    intros H M.
    destruct (serve_stream_unmapped w req env _ served out S H M) as [Hr Ht].
    now rewrite R, (existsb_led _ _ _ _ front_not_tier L).
Qed.

(** X13.  In metadata mode with a mapped uuid the answer is a 200
    descriptor whose [file_key] is the uuid followed by the extension of the
    artifact kind, whose [in_r2] and [in_s3] report what the primary and the
    backup tier answered, and whose [download_url] is the request's URL
    without [json] exactly when one tier holds the object.  The backup tier
    is probed with one HEAD request, and the primary tier only under that
    key. *)
Theorem metadata_descriptor (out : QueryOutput) (u : string)
    (resp : Response) :
  wantsJson req = true ->
  In (Returned out) (collect index_answer (trace w (fetch req env))) ->
  mapped_uuid out = Some u ->
  result w (fetch req env) = Some resp ->
  let t := trace w (fetch req env) in
  let in_r2 :=
    any_object (collect head_answer t) ||
    any_object (collect primary_get_answer t) in
  let in_s3 := any_200 (collect backup_answer t) in
  exists o,
    resp = json 200 (JObj o) /\
    prop o "mapping_found_in_dynamodb" = Some (JBool true) /\
    prop o "file_uuid" = Some (JStr u) /\
    prop o "file_key" = Some (JStr (u ++ fileExtOf isGrobid)) /\
    prop o "in_r2" = Some (JBool in_r2) /\
    prop o "in_s3" = Some (JBool in_s3) /\
    prop o "download_url" =
      Some (if in_r2 || in_s3
            then JStr (URL_toString (searchParams_delete (url req) "json"))
            else JNull) /\
    collect backup_method t = ["HEAD"] /\
    (forall k, In k (collect primary_key t) -> k = u ++ fileExtOf isGrobid).
Proof.
  intros J.
  destruct (fetch_decompose w req env fetch isGrobid kind)
    as [[L _] | (served & S & L & R)]; cbn zeta.
  - rewrite (collect_led _ _ _ _ front_no_index L). intros [].
  - rewrite (collect_led _ _ _ _ front_no_index L),
      (collect_led _ _ _ _ front_no_head L),
      (collect_led _ _ _ _ front_no_primary L),
      (collect_led _ _ _ _ front_no_backup_answer L),
      (collect_led _ _ _ _ front_no_method L),
      (collect_led _ _ _ _ front_no_primary_key L), R.
    rewrite J in S. intros H M E.
    assert (P : run w served = (trace w served, Some resp))
      by (rewrite run_pair; now rewrite E).
    exact (serve_metadata w req env _ served out u _ resp S P H M).
Qed.

(** X14.  In stream mode with a mapped uuid the answer is 200 exactly when
    the primary tier returned an object or the backup tier answered 200, and
    otherwise the 404 "<file type> not found in R2 or S3 (<key>)".  The
    primary tier is read once under the uuid's key and never probed with
    HEAD, the backup tier is only asked with GET, and when the primary tier
    has no object a 200 streams the backup's body. *)
Theorem stream_outcome (out : QueryOutput) (u : string) (resp : Response) :
  wantsJson req = false ->
  In (Returned out) (collect index_answer (trace w (fetch req env))) ->
  mapped_uuid out = Some u ->
  result w (fetch req env) = Some resp ->
  let t := trace w (fetch req env) in
  (status resp =? 200) =
    any_object (collect primary_get_answer t) ||
    any_200 (collect backup_answer t) /\
  (status resp = 200 \/
   resp = text_response
            (fileTypeName isGrobid ++ " not found in R2 or S3 (" ++
             (u ++ fileExtOf isGrobid) ++ ")") 404) /\
  collect primary_key t = [u ++ fileExtOf isGrobid] /\
  collect head_answer t = [] /\
  (forall m, In m (collect backup_method t) -> m = "GET") /\
  (any_object (collect primary_get_answer t) = false -> status resp = 200 ->
   exists r, In (Returned r) (collect backup_answer t) /\
             body resp = BodyStream (resp_body r)).
Proof.
  intros J.
  destruct (fetch_decompose w req env fetch isGrobid kind)
    as [[L _] | (served & S & L & R)]; cbn zeta.
  - rewrite (collect_led _ _ _ _ front_no_index L). intros [].
  - rewrite (collect_led _ _ _ _ front_no_index L),
      (collect_led _ _ _ _ front_no_head L),
      (collect_led _ _ _ _ front_no_primary L),
      (collect_led _ _ _ _ front_no_backup_answer L),
      (collect_led _ _ _ _ front_no_method L),
      (collect_led _ _ _ _ front_no_primary_key L), R.
    rewrite J in S. intros H M E.
    assert (P : run w served = (trace w served, Some resp))
      by (rewrite run_pair; now rewrite E).
    exact (serve_stream_outcome w req env _ served out u _ resp S P H M).
Qed.

(** X15.  A streamed 200 is never cacheable: [Cache-Control] is
    [private, no-store].  From the primary tier the content type is that of
    the artifact kind; from the backup tier it is the backup's own content
    type when it sent one, else that of the kind, and the content length is
    passed through when present. *)
Theorem stream_success_headers (resp : Response) :
  wantsJson req = false ->
  result w (fetch req env) = Some resp ->
  status resp = 200 ->
  let t := trace w (fetch req env) in
  headers_get (headers resp) "Cache-Control" = Some "private, no-store" /\
  (any_object (collect primary_get_answer t) = true ->
   headers_get (headers resp) "Content-Type" = Some (contentTypeOf isGrobid)) /\
  (any_object (collect primary_get_answer t) = false ->
   exists r,
     In (Returned r) (collect backup_answer t) /\
     headers_get (headers resp) "Content-Type" =
       Some (if truthy_opt (headers_get (resp_headers r) "content-type")
             then unwrap (headers_get (resp_headers r) "content-type")
             else contentTypeOf isGrobid) /\
     headers_get (headers resp) "Content-Length" =
       (if truthy_opt (headers_get (resp_headers r) "content-length")
        then headers_get (resp_headers r) "content-length"
        else None)).
Proof.
  intros J.
  destruct (fetch_decompose w req env fetch isGrobid kind)
    as [[_ N] | (served & S & L & R)]; cbn zeta.
  - intros E St. now apply N in E.
  - rewrite (collect_led _ _ _ _ front_no_primary L),
      (collect_led _ _ _ _ front_no_backup_answer L), R.
    rewrite J in S. intros E St.
    assert (P : run w served = (trace w served, Some resp))
      by (rewrite run_pair; now rewrite E).
    exact (serve_stream_headers w req env _ served _ resp S P St).
Qed.

End Lifted.

(** ** The catalog stage *)

Section Catalog.
Context {platform : Platform}.

Lemma Work_serve_no_catalog_answer w req env g j rawId workId locId scheme nativeId :
  collect catalog_answer
    (fst (run w (Work.serve req env g j rawId workId locId scheme nativeId))) = [].
Proof. unfold_serve. run_cases; reflexivity. Qed.

Ltac catalog_cases HIn :=
  run_cases;
  rewrite ?Works_serve_no_catalog, ?Work_serve_no_catalog_answer in HIn;
  cbn [In existsb is_store_call orb] in *; try contradiction;
  destruct HIn as [HIn|[]]; read_equations.

(** X16.  When the catalog answers with a failure status, a falsy body or
    a work without [best_oa_location], the handler answers 404 "No
    best_oa_location for this work" and queries neither the index nor a
    storage tier. *)
Theorem catalog_miss_is_404 (w : World) (req : Request) (env : Env)
    (fetch : Request -> Env -> Prog Response) (r : FetchResponse) :
  fetch = Works.fetch \/ fetch = Work.fetch ->
  In (Returned r) (collect catalog_answer (trace w (fetch req env))) ->
  fr_ok r = false \/ fr_json r = Returned None \/
  fr_json r = Returned (Some (mkOaWork None)) ->
  (exists workId,
     result w (fetch req env) =
     Some (jsonOrText (wantsJson req) 404
             [("error", JStr "No best_oa_location for this work");
              ("work_id", JStr workId)])) /\
  existsb is_store_call (trace w (fetch req env)) = false.
Proof.
  intros [-> | ->] HIn HK.
  - unfold Works.fetch, checkApiKey, fetchOpenAlexWork in *.
    catalog_cases HIn;
      try (destruct HK as [K|[K|K]]; rewrite ?K in *; read_equations;
           congruence);
      (split; [eexists; reflexivity | reflexivity]).
  - unfold Work.fetch, Work.resolve, checkApiKey, fetchOpenAlexWork in *.
    catalog_cases HIn;
      try (destruct HK as [K|[K|K]]; rewrite ?K in *; read_equations;
           congruence);
      (split; [eexists; reflexivity | reflexivity]).
Qed.

(** X17.  A catalog location without an [id] separates the two sources: the
    path endpoint throws (it calls [indexOf] on the missing id), the query
    endpoint answers 502 "Missing best_oa_location.id"; neither touches the
    index or a storage tier. *)
Theorem location_without_id (w : World) (req : Request) (env : Env)
    (fetch : Request -> Env -> Prog Response) (r : FetchResponse) :
  fetch = Works.fetch \/ fetch = Work.fetch ->
  In (Returned r) (collect catalog_answer (trace w (fetch req env))) ->
  fr_ok r = true ->
  fr_json r = Returned (Some (mkOaWork (Some (mkOaLocation None)))) ->
  existsb is_store_call (trace w (fetch req env)) = false /\
  ((fetch = Works.fetch /\ result w (fetch req env) = None) \/
   (fetch = Work.fetch /\
    exists workId,
      result w (fetch req env) =
      Some (jsonOrText (wantsJson req) 502
              [("error", JStr "Missing best_oa_location.id");
               ("work_id", JStr workId)]))).
Proof.
  intros [-> | ->] HIn O J.
  - unfold Works.fetch, checkApiKey, fetchOpenAlexWork in *.
    catalog_cases HIn; rewrite ?O, ?J in *; read_equations; try congruence;
      (split; [reflexivity|]); left; split; reflexivity.
  - unfold Work.fetch, Work.resolve, checkApiKey, fetchOpenAlexWork in *.
    catalog_cases HIn; rewrite ?O, ?J in *; read_equations; try congruence;
      cbn [truthy_opt negb] in *; try congruence;
      (split; [reflexivity|]); right; (split; [reflexivity|]);
      eexists; reflexivity.
Qed.

End Catalog.

(** ** Every answer of the handlers *)

Section Answers.
Context {platform : Platform}.

Lemma serve_json_answers (w : World) (req : Request) (env : Env)
    (g : bool) (served : Prog Response) (t : list Event) (resp : Response) :
  serve_of req env g true served ->
  run w served = (t, Some resp) ->
  exists o, resp = json (status resp) (JObj o).
Proof.
  for_serve; unfold_serve; split_on_run;
    intros E; try discriminate E; injection E as <- <-;
    eexists; reflexivity.
Qed.

Lemma serve_statuses (w : World) (req : Request) (env : Env)
    (g j : bool) (served : Prog Response) (resp : Response) :
  serve_of req env g j served ->
  result w served = Some resp ->
  status resp = 200 \/ status resp = 404 \/ status resp = 500.
Proof.
  for_serve.
  - apply Works_serve_status.
  - apply Work_serve_status.
Qed.

Ltac early_answer req :=
  let E := fresh "E" in
  intros E; try discriminate E; injection E as <-;
  unfold unauthorized, payment_required, jsonOrText, text_response, json;
  destruct (wantsJson req); cbn [status In]; intuition congruence.

(** X18.  Whatever the collaborators answer, a response of either handler
    carries one of the statuses 200, 400, 401, 403, 404, 405, 500 and
    502. *)
Theorem answer_statuses (w : World) (req : Request) (env : Env)
    (fetch : Request -> Env -> Prog Response) (resp : Response) :
  fetch = Works.fetch \/ fetch = Work.fetch ->
  result w (fetch req env) = Some resp ->
  In (status resp) [200; 400; 401; 403; 404; 405; 500; 502].
Proof.
  intros [-> | ->].
  - unfold Works.fetch, checkApiKey, fetchOpenAlexWork.
    run_cases;
      try (intros E; apply Works_serve_status in E; cbn [In]; intuition congruence);
      early_answer req.
  - unfold Work.fetch, Work.resolve, checkApiKey, fetchOpenAlexWork.
    run_cases;
      try (intros E; apply Work_serve_status in E; cbn [In]; intuition congruence);
      early_answer req.
Qed.

Ltac served_json w req env :=
  let E := fresh "E" in
  intros E; left;
  match type of E with
  | snd (run _ ?p) = Some ?resp =>
      assert (P : run w p = (trace w p, Some resp))
        by (rewrite run_pair; unfold result; now rewrite E);
      refine (serve_json_answers w req env _ p _ resp _ P);
      first [ left; do 5 eexists; reflexivity
            | right; do 5 eexists; reflexivity ]
  end.

(** X19.  With [json=true] every answer is a JSON object under its status,
    except the three routing answers produced before the mode is read:
    405, the 404 for an unknown path, and the 400 for a bad [format]. *)
Theorem metadata_answers_are_json (w : World) (req : Request) (env : Env)
    (fetch : Request -> Env -> Prog Response) (resp : Response) :
  fetch = Works.fetch \/ fetch = Work.fetch ->
  wantsJson req = true ->
  result w (fetch req env) = Some resp ->
  (exists o, resp = json (status resp) (JObj o)) \/
  resp = text_response "Method Not Allowed" 405 \/
  resp = text_response "Not Found" 404 \/
  resp = text_response
           "Bad Request: format query parameter must be 'pdf' or 'parsed-pdf'"
           400.
Proof.
  intros [-> | ->] J.
  - unfold Works.fetch, checkApiKey, fetchOpenAlexWork. rewrite J.
    run_cases; try (served_json w req env); intros E; try discriminate E;
      injection E as <-;
      first [ left; eexists; reflexivity | auto ].
  - unfold Work.fetch, Work.resolve, checkApiKey, fetchOpenAlexWork. rewrite J.
    run_cases; try (served_json w req env); intros E; try discriminate E;
      injection E as <-;
      first [ left; eexists; reflexivity | auto ].
Qed.

(** ** No call twice *)

Lemma serve_distinct (w : World) (req : Request) (env : Env)
    (g j : bool) (served : Prog Response) (seen : list Kind)
    (t : list Event) (r : option Response) :
  serve_of req env g j served ->
  (forall k, In k serve_kinds -> existsb (Kind_eqb k) seen = false) ->
  run w served = (t, r) ->
  distinct_kinds seen t = true.
Proof.
  intros S Hk.
  pose proof (Hk KIndex ltac:(cbn; tauto)) as H1.
  pose proof (Hk KHead ltac:(cbn; tauto)) as H2.
  pose proof (Hk KGet ltac:(cbn; tauto)) as H3.
  pose proof (Hk KBackup ltac:(cbn; tauto)) as H4.
  pose proof (Hk KWarn ltac:(cbn; tauto)) as H5.
  pose proof (Hk KError ltac:(cbn; tauto)) as H6.
  clear Hk. revert S.
  for_serve; unfold_serve; split_on_run;
    intros E; injection E as <- <-;
    cbn [distinct_kinds kind_of existsb Kind_eqb orb];
    rewrite ?H1, ?H2, ?H3, ?H4, ?H5, ?H6; reflexivity.
Qed.

Ltac served_distinct w req env :=
  match goal with
  | |- distinct_kinds ?seen (fst (run _ ?p)) = true =>
      refine (serve_distinct w req env _ _ p seen _ _ _ _ (run_pair w p));
      [ first [ left; do 5 eexists; reflexivity
              | right; do 5 eexists; reflexivity ]
      | let k := fresh "k" in
        let K := fresh "K" in
        intros k K; cbn [In serve_kinds] in K;
        repeat (destruct K as [<-|K]; [reflexivity|]); destruct K ]
  end.

(** X20.  One request asks each collaborator at most once: no two calls of
    a trace are of the same kind (key lookup, clock, catalog, index, primary
    HEAD, primary GET, backup, console). *)
Theorem no_call_twice (w : World) (req : Request) (env : Env)
    (fetch : Request -> Env -> Prog Response) :
  fetch = Works.fetch \/ fetch = Work.fetch ->
  distinct_kinds [] (trace w (fetch req env)) = true /\
  NoDup (map kind_of (trace w (fetch req env))).
Proof.
  intros F.
  assert (D : distinct_kinds [] (trace w (fetch req env)) = true).
  { destruct F as [-> | ->].
    - unfold Works.fetch, checkApiKey, fetchOpenAlexWork.
      run_cases; cbn [distinct_kinds kind_of existsb Kind_eqb orb negb andb];
        first [reflexivity | served_distinct w req env].
    - unfold Work.fetch, Work.resolve, checkApiKey, fetchOpenAlexWork.
      run_cases; cbn [distinct_kinds kind_of existsb Kind_eqb orb negb andb];
        first [reflexivity | served_distinct w req env]. }
  split; [exact D|].
  revert D. generalize (trace w (fetch req env)). clear.
  assert (G : forall t seen, distinct_kinds seen t = true ->
              NoDup (map kind_of t) /\
              forall k, In k seen -> ~ In k (map kind_of t)).
  { induction t as [|e t IH]; intros seen H; simpl in *.
    - split; [constructor | auto].
    - apply andb_true_iff in H as [H1 H2].
      destruct (IH _ H2) as [N M]. split.
      + constructor; [|exact N]. apply M. now left.
      + intros k K [<-|I].
        * apply negb_true_iff in H1.
          assert (X : existsb (Kind_eqb (kind_of e)) seen = true).
          { apply existsb_exists. exists (kind_of e). split; [exact K|].
            destruct (kind_of e); reflexivity. }
          congruence.
        * exact (M k (or_intror K) I). }
  intros t D. exact (proj1 (G t [] D)).
Qed.

End Answers.

(** ** What the calls carry *)

Lemma canonical_unreserved (s : string) :
  is_canonical s = true -> all_chars is_uri_unreserved s = true.
Proof.
  assert (D : forall r, all_digits r = true -> all_chars is_uri_unreserved r = true).
  { induction r as [|c r IH]; simpl; [reflexivity|].
    intros H. apply andb_true_iff in H as [Hc Hr].
    rewrite (IH Hr), andb_true_r. unfold is_uri_unreserved. now rewrite Hc. }
  destruct s as [|w [|d r]]; simpl; try discriminate.
  intros H. apply andb_true_iff in H as [H Hr].
  apply andb_true_iff in H as [Hw Hd]. apply Ascii.eqb_eq in Hw. subst w.
  rewrite (D r Hr), andb_true_r. unfold is_uri_unreserved at 2. rewrite Hd.
  reflexivity.
Qed.

Lemma startsWith_append (a b : string) : startsWith (a ++ b) a = true.
Proof.
  induction a as [|c r IH]; simpl; [now destruct b|].
  now rewrite Ascii.eqb_refl, IH.
Qed.

Lemma append_assoc (a b c : string) : (a ++ b) ++ c = a ++ (b ++ c).
Proof. induction a as [|x r IH]; simpl; [reflexivity | now rewrite IH]. Qed.

Lemma s3Url_prefix (env : Env) (bucket key : string) :
  startsWith (s3Url env bucket key)
             ("https://" ++ s3Host bucket (AWS_REGION env) ++ "/") = true.
Proof.
  unfold s3Url.
  replace ("https://" ++ s3Host bucket (AWS_REGION env) ++ "/" ++
           encodeURIComponent key)
    with (("https://" ++ s3Host bucket (AWS_REGION env) ++ "/") ++
          encodeURIComponent key)
    by (now rewrite !append_assoc).
  apply startsWith_append.
Qed.

Lemma forallb_led (q p : Event -> bool) tail t :
  (forall e, p e = true -> q e = true) ->
  led_by p tail t -> forallb q t = forallb q tail.
Proof.
  intros Hq. induction 1 as [|e t He _ IH]; [reflexivity|].
  simpl. now rewrite (Hq e He).
Qed.

Lemma front_kind_matches env g e : is_front e = true -> kind_matches env g e = true.
Proof. by_call e. Qed.

Section Carried.
Context {platform : Platform}.

Lemma serve_kind_matches (w : World) (req : Request) (env : Env)
    (g j : bool) (served : Prog Response) (t : list Event)
    (r : option Response) :
  serve_of req env g j served ->
  run w served = (t, r) ->
  forallb (kind_matches env g) t = true.
Proof.
  for_serve; unfold_serve; split_on_run;
    intros E; injection E as <- <-;
    cbn [forallb kind_matches TableName by_native_id andb];
    rewrite ?s3Url_prefix; destruct g; reflexivity.
Qed.

(** X21.  The artifact kind selects every store consistently: each index
    query goes to the table of the kind, each primary-tier call to its R2
    bucket, and each backup request to the host of its backup bucket. *)
Theorem stores_match_the_kind (w : World) (req : Request) (env : Env)
    (fetch : Request -> Env -> Prog Response) (isGrobid : bool) :
  handler_kind fetch req isGrobid ->
  forallb (kind_matches env isGrobid) (trace w (fetch req env)) = true.
Proof.
  intros K.
  destruct (fetch_decompose w req env fetch isGrobid K) as [[L _] | (served & S & L & R)].
  - now rewrite (forallb_led _ _ _ _ (front_kind_matches env isGrobid) L).
  - rewrite (forallb_led _ _ _ _ (front_kind_matches env isGrobid) L).
    eapply serve_kind_matches; [exact S | apply run_pair].
Qed.

Lemma serve_no_catalog_call (w : World) (req : Request) (env : Env)
    (g j : bool) (served : Prog Response) (t : list Event)
    (r : option Response) :
  serve_of req env g j served ->
  run w served = (t, r) ->
  collect catalog_call t = [] /\ collect catalog_answer t = [] /\
  exists table nativeId,
    collect index_query t = [by_native_id table nativeId] /\
    table = (if g then "grobid-xml" else "harvested-pdf").
Proof.
  for_serve; unfold_serve; split_on_run;
    intros E; injection E as <- <-;
    cbn [collect catalog_call catalog_answer index_query];
    repeat split; do 2 eexists; split; reflexivity.
Qed.

Ltac served_facts w req env :=
  match goal with
  | |- context [fst (run w ?p)] =>
      let S := fresh "S" in
      let C := fresh "C" in
      let A := fresh "A" in
      let Q := fresh "Q" in
      assert (S : exists g j, serve_of req env g j p)
        by (do 2 eexists;
            first [ left; do 5 eexists; reflexivity
                  | right; do 5 eexists; reflexivity ]);
      destruct S as (? & ? & S);
      destruct (serve_no_catalog_call w req env _ _ p _ _ S (run_pair w p))
        as (C & A & ? & ? & Q & ?);
      unfold trace in C, A, Q; rewrite ?C, ?A, ?Q in *
  end.

(** X22.  The catalog is only ever asked for a canonical identifier: every
    catalog call fetches
    [https://api.openalex.org/works/<W and digits>?data-version=2&select=id,best_oa_location]
    with a 300 second edge cache, the identifier appearing unescaped. *)
Theorem catalog_is_asked_for_the_canonical_id (w : World) (req : Request)
    (env : Env) (fetch : Request -> Env -> Prog Response)
    (c : string * Z * bool) :
  fetch = Works.fetch \/ fetch = Work.fetch ->
  In c (collect catalog_call (trace w (fetch req env))) ->
  exists workId,
    is_canonical workId = true /\
    c = ("https://api.openalex.org/works/" ++ workId ++
         "?data-version=2&select=id,best_oa_location", 300, true).
Proof.
  intros [-> | ->].
  - unfold Works.fetch, checkApiKey, fetchOpenAlexWork.
    run_cases; cbn [collect catalog_call app];
      try served_facts w req env; cbn [In app];
      (let H := fresh in intros H; try contradiction;
       destruct H as [<-|H]; try contradiction);
      match goal with
      | N : negb (truthy_opt (Works.normalizeWorkId ?x)) = false |- _ =>
          destruct (Works.normalizeWorkId x) as [wid|] eqn:W;
          [|discriminate N];
          exists wid; pose proof (Works_normalize_canonical _ _ W) as Cn;
          split; [exact Cn|]; cbn [unwrap];
          now rewrite (encodeURIComponent_unreserved _ (canonical_unreserved _ Cn))
      end.
  - unfold Work.fetch, Work.resolve, checkApiKey, fetchOpenAlexWork.
    run_cases; cbn [collect catalog_call app];
      try served_facts w req env; cbn [In app];
      (let H := fresh in intros H; try contradiction;
       destruct H as [<-|H]; try contradiction);
      match goal with
      | D : negb (startsWith ?x "10.") = true |- _ =>
          destruct (startsWith x "10."); [discriminate D|];
          destruct (Work.normalizeWorkId x) as [wid|] eqn:W;
          [|cbn in *; discriminate];
          exists wid; pose proof (Work_normalize_canonical _ _ W) as Cn;
          split; [exact Cn|]; cbn [unwrap];
          now rewrite (encodeURIComponent_unreserved _ (canonical_unreserved _ Cn))
      end.
Qed.

End Carried.

Section Provenance.
Context {platform : Platform}.

Lemma Works_serve_index_query (w : World) (req : Request) (env : Env)
    (g j : bool) (rawId workId locId scheme nativeId : string) :
  collect index_query
    (fst (run w (Works.serve req env g j rawId workId locId scheme nativeId)))
  = [by_native_id (if g then "grobid-xml" else "harvested-pdf") nativeId].
Proof.
  unfold_serve. run_cases; reflexivity.
Qed.

Lemma Work_serve_index_query (w : World) (req : Request) (env : Env)
    (g j : bool) (rawId : string) (workId locId : option string)
    (scheme nativeId : string) :
  collect index_query
    (fst (run w (Work.serve req env g j rawId workId locId scheme nativeId)))
  = [by_native_id (if g then "grobid-xml" else "harvested-pdf") nativeId].
Proof.
  unfold_serve. run_cases; reflexivity.
Qed.

(** X23.  The index is queried on [by_native_id] with limit 1, and the key
    of the query is the text after the first colon of the location id the
    catalog returned in this request; or, when the catalog was not asked, the
    request's own raw id, which then starts with [10.]. *)
Theorem index_key_comes_from_the_catalog (w : World) (req : Request)
    (env : Env) (fetch : Request -> Env -> Prog Response)
    (q : QueryCommand) :
  fetch = Works.fetch \/ fetch = Work.fetch ->
  In q (collect index_query (trace w (fetch req env))) ->
  IndexName q = "by_native_id" /\
  KeyConditionExpression q = "native_id = :nid" /\
  Limit q = 1 /\
  ((exists r locId scheme,
       In (Returned r) (collect catalog_answer (trace w (fetch req env))) /\
       fr_json r
       = Returned (Some (mkOaWork (Some (mkOaLocation (Some locId))))) /\
       splitLocationId locId = Some (scheme, nid q))
   \/
   (startsWith (nth 1 (pathParts req) "") "10." = true /\
    nid q = nth 1 (pathParts req) "" /\
    collect catalog_answer (trace w (fetch req env)) = [])).
Proof.
  intros [-> | ->].
  - unfold Works.fetch, checkApiKey, fetchOpenAlexWork.
    run_cases; cbn [collect index_query catalog_answer app];
      rewrite ?Works_serve_index_query; cbn [In app];
      (let H := fresh in intros H; try contradiction;
       destruct H as [<-|H]; try contradiction).
    all: repeat (split; [reflexivity|]); left;
      match goal with
      | J : fr_json ?r = Returned (Some (mkOaWork (Some ?l))),
        I : loc_id ?l = Some ?s,
        P : splitLocationId ?s = Some (?sc, _) |- _ =>
          exists r, s, sc; split; [now left|]; split; [|exact P];
          rewrite J; destruct l as [li]; simpl in I; now rewrite I
      end.
  - unfold Work.fetch, Work.resolve, checkApiKey, fetchOpenAlexWork.
    run_cases; cbn [collect index_query catalog_answer app];
      rewrite ?Work_serve_index_query; cbn [In app];
      (let H := fresh in intros H; try contradiction;
       destruct H as [<-|H]; try contradiction).
    all: repeat (split; [reflexivity|]).
    all: first
      [ left;
        match goal with
        | J : fr_json ?r = Returned (Some (mkOaWork (Some ?l))),
          P : splitLocationId (unwrap (loc_id ?l)) = Some (?sc, _) |- _ =>
            destruct l as [[li|]]; simpl in *; [|discriminate];
            exists r, li, sc; split; [now left|]; split; [exact J | exact P]
        end
      | right;
        match goal with
        | D : negb (startsWith ?x "10.") = false |- _ =>
            apply negb_false_iff in D; split; [exact D|];
            split; [reflexivity|];
            apply Work_serve_no_catalog_answer
        end ].
Qed.

End Provenance.

(** ** When a handler throws *)

Section Thrown.
Context {platform : Platform}.

Lemma serve_throws (w : World) (req : Request) (env : Env)
    (g j : bool) (served : Prog Response) (t : list Event) :
  serve_of req env g j served ->
  run w served = (t, None) ->
  existsb is_uncaught_fault t = true.
Proof.
  for_serve; unfold_serve; split_on_run;
    intros E; injection E as <-; try discriminate; reflexivity.
Qed.

Ltac catalog_threw :=
  right;
  match goal with
  | O : negb (fr_ok ?r) = false |- _ =>
      exists r; split; [now left|];
      split; [now apply negb_false_iff in O|]
  end;
  match goal with
  | J : fr_json ?r = Raised |- _ => left; exact J
  | J : fr_json ?r = Returned (Some (mkOaWork (Some ?l))) |- _ =>
      right; rewrite J; destruct l as [li]; simpl in *; now subst li
  end.

Ltac served_throws w req env :=
  match goal with
  | |- snd (run w ?p) = None -> _ =>
      let R := fresh "R" in
      intros R; left;
      cbn [existsb is_uncaught_fault orb app];
      eapply (serve_throws w req env _ _ p (fst (run w p)));
      [ first [ left; do 5 eexists; reflexivity
              | right; do 5 eexists; reflexivity ]
      | rewrite <- R; now destruct (run w p) ]
  end.

Lemma Works_throws (w : World) (req : Request) (env : Env) :
  result w (Works.fetch req env) = None ->
  existsb is_uncaught_fault (trace w (Works.fetch req env)) = true \/
  exists r,
    In (Returned r) (collect catalog_answer (trace w (Works.fetch req env))) /\
    fr_ok r = true /\
    (fr_json r = Raised \/
     fr_json r = Returned (Some (mkOaWork (Some (mkOaLocation None))))).
Proof.
  unfold Works.fetch, checkApiKey, fetchOpenAlexWork.
  run_cases; try (intros R; discriminate R).
  all: try served_throws w req env.
  all: intros _; cbn [existsb is_uncaught_fault orb collect catalog_answer In];
    try (left; reflexivity).
  all: catalog_threw.
Qed.

Lemma Work_throws (w : World) (req : Request) (env : Env) :
  result w (Work.fetch req env) = None ->
  existsb is_uncaught_fault (trace w (Work.fetch req env)) = true \/
  exists r,
    In (Returned r) (collect catalog_answer (trace w (Work.fetch req env))) /\
    fr_ok r = true /\ fr_json r = Raised.
Proof.
  unfold Work.fetch, Work.resolve, checkApiKey, fetchOpenAlexWork.
  run_cases; try (intros R; discriminate R).
  all: try served_throws w req env.
  all: intros _; cbn [existsb is_uncaught_fault orb collect catalog_answer In];
    try (left; reflexivity).
  all: right;
    match goal with
    | O : negb (fr_ok ?r) = false, J : fr_json ?r = Raised |- _ =>
        exists r; split; [now left|];
        split; [now apply negb_false_iff in O | exact J]
    end.
Qed.

(** X24.  A handler throws only on a fault that the source does not catch:
    a raising call to the catalog or to a storage tier, a catalog body that
    is not JSON, or (path endpoint only) a location without an id.  Faults of
    the key store and of the index never escape. *)
Theorem throws_only_on_uncaught_faults (w : World) (req : Request)
    (env : Env) (fetch : Request -> Env -> Prog Response) :
  fetch = Works.fetch \/ fetch = Work.fetch ->
  result w (fetch req env) = None ->
  existsb is_uncaught_fault (trace w (fetch req env)) = true \/
  exists r,
    In (Returned r) (collect catalog_answer (trace w (fetch req env))) /\
    fr_ok r = true /\
    (fr_json r = Raised \/
     (fetch = Works.fetch /\
      fr_json r = Returned (Some (mkOaWork (Some (mkOaLocation None)))))).
Proof.
  intros [-> | ->] R.
  - destruct (Works_throws w req env R) as [F | (r & I & O & [J | J])].
    + now left.
    + right. exists r. auto.
    + right. exists r. auto.
  - destruct (Work_throws w req env R) as [F | (r & I & O & J)].
    + now left.
    + right. exists r. auto.
Qed.

End Thrown.

(** ** Instances *)

Lemma data_calls_need_a_paid_key_witness :
  result primary_world (@checkApiKey example_platform pdf_request example_env)
  = Some (mkAuthResult true true None) /\
  exists x t,
    trace primary_world (@Works.fetch example_platform pdf_request example_env)
    = Ev (D1_first api_key_query (unwrap (presentedKey pdf_request))) x :: t.
Proof.
  apply (@data_calls_need_a_paid_key example_platform primary_world pdf_request
           example_env (@Works.fetch example_platform)).
  - left. reflexivity.
  - vm_compute. reflexivity.
Defined.

Lemma rejections_come_from_the_gate_witness :
  exists a,
    result unpaid_world (@checkApiKey example_platform pdf_request example_env)
    = Some a /\
    trace unpaid_world (@Works.fetch example_platform pdf_request example_env)
    = trace unpaid_world (@checkApiKey example_platform pdf_request example_env) /\
    existsb is_data_call
      (trace unpaid_world
             (@Works.fetch example_platform pdf_request example_env)) = false /\
    (status (payment_required false) = 401 ->
     valid a = false /\
     payment_required false = unauthorized (wantsJson pdf_request) a) /\
    (status (payment_required false) = 403 ->
     valid a = true /\ hasCreditCard a = false /\
     payment_required false = payment_required (wantsJson pdf_request)).
Proof.
  apply (@rejections_come_from_the_gate example_platform unpaid_world
           pdf_request example_env (@Works.fetch example_platform)
           (payment_required false)).
  - left. reflexivity.
  - vm_compute. reflexivity.
  - right. vm_compute. reflexivity.
Defined.

Lemma index_fault_is_500_witness :
  exists resp,
    result index_down_world
           (@Works.fetch example_platform pdf_request example_env) = Some resp /\
    status resp = 500 /\
    existsb is_tier_call
      (trace index_down_world
             (@Works.fetch example_platform pdf_request example_env)) = false /\
    existsb is_console_error
      (trace index_down_world
             (@Works.fetch example_platform pdf_request example_env)) = true /\
    (wantsJson pdf_request = false ->
     body resp = BodyText "Internal server error (DynamoDB)").
Proof.
  apply (@index_fault_is_500 example_platform index_down_world pdf_request
           example_env (@Works.fetch example_platform) false).
  - left. split; reflexivity.
  - vm_compute. left. reflexivity.
Defined.

Lemma stream_unmapped_is_404_witness :
  result unmapped_world (@Works.fetch example_platform pdf_request example_env)
  = Some (text_response
            (fileTypeName false ++ " mapping not found (native_id not in DB)")
            404) /\
  existsb is_tier_call
    (trace unmapped_world
           (@Works.fetch example_platform pdf_request example_env)) = false.
Proof.
  apply (@stream_unmapped_is_404 example_platform unmapped_world pdf_request
           example_env (@Works.fetch example_platform) false
           (or_introl (conj eq_refl eq_refl)) (mkQueryOutput (Some []))).
  - reflexivity.
  - vm_compute. left. reflexivity.
  - reflexivity.
Defined.

Lemma metadata_descriptor_witness :
  exists o,
    json 200 (JObj primary_descriptor) = json 200 (JObj o) /\
    prop o "mapping_found_in_dynamodb" = Some (JBool true) /\
    prop o "file_uuid" = Some (JStr "u1") /\
    prop o "file_key" = Some (JStr "u1.pdf") /\
    prop o "in_r2" = Some (JBool true) /\
    prop o "in_s3" = Some (JBool true) /\
    prop o "download_url" =
      Some (JStr (@URL_toString example_platform
                    (searchParams_delete (url json_request) "json"))) /\
    collect backup_method
      (trace primary_world
             (@Works.fetch example_platform json_request example_env))
    = ["HEAD"] /\
    (forall k,
       In k (collect primary_key
               (trace primary_world
                      (@Works.fetch example_platform json_request example_env))) ->
       k = "u1.pdf").
Proof.
  exact (@metadata_descriptor example_platform primary_world json_request
           example_env (@Works.fetch example_platform) false
           (or_introl (conj eq_refl eq_refl))
           (mkQueryOutput (Some [mkItem (Some "u1")])) "u1"
           (json 200 (JObj primary_descriptor))
           eq_refl (or_introl eq_refl) eq_refl eq_refl).
Defined.

Lemma stream_outcome_witness :
  let t := trace backup_only_world
                 (@Work.fetch example_platform doi_request example_env) in
  (status backup_response =? 200) =
  any_object (collect primary_get_answer t) ||
  any_200 (collect backup_answer t) /\
  (status backup_response = 200 \/
   backup_response =
   text_response
     (fileTypeName false ++ " not found in R2 or S3 (" ++ "u1.pdf" ++ ")") 404) /\
  collect primary_key t = ["u1.pdf"] /\
  collect head_answer t = [] /\
  (forall m, In m (collect backup_method t) -> m = "GET") /\
  (any_object (collect primary_get_answer t) = false ->
   status backup_response = 200 ->
   exists r,
     In (Returned r) (collect backup_answer t) /\
     body backup_response = BodyStream (resp_body r)).
Proof.
  exact (@stream_outcome example_platform backup_only_world doi_request
           example_env (@Work.fetch example_platform) false
           (or_intror (conj eq_refl eq_refl))
           (mkQueryOutput (Some [mkItem (Some "u1")])) "u1" backup_response
           eq_refl (or_introl eq_refl) eq_refl eq_refl).
Defined.

Lemma stream_success_headers_witness :
  let t := trace backup_only_world
                 (@Work.fetch example_platform doi_request example_env) in
  headers_get (headers backup_response) "Cache-Control"
  = Some "private, no-store" /\
  (any_object (collect primary_get_answer t) = true ->
   headers_get (headers backup_response) "Content-Type"
   = Some (contentTypeOf false)) /\
  (any_object (collect primary_get_answer t) = false ->
   exists r,
     In (Returned r) (collect backup_answer t) /\
     headers_get (headers backup_response) "Content-Type" =
     Some (if truthy_opt (headers_get (resp_headers r) "content-type")
           then unwrap (headers_get (resp_headers r) "content-type")
           else contentTypeOf false) /\
     headers_get (headers backup_response) "Content-Length" =
     (if truthy_opt (headers_get (resp_headers r) "content-length")
      then headers_get (resp_headers r) "content-length"
      else None)).
Proof.
  exact (@stream_success_headers example_platform backup_only_world doi_request
           example_env (@Work.fetch example_platform) false
           (or_intror (conj eq_refl eq_refl)) backup_response
           eq_refl eq_refl eq_refl).
Defined.

Lemma catalog_miss_is_404_witness :
  (exists workId,
     result catalog_miss_world
            (@Works.fetch example_platform pdf_request example_env)
     = Some (jsonOrText (wantsJson pdf_request) 404
               [("error", JStr "No best_oa_location for this work");
                ("work_id", JStr workId)])) /\
  existsb is_store_call
    (trace catalog_miss_world
           (@Works.fetch example_platform pdf_request example_env)) = false.
Proof.
  exact (@catalog_miss_is_404 example_platform catalog_miss_world pdf_request
           example_env (@Works.fetch example_platform) catalog_miss
           (or_introl eq_refl) (or_introl eq_refl) (or_introl eq_refl)).
Defined.

Lemma location_without_id_witness :
  existsb is_store_call
    (trace no_id_world
           (@Work.fetch example_platform
              (get_request "/work/W1" [("api_key", "k"); ("format", "pdf")])
              example_env)) = false /\
  exists workId,
    result no_id_world
           (@Work.fetch example_platform
              (get_request "/work/W1" [("api_key", "k"); ("format", "pdf")])
              example_env)
    = Some (jsonOrText false 502
              [("error", JStr "Missing best_oa_location.id");
               ("work_id", JStr workId)]).
Proof.
  destruct (@location_without_id example_platform no_id_world
              (get_request "/work/W1" [("api_key", "k"); ("format", "pdf")])
              example_env (@Work.fetch example_platform) location_no_id
              (or_intror eq_refl) (or_introl eq_refl) eq_refl eq_refl)
    as [S [[_ R] | [_ R]]].
  - vm_compute in R. discriminate R.
  - split; [exact S | exact R].
Defined.

Lemma answer_statuses_witness :
  In (status (text_response "PDF mapping not found (native_id not in DB)" 404))
     [200; 400; 401; 403; 404; 405; 500; 502].
Proof.
  exact (@answer_statuses example_platform unmapped_world pdf_request
           example_env (@Works.fetch example_platform)
           (text_response "PDF mapping not found (native_id not in DB)" 404)
           (or_introl eq_refl) eq_refl).
Defined.

Lemma metadata_answers_are_json_witness :
  let resp :=
    jsonOrText true 404 [("error", JStr "No best_oa_location for this work");
                         ("work_id", JStr "W12345")] in
  (exists o, resp = json (status resp) (JObj o)) \/
  resp = text_response "Method Not Allowed" 405 \/
  resp = text_response "Not Found" 404 \/
  resp = text_response
           "Bad Request: format query parameter must be 'pdf' or 'parsed-pdf'"
           400.
Proof.
  exact (@metadata_answers_are_json example_platform catalog_miss_world
           json_request example_env (@Works.fetch example_platform)
           (jsonOrText true 404
              [("error", JStr "No best_oa_location for this work");
               ("work_id", JStr "W12345")])
           (or_introl eq_refl) eq_refl eq_refl).
Defined.

Lemma no_call_twice_witness :
  distinct_kinds []
    (trace backup_only_world
           (@Works.fetch example_platform json_request example_env)) = true /\
  NoDup (map kind_of
           (trace backup_only_world
                  (@Works.fetch example_platform json_request example_env))).
Proof.
  exact (@no_call_twice example_platform backup_only_world json_request
           example_env (@Works.fetch example_platform) (or_introl eq_refl)).
Defined.

Lemma stores_match_the_kind_witness :
  forallb (kind_matches example_env false)
    (trace backup_only_world
           (@Works.fetch example_platform pdf_request example_env)) = true.
Proof.
  exact (@stores_match_the_kind example_platform backup_only_world pdf_request
           example_env (@Works.fetch example_platform) false
           (or_introl (conj eq_refl eq_refl))).
Defined.

Lemma catalog_is_asked_for_the_canonical_id_witness :
  exists workId,
    is_canonical workId = true /\
    ("https://api.openalex.org/works/W12345?data-version=2&select=id,best_oa_location",
     300, true)
    = ("https://api.openalex.org/works/" ++ workId ++
       "?data-version=2&select=id,best_oa_location", 300, true).
Proof.
  exact (@catalog_is_asked_for_the_canonical_id example_platform
           unmapped_world pdf_request example_env
           (@Works.fetch example_platform)
           ("https://api.openalex.org/works/W12345?data-version=2&select=id,best_oa_location",
            300, true)
           (or_introl eq_refl) (or_introl eq_refl)).
Defined.

Lemma index_key_comes_from_the_catalog_witness :
  let t := trace unmapped_world
                 (@Works.fetch example_platform pdf_request example_env) in
  let q := by_native_id "harvested-pdf" "10.1/abc" in
  IndexName q = "by_native_id" /\
  KeyConditionExpression q = "native_id = :nid" /\
  Limit q = 1 /\
  ((exists r locId scheme,
      In (Returned r) (collect catalog_answer t) /\
      fr_json r
      = Returned (Some (mkOaWork (Some (mkOaLocation (Some locId))))) /\
      splitLocationId locId = Some (scheme, nid q))
   \/
   (startsWith (nth 1 (pathParts pdf_request) "") "10." = true /\
    nid q = nth 1 (pathParts pdf_request) "" /\
    collect catalog_answer t = [])).
Proof.
  exact (@index_key_comes_from_the_catalog example_platform unmapped_world
           pdf_request example_env (@Works.fetch example_platform)
           (by_native_id "harvested-pdf" "10.1/abc")
           (or_introl eq_refl) (or_introl eq_refl)).
Defined.

Lemma throws_only_on_uncaught_faults_witness :
  let t := trace primary_down_world
                 (@Works.fetch example_platform pdf_request example_env) in
  existsb is_uncaught_fault t = true \/
  exists r,
    In (Returned r) (collect catalog_answer t) /\
    fr_ok r = true /\
    (fr_json r = Raised \/
     (@Works.fetch example_platform = @Works.fetch example_platform /\
      fr_json r = Returned (Some (mkOaWork (Some (mkOaLocation None)))))).
Proof.
  exact (@throws_only_on_uncaught_faults example_platform primary_down_world
           pdf_request example_env (@Works.fetch example_platform)
           (or_introl eq_refl) eq_refl).
Defined.
